(** * PIP identity ingester: validation and normalization

    A shallow embedding of [src/core/ingester.py] (functions
    [validate_identity], [_validate_preferences], [_validate_behaviors],
    [_is_valid_iso8601], [normalize_identity], [ingest_identity],
    [extract_preferences] and [extract_behaviors]) and of the SDK built on
    it ([src/sdk/python/pip_sdk.py]), together with the properties of the
    validation and normalization engine.  The date-time parser and the
    network are parameters of the functions that use them.

    Python values that [json] can decode are modelled by the type [value];
    Python dictionaries are finite maps with string keys ([gmap string value]),
    whose equality is the order-insensitive equality of Python's [==] on
    dictionaries.  Exceptions are modelled by the [result] monad.

    A Python string is modelled by its UTF-8 encoding, one [ascii] for
    each byte.  Equality, concatenation, the substring test, [startswith],
    [replace] and the classes [[a-z]] and [[A-Z]] of a pattern act on the
    encoding as they act on the code points.  The class [\d] of a [str]
    pattern matches every Unicode decimal digit: the ASCII digits are
    recognised here, the others are decoded and left to a parameter,
    Python's Unicode database. *)

From Stdlib Require Import ZArith String Ascii List Bool.
From Stdlib Require Import Floats.SpecFloat.
From stdpp Require Import base option gmap strings list fin_maps pretty.

Set Warnings "-register-all".

(** * The program *)

(** ** JSON-decoded Python values *)

Inductive value : Type :=
| VNone
| VBool (b : bool)
| VInt (n : Z)
| VFloat (f : spec_float)
| VStr (s : string)
| VList (l : list value)
| VDict (d : gmap string value).

(** ** Exceptions *)

Inductive exn : Type :=
| ValueError (msg : string)
| TypeError
| AttributeError
| KeyError.

Inductive result (A : Type) : Type :=
| Ok (a : A)
| Raise (e : exn).

Arguments Ok {A} a.
Arguments Raise {A} e.

#[global] Instance result_ret : MRet result := fun A a => Ok a.

#[global] Instance result_bind : MBind result := fun A B f r =>
  match r with
  | Ok a => f a
  | Raise e => Raise e
  end.

(** ** Python primitives on values *)

Module Py.

(** Truth value of an object, as tested by [not x]. *)
Definition truthy (v : value) : bool :=
  match v with
  | VNone => false
  | VBool b => b
  | VInt n => negb (n =? 0)%Z
  | VFloat f => match f with S754_zero _ => false | _ => true end
  | VStr s => negb (bool_decide (s = EmptyString))
  | VList l => match l with [] => false | _ => true end
  | VDict d => negb (bool_decide (d = ∅))
  end.

Definition isinstance_dict (v : value) : bool :=
  match v with VDict _ => true | _ => false end.

Definition isinstance_str (v : value) : bool :=
  match v with VStr _ => true | _ => false end.

Definition isinstance_list (v : value) : bool :=
  match v with VList _ => true | _ => false end.

(** [isinstance(v, (int, float))]: [bool] is a subclass of [int]. *)
Definition isinstance_int_float (v : value) : bool :=
  match v with VBool _ | VInt _ | VFloat _ => true | _ => false end.

(** [v == s] for a string constant [s]. *)
Definition eq_str (v : value) (s : string) : bool :=
  match v with
  | VStr t => bool_decide (t = s)
  | _ => false
  end.

(** [v not in [s1, ..., sn]] for a list of string constants. *)
Definition not_in (v : value) (allowed : list string) : bool :=
  negb (existsb (eq_str v) allowed).

Fixpoint is_substring (needle hay : string) : bool :=
  String.prefix needle hay ||
  match hay with
  | EmptyString => false
  | String _ rest => is_substring needle rest
  end.

(** [key in container] for a string [key]: key membership on a dictionary,
    element membership on a list, substring test on a string, and a
    [TypeError] on every other object. *)
Definition contains (key : string) (container : value) : result bool :=
  match container with
  | VDict d => Ok (bool_decide (is_Some (d !! key)))
  | VList l => Ok (existsb (fun x => eq_str x key) l)
  | VStr s => Ok (is_substring key s)
  | _ => Raise TypeError
  end.

(** [container[key]] for a string [key]. *)
Definition getitem (container : value) (key : string) : result value :=
  match container with
  | VDict d =>
      match d !! key with
      | Some v => Ok v
      | None => Raise KeyError
      end
  | _ => Raise TypeError
  end.

(** [obj.get(key, dflt)]: only dictionaries have the method. *)
Definition get (obj : value) (key : string) (dflt : value) : result value :=
  match obj with
  | VDict d => Ok (default dflt (d !! key))
  | _ => Raise AttributeError
  end.

(** [**obj] inside a dictionary display. *)
Definition spread (obj : value) : result (gmap string value) :=
  match obj with
  | VDict d => Ok d
  | _ => Raise TypeError
  end.

(** [sep.join(items)]: every item must be a string. *)
Fixpoint strings_of (items : list value) : result (list string) :=
  match items with
  | [] => Ok []
  | VStr s :: rest => l ← strings_of rest; Ok (s :: l)
  | _ :: _ => Raise TypeError
  end.

Fixpoint join_strings (sep : string) (l : list string) : string :=
  match l with
  | [] => EmptyString
  | [s] => s
  | s :: rest => String.append s (String.append sep (join_strings sep rest))
  end.

Definition join (sep : string) (items : list value) : result string :=
  l ← strings_of items; Ok (join_strings sep l).

(** [v < 0] for [v] an instance of [int] or [float]. *)
Definition lt_zero (v : value) : bool :=
  match v with
  | VInt n => (n <? 0)%Z
  | VFloat f => SFltb f (S754_zero false)
  | _ => false
  end.

(** [s.replace('Z', '+00:00')]. *)
Fixpoint replace_Z (s : string) : string :=
  match s with
  | EmptyString => EmptyString
  | String c rest =>
      if bool_decide (c = "Z"%char)
      then String.append "+00:00" (replace_Z rest)
      else String c (replace_Z rest)
  end.

End Py.

(** ** The three regular expressions of the validator *)

Module Re.

(** The ASCII digits. *)
Definition ascii_digit (c : ascii) : bool :=
  let n := nat_of_ascii c in (48 <=? n)%nat && (n <=? 57)%nat.

Definition is_lower (c : ascii) : bool :=
  let n := nat_of_ascii c in (97 <=? n)%nat && (n <=? 122)%nat.

Definition is_upper (c : ascii) : bool :=
  let n := nat_of_ascii c in (65 <=? n)%nat && (n <=? 90)%nat.

(** [$]: the end of the string, or the position just before a final newline. *)
Definition at_end (s : string) : bool :=
  match s with
  | EmptyString => true
  | String c EmptyString => bool_decide (c = "010"%char)
  | _ => false
  end.

(** The code point of a character that UTF-8 encodes on two, three or four
    bytes: a lead byte and its continuation bytes. *)
Definition continuation (c : ascii) : bool :=
  (128 <=? N_of_ascii c)%N && (N_of_ascii c <=? 191)%N.

Definition low6 (c : ascii) : N := (N_of_ascii c mod 64)%N.

Definition two_bytes (a b : ascii) : option N :=
  if (194 <=? N_of_ascii a)%N && (N_of_ascii a <=? 223)%N && continuation b
  then Some ((N_of_ascii a - 192) * 64 + low6 b)%N
  else None.

Definition three_bytes (a b c : ascii) : option N :=
  if (224 <=? N_of_ascii a)%N && (N_of_ascii a <=? 239)%N &&
     continuation b && continuation c
  then Some ((N_of_ascii a - 224) * 4096 + low6 b * 64 + low6 c)%N
  else None.

Definition four_bytes (a b c d : ascii) : option N :=
  if (240 <=? N_of_ascii a)%N && (N_of_ascii a <=? 244)%N &&
     continuation b && continuation c && continuation d
  then Some ((N_of_ascii a - 240) * 262144 + low6 b * 4096 + low6 c * 64 + low6 d)%N
  else None.

(** [\d] on a character beyond ASCII: [decimal] tells which code points
    Python's Unicode database holds as decimal digits. *)
Definition wide_digit (decimal : N -> bool) (code : option N) : bool :=
  match code with
  | Some n => decimal n
  | None => false
  end.

(** [\d*]: what is left of [s] after its leading decimal digits. *)
Fixpoint skip_digits (decimal : N -> bool) (s : string) : string :=
  match s with
  | EmptyString => EmptyString
  | String a rest1 =>
      if ascii_digit a then skip_digits decimal rest1
      else
        match rest1 with
        | String b rest2 =>
            if wide_digit decimal (two_bytes a b) then skip_digits decimal rest2
            else
              match rest2 with
              | String c rest3 =>
                  if wide_digit decimal (three_bytes a b c)
                  then skip_digits decimal rest3
                  else
                    match rest3 with
                    | String d rest4 =>
                        if wide_digit decimal (four_bytes a b c d)
                        then skip_digits decimal rest4
                        else s
                    | EmptyString => s
                    end
              | EmptyString => s
              end
        | EmptyString => s
        end
  end.

(** [\d]: what is left of [s] after one decimal digit. *)
Definition digit (decimal : N -> bool) (s : string) : option string :=
  match s with
  | EmptyString => None
  | String a rest1 =>
      if ascii_digit a then Some rest1
      else
        match rest1 with
        | String b rest2 =>
            if wide_digit decimal (two_bytes a b) then Some rest2
            else
              match rest2 with
              | String c rest3 =>
                  if wide_digit decimal (three_bytes a b c) then Some rest3
                  else
                    match rest3 with
                    | String d rest4 =>
                        if wide_digit decimal (four_bytes a b c d)
                        then Some rest4
                        else None
                    | EmptyString => None
                    end
              | EmptyString => None
              end
        | EmptyString => None
        end
  end.

(** [\d+], which is followed in the pattern by a character that is no digit. *)
Definition digits1 (decimal : N -> bool) (s : string) : option string :=
  rest ← digit decimal s; Some (skip_digits decimal rest).

Definition dot (s : string) : option string :=
  match s with
  | String c rest => if bool_decide (c = "."%char) then Some rest else None
  | EmptyString => None
  end.

(** [^\d+\.\d+\.\d+$] *)
Definition match_semver (decimal : N -> bool) (s : string) : bool :=
  match r ← digits1 decimal s; r ← dot r;
        r ← digits1 decimal r; r ← dot r; digits1 decimal r with
  | Some rest => at_end rest
  | None => false
  end.

(** [^[a-z]{2}(-[A-Z]{2})?$] *)
Definition match_language (s : string) : bool :=
  match s with
  | String a (String b rest) =>
      is_lower a && is_lower b &&
      (match rest with
       | String h (String c (String d rest')) =>
           bool_decide (h = "-"%char) && is_upper c && is_upper d && at_end rest'
       | _ => false
       end || at_end rest)
  | _ => false
  end.

(** [^[A-Z]{3}$] *)
Definition match_currency (s : string) : bool :=
  match s with
  | String a (String b (String c rest)) =>
      is_upper a && is_upper b && is_upper c && at_end rest
  | _ => false
  end.

(** [re.match(pattern, v)], as a truth value: a [TypeError] unless [v] is
    a string. *)
Definition re_match (pattern : string -> bool) (v : value) : result bool :=
  match v with
  | VStr s => Ok (pattern s)
  | _ => Raise TypeError
  end.

End Re.

(** ** Error messages of the validator *)

Module Msg.

Definition quoted (s : string) : string :=
  String "034"%char (String.append s (String "034"%char EmptyString)).

Definition not_a_dictionary : string := "Identity must be a dictionary".
Definition version_missing : string := "Missing required field: version".
Definition version_not_string : string :=
  String.append "Field " (String.append (quoted "version") " must be a string").
Definition version_not_semver : string :=
  String.append "Field "
    (String.append (quoted "version")
       (String.append " must follow semantic versioning (e.g., "
          (String.append (quoted "0.1.0") ")"))).
Definition metadata_missing : string := "Missing required field: metadata".
Definition created_missing : string := "Missing required field: metadata.created".
Definition created_invalid : string :=
  String.append "Field "
    (String.append (quoted "metadata.created") " must be a valid ISO 8601 date-time").
Definition updated_missing : string := "Missing required field: metadata.updated".
Definition updated_invalid : string :=
  String.append "Field "
    (String.append (quoted "metadata.updated") " must be a valid ISO 8601 date-time").
Definition preferences_not_dict : string := "Preferences must be a dictionary".
Definition behaviors_not_dict : string := "Behaviors must be a dictionary".
Definition channels_not_list : string := "notifications.channels must be a list".
Definition channels_prefix : string := "Invalid notification channels: ".
Definition language_invalid : string :=
  "Invalid content.language format (expected ISO 639-1)".
Definition currency_invalid : string :=
  "Invalid content.currency format (expected ISO 4217)".
Definition max_amount_invalid : string :=
  "risk.maxTransactionAmount must be a non-negative number".

End Msg.

(** ** The validator *)

(** The value returned by [validate_identity]: the dictionary with the two
    keys ['valid'] and ['errors']. *)
Record validation : Type := Validation {
  valid : bool;
  errors : list string
}.

(** [if cond: errors.append(msg)] *)
Definition append_if (cond : bool) (msg : string) (errors : list string)
  : list string :=
  if cond then errors ++ [msg] else errors.

(** [if field in obj and obj[field] not in allowed: errors.append(msg)] *)
Definition check_enum (obj : value) (field : string) (allowed : list string)
    (msg : string) (errors : list string) : result (list string) :=
  present ← Py.contains field obj;
  if present : bool
  then v ← Py.getitem obj field; Ok (append_if (Py.not_in v allowed) msg errors)
  else Ok errors.

(** [if field in obj and not re.match(pattern, obj[field]): errors.append(msg)] *)
Definition check_regex (obj : value) (field : string) (pattern : string -> bool)
    (msg : string) (errors : list string) : result (list string) :=
  present ← Py.contains field obj;
  if present : bool
  then v ← Py.getitem obj field;
       matched ← Re.re_match pattern v;
       Ok (append_if (negb matched) msg errors)
  else Ok errors.

Definition valid_channels : list string := ["in-app"; "email"; "push"; "sms"].

(** Lines 107-114: the check of [notifications.channels]. *)
Definition check_channels (notifications : value) (errors : list string)
  : result (list string) :=
  present ← Py.contains "channels" notifications;
  if present : bool
  then
    channels ← Py.getitem notifications "channels";
    match channels with
    | VList l =>
        let invalid_channels :=
          List.filter (fun ch => Py.not_in ch valid_channels) l in
        if Py.truthy (VList invalid_channels)
        then joined ← Py.join ", " invalid_channels;
             Ok (errors ++ [String.append Msg.channels_prefix joined])
        else Ok errors
    | _ => Ok (errors ++ [Msg.channels_not_list])
    end
  else Ok errors.

(** Lines 145-147: the check of [risk.maxTransactionAmount]. *)
Definition check_max_amount (risk : value) (errors : list string)
  : result (list string) :=
  present ← Py.contains "maxTransactionAmount" risk;
  if present : bool
  then
    amount ← Py.getitem risk "maxTransactionAmount";
    Ok (append_if (negb (Py.isinstance_int_float amount) || Py.lt_zero amount)
          Msg.max_amount_invalid errors)
  else Ok errors.

Definition validate_ui (preferences : gmap string value) (errors : list string)
  : result (list string) :=
  match preferences !! "ui" with
  | Some ui =>
      errors ← check_enum ui "theme" ["light"; "dark"; "auto"; "high-contrast"]
                 "Invalid ui.theme value" errors;
      errors ← check_enum ui "density" ["compact"; "comfortable"; "spacious"]
                 "Invalid ui.density value" errors;
      errors ← check_enum ui "fontSize" ["small"; "medium"; "large"; "xlarge"]
                 "Invalid ui.fontSize value" errors;
      Ok errors
  | None => Ok errors
  end.

Definition validate_interaction (preferences : gmap string value)
    (errors : list string) : result (list string) :=
  match preferences !! "interaction" with
  | Some interaction =>
      errors ← check_enum interaction "tone"
                 ["formal"; "casual"; "friendly"; "professional"; "minimal"]
                 "Invalid interaction.tone value" errors;
      errors ← check_enum interaction "verbosity"
                 ["minimal"; "moderate"; "detailed"; "verbose"]
                 "Invalid interaction.verbosity value" errors;
      errors ← check_enum interaction "confirmationStyle"
                 ["always"; "destructive-only"; "never"]
                 "Invalid interaction.confirmationStyle value" errors;
      Ok errors
  | None => Ok errors
  end.

Definition validate_automation (preferences : gmap string value)
    (errors : list string) : result (list string) :=
  match preferences !! "automation" with
  | Some automation =>
      errors ← check_enum automation "level"
                 ["none"; "suggestions"; "auto-approve-safe"; "aggressive"]
                 "Invalid automation.level value" errors;
      errors ← check_enum automation "maxAutomationScope"
                 ["local"; "session"; "account"; "global"]
                 "Invalid automation.maxAutomationScope value" errors;
      Ok errors
  | None => Ok errors
  end.

Definition validate_notifications (preferences : gmap string value)
    (errors : list string) : result (list string) :=
  match preferences !! "notifications" with
  | Some notifications =>
      errors ← check_enum notifications "frequency"
                 ["realtime"; "batched"; "digest"; "off"]
                 "Invalid notifications.frequency value" errors;
      errors ← check_channels notifications errors;
      Ok errors
  | None => Ok errors
  end.

Definition validate_content (preferences : gmap string value)
    (errors : list string) : result (list string) :=
  match preferences !! "content" with
  | Some content =>
      errors ← check_regex content "language" Re.match_language
                 Msg.language_invalid errors;
      errors ← check_enum content "dateFormat" ["ISO"; "US"; "EU"; "relative"]
                 "Invalid content.dateFormat value" errors;
      errors ← check_enum content "timeFormat" ["12h"; "24h"]
                 "Invalid content.timeFormat value" errors;
      errors ← check_regex content "currency" Re.match_currency
                 Msg.currency_invalid errors;
      Ok errors
  | None => Ok errors
  end.

Definition validate_privacy (preferences : gmap string value)
    (errors : list string) : result (list string) :=
  match preferences !! "privacy" with
  | Some privacy =>
      errors ← check_enum privacy "dataSharing" ["none"; "anonymized"; "full"]
                 "Invalid privacy.dataSharing value" errors;
      Ok errors
  | None => Ok errors
  end.

Definition validate_accessibility (preferences : gmap string value)
    (errors : list string) : result (list string) :=
  match preferences !! "accessibility" with
  | Some accessibility =>
      errors ← check_enum accessibility "focusIndicators"
                 ["minimal"; "standard"; "enhanced"]
                 "Invalid accessibility.focusIndicators value" errors;
      Ok errors
  | None => Ok errors
  end.

Definition validate_risk (preferences : gmap string value)
    (errors : list string) : result (list string) :=
  match preferences !! "risk" with
  | Some risk =>
      errors ← check_enum risk "tolerance"
                 ["conservative"; "moderate"; "aggressive"]
                 "Invalid risk.tolerance value" errors;
      errors ← check_max_amount risk errors;
      Ok errors
  | None => Ok errors
  end.

(** [_validate_preferences], lines 67-149. *)
Definition _validate_preferences (preferences : value) : result (list string) :=
  match preferences with
  | VDict p =>
      errors ← validate_ui p [];
      errors ← validate_interaction p errors;
      errors ← validate_automation p errors;
      errors ← validate_notifications p errors;
      errors ← validate_content p errors;
      errors ← validate_privacy p errors;
      errors ← validate_accessibility p errors;
      errors ← validate_risk p errors;
      Ok errors
  | _ => Ok [Msg.preferences_not_dict]
  end.

(** [_validate_behaviors], lines 152-168. *)
Definition _validate_behaviors (behaviors : value) : result (list string) :=
  match behaviors with
  | VDict _ =>
      errors ← check_enum behaviors "workflow"
                 ["linear"; "exploratory"; "task-focused"; "multi-tasking"]
                 "Invalid behaviors.workflow value" [];
      errors ← check_enum behaviors "learningStyle"
                 ["tutorial"; "examples"; "trial-and-error"; "documentation"]
                 "Invalid behaviors.learningStyle value" errors;
      errors ← check_enum behaviors "decisionSpeed"
                 ["deliberate"; "balanced"; "quick"]
                 "Invalid behaviors.decisionSpeed value" errors;
      Ok errors
  | _ => Ok [Msg.behaviors_not_dict]
  end.

Section Validator.

(** [datetime.fromisoformat] belongs to Python's standard library, and the
    strings it accepts differ between Python versions.  The validator is
    parameterised by it: [None] stands for the [ValueError] it raises on a
    string it cannot parse. *)
Variable datetime : Type.
Variable fromisoformat : string -> option datetime.

(** The decimal digits beyond ASCII of Python's Unicode database, which the
    class [\d] of the version pattern consults. *)
Variable decimal : N -> bool.

(** [_is_valid_iso8601], lines 171-179. *)
Definition _is_valid_iso8601 (date_string : value) : bool :=
  match date_string with
  | VStr s =>
      match fromisoformat (Py.replace_Z s) with
      | Some _ => Py.is_substring "T" s
      | None => false
      end
  | _ => false
  end.

(** Lines 30-35: the check of [version]. *)
Definition validate_version (identity : gmap string value) (errors : list string)
  : list string :=
  match identity !! "version" with
  | None => errors ++ [Msg.version_missing]
  | Some (VStr s) =>
      if negb (Re.match_semver decimal s) then errors ++ [Msg.version_not_semver]
      else errors
  | Some _ => errors ++ [Msg.version_not_string]
  end.

(** Lines 41-44 and 46-49: the check of one of the two time stamps. *)
Definition check_timestamp (metadata : value) (field : string)
    (missing invalid : string) (errors : list string) : result (list string) :=
  present ← Py.contains field metadata;
  if negb present
  then Ok (errors ++ [missing])
  else stamp ← Py.getitem metadata field;
       Ok (append_if (negb (_is_valid_iso8601 stamp)) invalid errors).

(** Lines 37-49: the check of [metadata]. *)
Definition validate_metadata (identity : gmap string value) (errors : list string)
  : result (list string) :=
  match identity !! "metadata" with
  | None => Ok (errors ++ [Msg.metadata_missing])
  | Some metadata =>
      errors ← check_timestamp metadata "created"
                 Msg.created_missing Msg.created_invalid errors;
      errors ← check_timestamp metadata "updated"
                 Msg.updated_missing Msg.updated_invalid errors;
      Ok errors
  end.

(** Lines 52-59: [preferences] and [behaviors], validated when present. *)
Definition validate_optional (identity : gmap string value) (key : string)
    (validator : value -> result (list string)) (errors : list string)
  : result (list string) :=
  match identity !! key with
  | Some section => new_errors ← validator section; Ok (errors ++ new_errors)
  | None => Ok errors
  end.

(** [validate_identity], lines 14-64. *)
Definition validate_identity (identity : value) : result validation :=
  if negb (Py.truthy identity) || negb (Py.isinstance_dict identity)
  then Ok (Validation false [Msg.not_a_dictionary])
  else
    match identity with
    | VDict m =>
        let errors := validate_version m [] in
        errors ← validate_metadata m errors;
        errors ← validate_optional m "preferences" _validate_preferences errors;
        errors ← validate_optional m "behaviors" _validate_behaviors errors;
        Ok (Validation (length errors =? 0)%nat errors)
    | _ => Ok (Validation false [Msg.not_a_dictionary])
    end.

(** What one time stamp of a [metadata] dictionary contributes. *)
Definition timestamp_errors (md : gmap string value) (field missing invalid : string)
  : list string :=
  match md !! field with
  | None => [missing]
  | Some stamp => if _is_valid_iso8601 stamp then [] else [invalid]
  end.

(** The steps after the check of [version], on an empty list of errors. *)
Definition later_checks (m : gmap string value) : result (list string) :=
  me ← validate_metadata m [];
  pe ← validate_optional m "preferences" _validate_preferences [];
  be ← validate_optional m "behaviors" _validate_behaviors [];
  Ok (me ++ pe ++ be).

End Validator.

(** The result of the validator for a list of errors, lines 61-64. *)
Definition verdict (errs : list string) : validation :=
  Validation (length errs =? 0)%nat errs.

(** ** The normalizer *)

(** The fields of a dictionary display [{'f1': e1, ..., 'fn': en}], entered
    from left to right: a later entry replaces an earlier one with its key. *)
Definition display (entries : list (string * value)) : gmap string value :=
  fold_left (fun d kv => <[kv.1 := kv.2]> d) entries ∅.

(** One default-bearing entry of a sub-section, such as
    ['theme': prefs.get('ui', {}).get('theme', 'auto')]. *)
Definition defaulted (prefs : value) (name : string) (field : string * value)
  : result (string * value) :=
  sub ← Py.get prefs name (VDict ∅);
  v ← Py.get sub field.1 field.2;
  Ok (field.1, v).

Fixpoint defaulted_all (prefs : value) (name : string)
    (fields : list (string * value)) : result (list (string * value)) :=
  match fields with
  | [] => Ok []
  | field :: rest =>
      entry ← defaulted prefs name field;
      entries ← defaulted_all prefs name rest;
      Ok (entry :: entries)
  end.

(** One sub-section of the output, such as lines 200-207:
    the default-bearing entries followed by [**(prefs.get(name, {}))]. *)
Definition subsection (prefs : value) (name : string)
    (fields : list (string * value)) : result value :=
  entries ← defaulted_all prefs name fields;
  sub ← Py.get prefs name (VDict ∅);
  caller ← Py.spread sub;
  Ok (VDict (caller ∪ display entries)).

Definition ui_defaults : list (string * value) :=
  [("theme", VStr "auto"); ("density", VStr "comfortable");
   ("fontSize", VStr "medium"); ("colorBlindMode", VBool false);
   ("reducedMotion", VBool false)].

Definition interaction_defaults : list (string * value) :=
  [("tone", VStr "friendly"); ("verbosity", VStr "moderate");
   ("confirmationStyle", VStr "destructive-only");
   ("keyboardShortcuts", VBool true)].

Definition automation_defaults : list (string * value) :=
  [("level", VStr "suggestions"); ("aiSuggestions", VBool true);
   ("autoSave", VBool true); ("predictiveActions", VBool false);
   ("maxAutomationScope", VStr "session")].

Definition notifications_defaults : list (string * value) :=
  [("enabled", VBool true); ("frequency", VStr "batched");
   ("channels", VList [VStr "in-app"])].

Definition content_defaults : list (string * value) :=
  [("language", VStr "en"); ("dateFormat", VStr "ISO");
   ("timeFormat", VStr "24h"); ("currency", VStr "USD");
   ("contentFilter", VStr "moderate")].

Definition privacy_defaults : list (string * value) :=
  [("dataSharing", VStr "anonymized"); ("analytics", VBool true);
   ("personalization", VBool true)].

Definition accessibility_defaults : list (string * value) :=
  [("screenReader", VBool false); ("highContrast", VBool false);
   ("focusIndicators", VStr "standard")].

Definition risk_defaults : list (string * value) :=
  [("tolerance", VStr "moderate"); ("requireConfirmation", VBool true)].

(** [normalize_identity], lines 182-261. *)
Definition normalize_identity (identity : value) : result value :=
  if negb (Py.truthy identity) || negb (Py.isinstance_dict identity)
  then Raise (ValueError "Invalid identity object")
  else
    match identity with
    | VDict m =>
        let prefs := default (VDict ∅) (m !! "preferences") in
        ui ← subsection prefs "ui" ui_defaults;
        interaction ← subsection prefs "interaction" interaction_defaults;
        automation ← subsection prefs "automation" automation_defaults;
        notifications ← subsection prefs "notifications" notifications_defaults;
        content ← subsection prefs "content" content_defaults;
        privacy ← subsection prefs "privacy" privacy_defaults;
        accessibility ← subsection prefs "accessibility" accessibility_defaults;
        risk ← subsection prefs "risk" risk_defaults;
        caller_prefs ← Py.spread prefs;
        let preferences :=
          caller_prefs ∪
          display [("ui", ui); ("interaction", interaction);
                   ("automation", automation); ("notifications", notifications);
                   ("content", content); ("privacy", privacy);
                   ("accessibility", accessibility); ("risk", risk)] in
        caller_behaviors ← Py.spread (default (VDict ∅) (m !! "behaviors"));
        let behaviors := caller_behaviors in
        Ok (VDict (<["behaviors" := VDict behaviors]>
                     (<["preferences" := VDict preferences]> m)))
    | _ => Raise (ValueError "Invalid identity object")
    end.

(** * Vocabulary of the properties *)

(** ** Sample documents *)

Module Sample.

Definition dict (entries : list (string * value)) : value :=
  VDict (display entries).

(** [{"preferences": {"ui": {"theme": "dark"}}}] *)
Definition dark_theme : value :=
  dict [("preferences", dict [("ui", dict [("theme", VStr "dark")])])].

(** [{"preferences": {"ui": {"customFlag": true}}}] *)
Definition custom_flag : value :=
  dict [("preferences", dict [("ui", dict [("customFlag", VBool true)])])].

(** [{"version": "0.1.0"}] *)
Definition version_only : value := dict [("version", VStr "0.1.0")].

End Sample.

(** ** The checks of [_validate_preferences] as a table

    The same checks in the same order, as data: each sub-section with the
    checks made on it.  [_validate_preferences] runs this table. *)

Inductive check : Type :=
| CEnum (field : string) (allowed : list string) (msg : string)
| CRegex (field : string) (pattern : string -> bool) (msg : string)
| CChannels
| CMaxAmount.

Definition run_check (obj : value) (c : check) (errors : list string)
  : result (list string) :=
  match c with
  | CEnum field allowed msg => check_enum obj field allowed msg errors
  | CRegex field pattern msg => check_regex obj field pattern msg errors
  | CChannels => check_channels obj errors
  | CMaxAmount => check_max_amount obj errors
  end.

Fixpoint run_checks (obj : value) (cs : list check) (errors : list string)
  : result (list string) :=
  match cs with
  | [] => Ok errors
  | c :: cs' => errors ← run_check obj c errors; run_checks obj cs' errors
  end.

Definition run_section (p : gmap string value) (sec : string * list check)
    (errors : list string) : result (list string) :=
  match p !! sec.1 with
  | Some obj => run_checks obj sec.2 errors
  | None => Ok errors
  end.

Fixpoint run_schema (p : gmap string value) (schema : list (string * list check))
    (errors : list string) : result (list string) :=
  match schema with
  | [] => Ok errors
  | sec :: rest => errors ← run_section p sec errors; run_schema p rest errors
  end.

(** "Invalid <sub-section>.<field> value" *)
Definition invalid_value (sec field : string) : string :=
  String.append "Invalid "
    (String.append sec (String.append "." (String.append field " value"))).

Definition preferences_schema : list (string * list check) :=
  [("ui",
    [CEnum "theme" ["light"; "dark"; "auto"; "high-contrast"]
       (invalid_value "ui" "theme");
     CEnum "density" ["compact"; "comfortable"; "spacious"]
       (invalid_value "ui" "density");
     CEnum "fontSize" ["small"; "medium"; "large"; "xlarge"]
       (invalid_value "ui" "fontSize")]);
   ("interaction",
    [CEnum "tone" ["formal"; "casual"; "friendly"; "professional"; "minimal"]
       (invalid_value "interaction" "tone");
     CEnum "verbosity" ["minimal"; "moderate"; "detailed"; "verbose"]
       (invalid_value "interaction" "verbosity");
     CEnum "confirmationStyle" ["always"; "destructive-only"; "never"]
       (invalid_value "interaction" "confirmationStyle")]);
   ("automation",
    [CEnum "level" ["none"; "suggestions"; "auto-approve-safe"; "aggressive"]
       (invalid_value "automation" "level");
     CEnum "maxAutomationScope" ["local"; "session"; "account"; "global"]
       (invalid_value "automation" "maxAutomationScope")]);
   ("notifications",
    [CEnum "frequency" ["realtime"; "batched"; "digest"; "off"]
       (invalid_value "notifications" "frequency");
     CChannels]);
   ("content",
    [CRegex "language" Re.match_language Msg.language_invalid;
     CEnum "dateFormat" ["ISO"; "US"; "EU"; "relative"]
       (invalid_value "content" "dateFormat");
     CEnum "timeFormat" ["12h"; "24h"] (invalid_value "content" "timeFormat");
     CRegex "currency" Re.match_currency Msg.currency_invalid]);
   ("privacy",
    [CEnum "dataSharing" ["none"; "anonymized"; "full"]
       (invalid_value "privacy" "dataSharing")]);
   ("accessibility",
    [CEnum "focusIndicators" ["minimal"; "standard"; "enhanced"]
       (invalid_value "accessibility" "focusIndicators")]);
   ("risk",
    [CEnum "tolerance" ["conservative"; "moderate"; "aggressive"]
       (invalid_value "risk" "tolerance");
     CMaxAmount])].

Definition behaviors_checks : list check :=
  [CEnum "workflow" ["linear"; "exploratory"; "task-focused"; "multi-tasking"]
     (invalid_value "behaviors" "workflow");
   CEnum "learningStyle" ["tutorial"; "examples"; "trial-and-error"; "documentation"]
     (invalid_value "behaviors" "learningStyle");
   CEnum "decisionSpeed" ["deliberate"; "balanced"; "quick"]
     (invalid_value "behaviors" "decisionSpeed")].

(** The messages a check can append. *)
Definition emits (c : check) (m : string) : Prop :=
  match c with
  | CEnum _ _ msg | CRegex _ _ msg => m = msg
  | CChannels =>
      m = Msg.channels_not_list \/ exists joined, m = String.append Msg.channels_prefix joined
  | CMaxAmount => m = Msg.max_amount_invalid
  end.

Definition is_Ok {A} (r : result A) : Prop := exists a, r = Ok a.

(** ** Counting messages *)

(** The number of checks of a list, and of a table, that are [loud]. *)
Definition loud_checks (loud : check -> bool) (cs : list check) : nat :=
  length (List.filter loud cs).

Definition loud_schema (loud : check -> bool)
    (schema : list (string * list check)) : nat :=
  list_sum (map (fun sec : string * list check => loud_checks loud sec.2) schema).

(** ** Occurrences of one message *)

Definition occurrences (msg : string) (errs : list string) : nat :=
  length (List.filter (fun e => bool_decide (e = msg)) errs).

(** The checks that can emit exactly the message [msg]. *)
Definition loud_eq (msg : string) (c : check) : bool :=
  match c with
  | CEnum _ _ msg' | CRegex _ _ msg' => bool_decide (msg' = msg)
  | CChannels =>
      bool_decide (Msg.channels_not_list = msg) || String.prefix Msg.channels_prefix msg
  | CMaxAmount => bool_decide (Msg.max_amount_invalid = msg)
  end.

(** The checks that can emit a message starting with [pre]. *)
Definition loud_prefix (pre : string) (c : check) : bool :=
  match c with
  | CEnum _ _ msg' | CRegex _ _ msg' => String.prefix pre msg'
  | CChannels => true
  | CMaxAmount => String.prefix pre Msg.max_amount_invalid
  end.

(** ** When the checks return *)

(** A shape of the checked object under which a check cannot raise: the
    object is a dictionary, a field matched against a regular expression is
    a string, and the entries of a list of channels are strings. *)
Definition check_safe (obj : value) (c : check) : bool :=
  match obj with
  | VDict s =>
      match c with
      | CEnum _ _ _ | CMaxAmount => true
      | CRegex field _ _ =>
          match s !! field with
          | Some v => Py.isinstance_str v
          | None => true
          end
      | CChannels =>
          match s !! "channels" with
          | Some (VList l) => forallb Py.isinstance_str l
          | _ => true
          end
      end
  | _ => false
  end.

Definition schema_safe (p : gmap string value)
    (schema : list (string * list check)) : bool :=
  forallb (fun sec : string * list check =>
             match p !! sec.1 with
             | Some obj => forallb (check_safe obj) sec.2
             | None => true
             end) schema.

Definition preferences_safe (p : gmap string value) : bool :=
  schema_safe p preferences_schema.

(** ** The normalizer, sub-section by sub-section *)

(** The eight sub-sections the normalizer builds, with their defaults. *)
Definition canonical : list (string * list (string * value)) :=
  [("ui", ui_defaults); ("interaction", interaction_defaults);
   ("automation", automation_defaults); ("notifications", notifications_defaults);
   ("content", content_defaults); ("privacy", privacy_defaults);
   ("accessibility", accessibility_defaults); ("risk", risk_defaults)].

(** The caller's value of each field, or its default. *)
Definition overlay (s : gmap string value) (fields : list (string * value))
  : list (string * value) :=
  (fun f : string * value => (f.1, default f.2 (s !! f.1))) <$> fields.

(** The caller's sub-section [name], empty when it is absent. *)
Definition caller_section (p : gmap string value) (name : string)
  : gmap string value :=
  match p !! name with
  | Some (VDict s) => s
  | _ => ∅
  end.

(** The sub-section as lines 200-253 compute it: the defaults overlaid by
    the caller's sub-section. *)
Definition merged_section (p : gmap string value)
    (sec : string * list (string * value)) : value :=
  VDict (caller_section p sec.1 ∪ display (overlay (caller_section p sec.1) sec.2)).

(** The sub-section [name] is absent from [p], or a dictionary. *)
Definition section_ok (p : gmap string value) (name : string) : bool :=
  match p !! name with
  | Some (VDict _) | None => true
  | Some _ => false
  end.

(** The [preferences] of the output: the eight merged sub-sections, and then
    [**prefs] over them. *)
Definition merged_preferences (p : gmap string value) : gmap string value :=
  p ∪ display ((fun sec => (sec.1, merged_section p sec)) <$> canonical).

Definition sections_ok (p : gmap string value) : bool :=
  forallb (fun sec : string * list (string * value) => section_ok p sec.1) canonical.

(** The two optional sections of a document, [{}] when absent. *)
Definition prefs_of (m : gmap string value) : value :=
  default (VDict ∅) (m !! "preferences").

Definition behaviors_of (m : gmap string value) : value :=
  default (VDict ∅) (m !! "behaviors").

(** The shape under which the normalizer returns. *)
Definition well_formed (m : gmap string value) : bool :=
  match prefs_of m with
  | VDict p => sections_ok p
  | _ => false
  end && Py.isinstance_dict (behaviors_of m).

(** ** Paths into a document *)

Fixpoint lookup_path (path : list string) (v : value) : option value :=
  match path with
  | [] => Some v
  | k :: rest =>
      match v with
      | VDict d => d !! k ≫= lookup_path rest
      | _ => None
      end
  end.

(** ** The defaults of the specification *)

Module Spec.

(** The column "Default" of the table of section 6 of the specification:
    sub-section, field, default. *)
Definition defaults : list (string * string * value) :=
  [("ui", "theme", VStr "auto");
   ("ui", "density", VStr "comfortable");
   ("ui", "fontSize", VStr "medium");
   ("ui", "colorBlindMode", VBool false);
   ("ui", "reducedMotion", VBool false);
   ("interaction", "tone", VStr "friendly");
   ("interaction", "verbosity", VStr "moderate");
   ("interaction", "confirmationStyle", VStr "destructive-only");
   ("interaction", "keyboardShortcuts", VBool true);
   ("automation", "level", VStr "suggestions");
   ("automation", "aiSuggestions", VBool true);
   ("automation", "autoSave", VBool true);
   ("automation", "predictiveActions", VBool false);
   ("automation", "maxAutomationScope", VStr "session");
   ("notifications", "enabled", VBool true);
   ("notifications", "frequency", VStr "batched");
   ("notifications", "channels", VList [VStr "in-app"]);
   ("content", "language", VStr "en");
   ("content", "dateFormat", VStr "ISO");
   ("content", "timeFormat", VStr "24h");
   ("content", "currency", VStr "USD");
   ("content", "contentFilter", VStr "moderate");
   ("privacy", "dataSharing", VStr "anonymized");
   ("privacy", "analytics", VBool true);
   ("privacy", "personalization", VBool true);
   ("accessibility", "screenReader", VBool false);
   ("accessibility", "highContrast", VBool false);
   ("accessibility", "focusIndicators", VStr "standard");
   ("risk", "tolerance", VStr "moderate");
   ("risk", "requireConfirmation", VBool true)].

End Spec.

(** ** The validator, step by step *)

(** The fixed messages of the three steps around [_validate_preferences]. *)
Definition version_messages : list string :=
  [Msg.version_missing; Msg.version_not_string; Msg.version_not_semver].

Definition metadata_messages : list string :=
  [Msg.metadata_missing; Msg.created_missing; Msg.created_invalid;
   Msg.updated_missing; Msg.updated_invalid].

(** A shape of the document under which the validator cannot raise:
    [metadata] is a dictionary when it is present, and a [preferences] that
    is a dictionary passes [preferences_safe]. *)
Definition document_safe (m : gmap string value) : bool :=
  match m !! "metadata" with
  | Some (VDict _) | None => true
  | Some _ => false
  end &&
  match m !! "preferences" with
  | Some (VDict p) => preferences_safe p
  | _ => true
  end.

(** ** An instance of the date-time parser

    The strings [YYYY-MM-DD], optionally followed by a separator and
    [HH:MM:SS], optionally followed by an offset [+HH:MM] or [-HH:MM],
    with digits in the places of the letters.  Every version of
    [datetime.fromisoformat] accepts the strings of this shape whose fields
    are in range; the instance shows that the assumptions made on the
    parser below can be met. *)

Module IsoShape.

Definition char (c : ascii) : ascii -> bool := fun x => bool_decide (x = c).
Definition any : ascii -> bool := fun _ => true.
Definition sign : ascii -> bool := fun x => char "+" x || char "-" x.

Fixpoint shape (pattern : list (ascii -> bool)) (s : string) : option string :=
  match pattern with
  | [] => Some s
  | p :: rest =>
      match s with
      | String c s' => if p c then shape rest s' else None
      | EmptyString => None
      end
  end.

Definition date : list (ascii -> bool) :=
  [Re.ascii_digit; Re.ascii_digit; Re.ascii_digit; Re.ascii_digit; char "-";
   Re.ascii_digit; Re.ascii_digit; char "-"; Re.ascii_digit; Re.ascii_digit].

Definition time : list (ascii -> bool) :=
  [any; Re.ascii_digit; Re.ascii_digit; char ":"; Re.ascii_digit; Re.ascii_digit; char ":";
   Re.ascii_digit; Re.ascii_digit].

Definition offset : list (ascii -> bool) :=
  [sign; Re.ascii_digit; Re.ascii_digit; char ":"; Re.ascii_digit; Re.ascii_digit].

Definition ended (s : string) : option unit :=
  match s with
  | EmptyString => Some tt
  | _ => None
  end.

Definition fromisoformat (s : string) : option unit :=
  rest ← shape date s;
  match rest with
  | EmptyString => Some tt
  | _ =>
      rest ← shape time rest;
      match rest with
      | EmptyString => Some tt
      | _ => shape offset rest ≫= ended
      end
  end.

End IsoShape.

(** ** An instance of the decimal digits beyond ASCII

    The Arabic-Indic digits U+0660 to U+0669 and the Devanagari digits
    U+0966 to U+096F, which every version of the Unicode database holds as
    decimal digits. *)

Module Unicode.

Definition decimal (n : N) : bool :=
  ((1632 <=? n)%N && (n <=? 1641)%N) || ((2406 <=? n)%N && (n <=? 2415)%N).

(** The encoding of U+0661 [.] U+0662 [.] U+0663, the version 1.2.3 written
    with Arabic-Indic digits. *)
Definition one_two_three : string :=
  String "217" (String "161" (String "."
    (String "217" (String "162" (String "."
       (String "217" (String "163" EmptyString))))))).

End Unicode.

(** ** More sample documents *)

Module Doc.

Import Sample.

(** [{"version": "0.1.0", "metadata": 5}] *)
Definition scalar_metadata : value :=
  dict [("version", VStr "0.1.0"); ("metadata", VInt 5)].

(** [{"preferences": {"content": {"language": 5}}}] *)
Definition numeric_language : value :=
  dict [("preferences", dict [("content", dict [("language", VInt 5)])])].

(** [{"preferences": {"notifications": {"channels": [5]}}}] *)
Definition numeric_channel : value :=
  dict [("preferences", dict [("notifications", dict [("channels", VList [VInt 5])])])].

(** [{"preferences": {"ui": 5}}] *)
Definition scalar_ui : value :=
  dict [("preferences", dict [("ui", VInt 5)])].

(** [{"metadata": {"created": "2024-01-01", "updated": "2024-01-01"}}] *)
Definition date_only : value :=
  dict [("metadata", dict [("created", VStr "2024-01-01");
                           ("updated", VStr "2024-01-01")])].

Definition stamps : value :=
  dict [("created", VStr "2024-01-01T00:00:00Z");
        ("updated", VStr "2024-01-01T00:00:00Z")].

(** The end-to-end document of section 8 of the specification. *)
Definition carrier_pigeon : value :=
  dict [("version", VStr "0.1.0"); ("metadata", stamps);
        ("preferences",
         dict [("notifications",
                dict [("channels", VList [VStr "in-app"; VStr "carrier-pigeon"])])])].

(** [{"ui": {"colorBlindMode": "yes"}}] *)
Definition colorblind_yes : value :=
  dict [("ui", dict [("colorBlindMode", VStr "yes")])].

(** [{"risk": {"maxTransactionAmount": true}}] *)
Definition amount_true : value :=
  dict [("risk", dict [("maxTransactionAmount", VBool true)])].

(** [{"ui": {"theme": "neon"}}] *)
Definition neon : gmap string value :=
  display [("ui", dict [("theme", VStr "neon")])].

(** [{"metadata": 5}], [{"metadata": null}] and [{"metadata": "created"}] *)
Definition metadata_five : value := dict [("metadata", VInt 5)].
Definition metadata_null : value := dict [("metadata", VNone)].
Definition metadata_text : value := dict [("metadata", VStr "created")].

(** The end-to-end document with the channels [["in-app", 5]]. *)
Definition mixed_channels : value :=
  dict [("version", VStr "0.1.0"); ("metadata", stamps);
        ("preferences",
         dict [("notifications",
                dict [("channels", VList [VStr "in-app"; VInt 5])])])].

(** The end-to-end document with the channels
    [["fax", "email", "carrier-pigeon", "push"]]. *)
Definition two_strays : value :=
  dict [("version", VStr "0.1.0"); ("metadata", stamps);
        ("preferences",
         dict [("notifications",
                dict [("channels",
                       VList [VStr "fax"; VStr "email"; VStr "carrier-pigeon";
                              VStr "push"])])])].

(** [{"title": "x"}] and [{"title": "y", "note": null}] *)
Definition titled : gmap string value := display [("title", VStr "x")].
Definition retitled : gmap string value :=
  display [("title", VStr "y"); ("note", VNone)].

End Doc.

(** ** The wording of the errors, as a caller reads them *)

Module Wording.

Definition double_quote : string := String "034"%char EmptyString.

(** [Field "<name>"<rest>] *)
Definition field_error (name rest : string) : string :=
  String.append "Field "
    (String.append double_quote
       (String.append name (String.append double_quote rest))).

(** The three errors about [version]. *)
Definition about_version : list string :=
  ["Missing required field: version";
   field_error "version" " must be a string";
   field_error "version"
     (String.append " must follow semantic versioning (e.g., "
        (String.append double_quote (String.append "0.1.0"
           (String.append double_quote ")"))))].

(** The four errors about the two time stamps: [created] missing and
    invalid, [updated] missing and invalid. *)
Definition about_stamps : list string :=
  ["Missing required field: metadata.created";
   field_error "metadata.created" " must be a valid ISO 8601 date-time";
   "Missing required field: metadata.updated";
   field_error "metadata.updated" " must be a valid ISO 8601 date-time"].

(** The channels of the table of section 6 of the specification. *)
Definition channels : list string := ["in-app"; "email"; "push"; "sms"].

(** The items of a list separated by a comma and a space. *)
Definition comma_joined (l : list string) : string :=
  match l with
  | [] => EmptyString
  | first :: rest =>
      fold_left (fun acc item => String.append acc (String.append ", " item))
        rest first
  end.

End Wording.

(** ** Fields with a fixed set of allowed values *)

(** The fields of [preferences] that [_validate_preferences] compares with
    a fixed set of values: sub-section, field, allowed values. *)
Definition enumerated_fields : list (string * string * list string) :=
  [("ui", "theme", ["light"; "dark"; "auto"; "high-contrast"]);
   ("ui", "density", ["compact"; "comfortable"; "spacious"]);
   ("ui", "fontSize", ["small"; "medium"; "large"; "xlarge"]);
   ("interaction", "tone", ["formal"; "casual"; "friendly"; "professional"; "minimal"]);
   ("interaction", "verbosity", ["minimal"; "moderate"; "detailed"; "verbose"]);
   ("interaction", "confirmationStyle", ["always"; "destructive-only"; "never"]);
   ("automation", "level", ["none"; "suggestions"; "auto-approve-safe"; "aggressive"]);
   ("automation", "maxAutomationScope", ["local"; "session"; "account"; "global"]);
   ("notifications", "frequency", ["realtime"; "batched"; "digest"; "off"]);
   ("content", "dateFormat", ["ISO"; "US"; "EU"; "relative"]);
   ("content", "timeFormat", ["12h"; "24h"]);
   ("privacy", "dataSharing", ["none"; "anonymized"; "full"]);
   ("accessibility", "focusIndicators", ["minimal"; "standard"; "enhanced"]);
   ("risk", "tolerance", ["conservative"; "moderate"; "aggressive"])].

(** The boolean fields of the table of section 6: sub-section, field. *)
Definition boolean_fields : list (string * string) :=
  [("ui", "colorBlindMode"); ("ui", "reducedMotion");
   ("interaction", "keyboardShortcuts");
   ("automation", "aiSuggestions"); ("automation", "autoSave");
   ("automation", "predictiveActions");
   ("notifications", "enabled");
   ("privacy", "analytics"); ("privacy", "personalization");
   ("accessibility", "screenReader"); ("accessibility", "highContrast");
   ("risk", "requireConfirmation")].

(** The field a check reads. *)
Definition check_field (c : check) : string :=
  match c with
  | CEnum field _ _ | CRegex field _ _ => field
  | CChannels => "channels"
  | CMaxAmount => "maxTransactionAmount"
  end.

(** No check of the table reads [field] of the sub-section [sec]. *)
Definition ignores (schema : list (string * list check)) (sec field : string) : bool :=
  forallb (fun s : string * list check =>
             negb (bool_decide (s.1 = sec)) ||
             forallb (fun c => negb (bool_decide (check_field c = field))) s.2)
    schema.

(** A present value of a checked field that the validator refuses, with the
    message that reports it: a value outside the allowed set of an
    enumerated field, or a [risk.maxTransactionAmount] that is no instance
    of [int] or [float] or is negative. *)
Inductive violation (p : gmap string value) : string -> Prop :=
| enum_violation (sec field : string) (allowed : list string)
    (s : gmap string value) (v : value) :
    (sec, field, allowed) ∈ enumerated_fields ->
    p !! sec = Some (VDict s) -> s !! field = Some v ->
    Py.not_in v allowed = true ->
    violation p (invalid_value sec field)
| amount_violation (r : gmap string value) (v : value) :
    p !! "risk" = Some (VDict r) -> r !! "maxTransactionAmount" = Some v ->
    negb (Py.isinstance_int_float v) || Py.lt_zero v = true ->
    violation p "risk.maxTransactionAmount must be a non-negative number".

(** ** The validator on a whole document *)

(** The top-level keys the validator reads. *)
Definition recognized : list string :=
  ["version"; "metadata"; "preferences"; "behaviors"].

(** The verdict of a run of the validator, if it returned. *)
Definition valid_of (r : result validation) : option bool :=
  match r with
  | Ok v => Some (valid v)
  | Raise _ => None
  end.

(** The entries of a list of channel names that are not allowed. *)
Definition invalid_names (names : list string) : list string :=
  List.filter (fun s => negb (bool_decide (s ∈ Wording.channels))) names.

(** The one error that reports them. *)
Definition aggregate (names : list string) : string :=
  String.append "Invalid notification channels: "
    (Wording.comma_joined (invalid_names names)).

(** The checks that can emit a message about [version]. *)
Definition loud_version (c : check) : bool :=
  existsb (fun msg => loud_eq msg c) version_messages.

Definition is_version_message (e : string) : bool :=
  bool_decide (e ∈ version_messages).

(** The characters of a string. *)
Fixpoint characters (s : string) : list ascii :=
  match s with
  | EmptyString => []
  | String c rest => c :: characters rest
  end.

(** * The rest of the ingester, and the SDK *)

(** ** Extraction of the two sections, [src/core/ingester.py] *)

(** [extract_preferences], lines 322-335. *)
Definition extract_preferences (identity : value) : result value :=
  if negb (Py.truthy identity) || negb (Py.isinstance_dict identity)
  then Raise (ValueError "Invalid identity object")
  else Py.get identity "preferences" (VDict ∅).

(** [extract_behaviors], lines 338-351. *)
Definition extract_behaviors (identity : value) : result value :=
  if negb (Py.truthy identity) || negb (Py.isinstance_dict identity)
  then Raise (ValueError "Invalid identity object")
  else Py.get identity "behaviors" (VDict ∅).

(** ** The network, as [ingest_identity] sees it *)

(** What [response.json()] gives: the decoded value, or a
    [json.JSONDecodeError] with its text. *)
Inductive body : Type :=
| Decoded (v : value)
| Undecodable (text : string).

(** What [requests.get] followed by [raise_for_status] gives: a response,
    a [Timeout], another [RequestException] with its text, or an exception
    of another class, which no handler of [ingest_identity] catches. *)
Inductive fetched : Type :=
| Response (b : body)
| TimedOut
| RequestFailed (text : string)
| Escaped (e : exn).

Section Ingester.

Variable datetime : Type.
Variable fromisoformat : string -> option datetime.
Variable decimal : N -> bool.

(** The request made at lines 286-294, for a URL and a timeout. *)
Variable http_get : string -> Z -> fetched.

(** Lines 306-310: validation of the fetched value, when it is asked for. *)
Definition ingest_validate (validate : bool) (identity : value) : result unit :=
  if validate
  then
    validation ← validate_identity datetime fromisoformat decimal identity;
    if negb (valid validation)
    then Raise (ValueError (String.append "Identity validation failed: "
                              (Py.join_strings ", " (errors validation))))
    else Ok tt
  else Ok tt.

(** Lines 312-317: normalization, when it is asked for; a [ValueError] of
    the normalizer is raised again with a longer message. *)
Definition ingest_normalize (normalize : bool) (identity : value) : result value :=
  if normalize
  then
    match normalize_identity identity with
    | Raise (ValueError msg) =>
        Raise (ValueError (String.append "Failed to normalize identity: " msg))
    | outcome => outcome
    end
  else Ok identity.

(** [ingest_identity], lines 264-319. *)
Definition ingest_identity (identity_url : value) (timeout : Z)
    (validate normalize : bool) : result value :=
  if negb (Py.truthy identity_url) || negb (Py.isinstance_str identity_url)
  then Raise (ValueError "Identity URL must be a non-empty string")
  else
    match identity_url with
    | VStr url =>
        if negb (String.prefix "https://" url)
        then Raise (ValueError "Identity URL must use HTTPS for security")
        else
          match http_get url timeout with
          | TimedOut =>
              Raise (ValueError
                       (String.append "Identity fetch timed out after "
                          (String.append (pretty timeout) " seconds")))
          | RequestFailed text =>
              Raise (ValueError (String.append "Failed to fetch identity: " text))
          | Escaped e => Raise e
          | Response (Undecodable text) =>
              Raise (ValueError (String.append "Failed to parse identity JSON: " text))
          | Response (Decoded decoded) =>
              _ ← ingest_validate validate decoded;
              normalized ← ingest_normalize normalize decoded;
              Ok normalized
          end
    | _ => Raise (ValueError "Identity URL must be a non-empty string")
    end.

(** ** The SDK, [src/sdk/python/pip_sdk.py] *)

(** [str(e)] for an exception: the message of a [ValueError] raised by the
    ingester, and the text the interpreter gives to the others. *)
Variable interpreter_text : exn -> string.

Definition exn_str (e : exn) : string :=
  match e with
  | ValueError msg => msg
  | _ => interpreter_text e
  end.

(** [try: ... except Exception as e: raise ValueError(f'{prefix}{str(e)}')] *)
Definition rewrap {A} (prefix : string) (r : result A) : result A :=
  match r with
  | Ok a => Ok a
  | Raise e => Raise (ValueError (String.append prefix (exn_str e)))
  end.

(** [load_identity], lines 19-41. *)
Definition load_identity (identity_url : value) (timeout : Z)
    (validate normalize : bool) : result value :=
  rewrap "Failed to load PIP identity: "
    (ingest_identity identity_url timeout validate normalize).

(** [load_preferences], lines 44-66. *)
Definition load_preferences (identity_url : value) (timeout : Z)
    (validate normalize : bool) : result value :=
  rewrap "Failed to load preferences: "
    (identity ← load_identity identity_url timeout validate normalize;
     extract_preferences identity).

(** [load_behaviors], lines 69-91. *)
Definition load_behaviors (identity_url : value) (timeout : Z)
    (validate normalize : bool) : result value :=
  rewrap "Failed to load behaviors: "
    (identity ← load_identity identity_url timeout validate normalize;
     extract_behaviors identity).

(** [apply_preferences], lines 94-125: [None] for a falsy argument,
    otherwise the argument itself, after the look at [ui]. *)
Definition apply_preferences (preferences context : value) : result value :=
  if negb (Py.truthy preferences) then Ok VNone
  else
    has_ui ← Py.contains "ui" preferences;
    _ ← (if has_ui : bool
         then ui ← Py.getitem preferences "ui";
              _ ← Py.contains "theme" ui;
              _ ← Py.contains "density" ui;
              Ok tt
         else Ok tt);
    Ok preferences.

(** [load_and_apply], lines 128-147. *)
Definition load_and_apply (identity_url context : value) (timeout : Z)
    (validate normalize : bool) : result value :=
  identity ← load_identity identity_url timeout validate normalize;
  preferences ← Py.getitem identity "preferences";
  _ ← apply_preferences preferences context;
  Ok identity.

End Ingester.

(** ** Vocabulary of the further properties *)

(** A non-empty string of ASCII decimal digits. *)
Fixpoint all_digits (s : string) : bool :=
  match s with
  | EmptyString => true
  | String c rest => Re.ascii_digit c && all_digits rest
  end.

Definition number (s : string) : Prop :=
  s ≠ EmptyString /\ all_digits s = true.

Definition newline : string := String "010"%char EmptyString.

(** A string of ASCII characters only: every byte encodes a character. *)
Fixpoint ascii_only (s : string) : bool :=
  match s with
  | EmptyString => true
  | String c rest => (N_of_ascii c <? 128)%N && ascii_only rest
  end.

(** A string that does not begin with a decimal digit: it is empty, or
    begins with an ASCII character that is no digit. *)
Definition starts_without_digit (s : string) : Prop :=
  match s with
  | String c _ => Re.ascii_digit c = false /\ (N_of_ascii c <? 128)%N = true
  | EmptyString => True
  end.

(** [MAJOR.MINOR.PATCH], with or without one final newline. *)
Definition semver_shape (s : string) : Prop :=
  exists a b c, number a /\ number b /\ number c /\
    let v := String.append a (String.append "." (String.append b (String.append "." c))) in
    s = v \/ s = String.append v newline.

(** Two lower-case letters, optionally followed by a hyphen and two
    upper-case letters, with or without one final newline. *)
Definition language_shape (s : string) : Prop :=
  exists a b tail, Re.is_lower a = true /\ Re.is_lower b = true /\
    s = String a (String b tail) /\
    ((tail = EmptyString \/ tail = newline) \/
     exists c d, Re.is_upper c = true /\ Re.is_upper d = true /\
       (tail = String "-" (String c (String d EmptyString)) \/
        tail = String "-" (String c (String d newline)))).

(** Three upper-case letters, with or without one final newline. *)
Definition currency_shape (s : string) : Prop :=
  exists a b c, Re.is_upper a = true /\ Re.is_upper b = true /\ Re.is_upper c = true /\
    (s = String a (String b (String c EmptyString)) \/
     s = String a (String b (String c newline))).

(** What one enumerated field of a dictionary contributes to the errors. *)
Definition enum_errors (d : gmap string value) (field : string)
    (allowed : list string) (msg : string) : list string :=
  match d !! field with
  | Some v => if Py.not_in v allowed then [msg] else []
  | None => []
  end.

(** The names of the sub-sections, and the fields, that the table of
    checks reads. *)
Definition checked_sections : list string := preferences_schema.*1.

Definition behaviors_fields : list string := check_field <$> behaviors_checks.

(** The argument is a string that starts with ["https://"]. *)
Definition https_url (identity_url : value) : bool :=
  match identity_url with
  | VStr url => String.prefix "https://" url
  | _ => false
  end.

(** A network that answers every request with the same decoded value. *)
Definition serving (v : value) : string -> Z -> fetched :=
  fun _ _ => Response (Decoded v).

(** ["https://example.com/identity.json"] *)
Definition example_url : value := VStr "https://example.com/identity.json".

(** The valid document [{"version": "0.1.0", "metadata": {...},
    "preferences": {"ui": []}}], whose sub-section [ui] is a list. *)
Definition list_ui_document : value :=
  Sample.dict [("version", VStr "0.1.0"); ("metadata", Doc.stamps);
               ("preferences", Sample.dict [("ui", VList [])])].

(** [{"version": "0.1.0", "metadata": {...}}], a valid document. *)
Definition minimal_document : value :=
  Sample.dict [("version", VStr "0.1.0"); ("metadata", Doc.stamps)].

(** * Auxiliary lemmas *)

(** ** The result monad *)

Lemma bind_Ok {A B} (r : result A) (k : A -> result B) (b : B) :
  r ≫= k = Ok b <-> exists a, r = Ok a /\ k a = Ok b.
Proof.
  destruct r as [a|e]; simpl; split.
  - intros H. by exists a.
  - by intros (a' & [= ->] & H).
  - discriminate.
  - by intros (a' & [=] & _).
Qed.

Lemma bind_Raise {A B} (r : result A) (k : A -> result B) (e : exn) :
  r ≫= k = Raise e <-> r = Raise e \/ exists a, r = Ok a /\ k a = Raise e.
Proof.
  destruct r as [a|e']; simpl; split.
  - intros H. right. by exists a.
  - intros [[=]|(a' & [= ->] & H)]. done.
  - intros [= ->]. by left.
  - intros [[= ->]|(a' & [=] & _)]. done.
Qed.

Lemma bind_ret_r {A} (r : result A) : r ≫= (fun a => Ok a) = r.
Proof. by destruct r. Qed.

Lemma bind_assoc {A B C} (r : result A) (f : A -> result B) (g : B -> result C) :
  (r ≫= f) ≫= g = r ≫= (fun a => f a ≫= g).
Proof. by destruct r. Qed.

(** ** Strings *)

Lemma append_cons (c : ascii) (a b : string) :
  String.append (String c a) b = String c (String.append a b).
Proof. reflexivity. Qed.

Lemma append_nil_l (b : string) : String.append EmptyString b = b.
Proof. reflexivity. Qed.

Lemma append_nil_r (s : string) : String.append s EmptyString = s.
Proof. induction s as [|c s IH]; [done|]. by rewrite append_cons, IH. Qed.

Lemma append_assoc (a b c : string) :
  String.append (String.append a b) c = String.append a (String.append b c).
Proof. induction a as [|x a IH]; [done|]. by rewrite !append_cons, IH. Qed.

Lemma replace_Z_app (a b : string) :
  Py.replace_Z (String.append a b) = String.append (Py.replace_Z a) (Py.replace_Z b).
Proof.
  induction a as [|c a IH]; [done|].
  rewrite append_cons. cbn [Py.replace_Z]. rewrite IH.
  destruct (bool_decide (c = "Z"%char)); [|done]. by rewrite append_assoc.
Qed.

Lemma is_substring_T_app (a b : string) :
  Py.is_substring "T" (String.append a b) =
  Py.is_substring "T" a || Py.is_substring "T" b.
Proof.
  induction a as [|c a IH]; [by destruct b|].
  rewrite append_cons. cbn [Py.is_substring String.prefix]. rewrite IH.
  assert (forall x, String.prefix EmptyString x = true) as Hnil by (by intros []).
  rewrite !Hnil. by destruct (ascii_dec "T" c).
Qed.

(** ** The regular expressions on sample strings *)

Example match_semver_samples (decimal : N -> bool) :
  map (Re.match_semver decimal)
    ["0.1.0"; "12.340.5"; "1.0"; "v1.0.0"; "1.0.0-rc"; "1..0"] =
  [true; true; false; false; false; false].
Proof. reflexivity. Qed.

Example match_semver_wide_samples :
  map (Re.match_semver Unicode.decimal)
    [Unicode.one_two_three; String.append Unicode.one_two_three ".4"] =
  [true; false] /\
  Re.match_semver (fun _ => false) Unicode.one_two_three = false.
Proof. split; reflexivity. Qed.

Example match_language_samples :
  map Re.match_language ["en"; "en-US"; "EN"; "eng"; "en-us"; "e"] =
  [true; true; false; false; false; false].
Proof. reflexivity. Qed.

Example match_currency_samples :
  map Re.match_currency ["USD"; "usd"; "USDT"; "US"] = [true; false; false; false].
Proof. reflexivity. Qed.

Example fromisoformat_samples :
  map IsoShape.fromisoformat
    ["2024-01-01T00:00:00+00:00"; "2024-01-01"; "2024-01-01T00:00:00"; "yesterday"] =
  [Some tt; Some tt; Some tt; None].
Proof. reflexivity. Qed.

(** ** The table is the code *)

Lemma _validate_preferences_schema (p : gmap string value) :
  _validate_preferences (VDict p) = run_schema p preferences_schema [].
Proof. reflexivity. Qed.

Lemma _validate_behaviors_checks (b : gmap string value) :
  _validate_behaviors (VDict b) = run_checks (VDict b) behaviors_checks [].
Proof. reflexivity. Qed.

(** ** What the checks append *)

Lemma append_if_app (b : bool) (msg : string) (errors : list string) :
  append_if b msg errors = errors ++ (if b then [msg] else []).
Proof. destruct b; simpl; by rewrite ?app_nil_r. Qed.

Ltac case_result :=
  match goal with
  | |- context [Py.contains ?k ?o] => destruct (Py.contains k o) as [[|]|]; simpl
  | |- context [Py.getitem ?o ?k] => destruct (Py.getitem o k) as [?|]; simpl
  | |- context [Re.re_match ?f ?v] => destruct (Re.re_match f v) as [?|]; simpl
  | |- context [Py.join ?s ?l] => destruct (Py.join s l) as [?|]; simpl
  end.

(** Every check only appends to the errors it is given. *)
Lemma run_check_app (obj : value) (c : check) (errors : list string) :
  run_check obj c errors = new ← run_check obj c []; Ok (errors ++ new).
Proof.
  destruct c; simpl;
    unfold check_enum, check_regex, check_channels, check_max_amount;
    repeat case_result; rewrite ?append_if_app, ?app_nil_r; try done.
  match goal with |- context [match ?v with VList _ => _ | _ => _ end] => destruct v end;
    simpl; try done.
  match goal with |- context [List.filter ?f ?l] => destruct (List.filter f l) end;
    simpl; rewrite ?app_nil_r; try done.
  by case_result.
Qed.

Lemma run_checks_app (obj : value) (cs : list check) (errors : list string) :
  run_checks obj cs errors = new ← run_checks obj cs []; Ok (errors ++ new).
Proof.
  revert errors. induction cs as [|c cs IH]; intros errors; simpl.
  - by rewrite app_nil_r.
  - rewrite run_check_app. destruct (run_check obj c []) as [new|e]; simpl; [|done].
    rewrite (IH (errors ++ new)), (IH new).
    destruct (run_checks obj cs []) as [new'|e]; simpl; [|done].
    by rewrite app_assoc.
Qed.

Lemma run_section_app (p : gmap string value) (sec : string * list check)
    (errors : list string) :
  run_section p sec errors = new ← run_section p sec []; Ok (errors ++ new).
Proof.
  unfold run_section. destruct (p !! sec.1); simpl.
  - apply run_checks_app.
  - by rewrite app_nil_r.
Qed.

Lemma run_schema_app (p : gmap string value) (schema : list (string * list check))
    (errors : list string) :
  run_schema p schema errors = new ← run_schema p schema []; Ok (errors ++ new).
Proof.
  revert errors. induction schema as [|sec rest IH]; intros errors; simpl.
  - by rewrite app_nil_r.
  - rewrite run_section_app. destruct (run_section p sec []) as [new|e]; simpl; [|done].
    rewrite (IH (errors ++ new)), (IH new).
    destruct (run_schema p rest []) as [new'|e]; simpl; [|done].
    by rewrite app_assoc.
Qed.

(** A check appends nothing or one message, which is one of its own. *)
Lemma run_check_shape (obj : value) (c : check) (new : list string) :
  run_check obj c [] = Ok new ->
  new = [] \/ exists m, new = [m] /\ emits c m.
Proof.
  destruct c; simpl;
    unfold check_enum, check_regex, check_channels, check_max_amount;
    repeat case_result; rewrite ?append_if_app; simpl; try discriminate.
  all: try (intros [= <-]; by left).
  all: try (match goal with |- context [if ?b then _ else _] => destruct b end;
            intros [= <-]; [right; eexists; split; [done|reflexivity] | by left]).
  match goal with |- context [match ?v with VList _ => _ | _ => _ end] => destruct v end;
    simpl; try (intros [= <-]; right; eexists; split; [done|by left]).
  match goal with |- context [List.filter ?f ?l] => destruct (List.filter f l) end;
    simpl; [intros [= <-]; by left|].
  case_result; [|discriminate].
  intros [= <-]. right. eexists. split; [done|]. right. by eexists.
Qed.

Section Counting.

(** A class [P] of messages, and the checks [loud] enough to emit one of
    them: every other check is quiet about [P]. *)
Variable P : string -> bool.
Variable loud : check -> bool.
Hypothesis loud_spec : forall c m, loud c = false -> emits c m -> P m = false.

Lemma run_check_count (obj : value) (c : check) (new : list string) :
  run_check obj c [] = Ok new ->
  length (List.filter P new) <= (if loud c then 1 else 0).
Proof.
  intros H. apply run_check_shape in H as [->|(m & -> & Hm)]; simpl; [lia|].
  destruct (loud c) eqn:Hl.
  - destruct (P m); simpl; lia.
  - by rewrite (loud_spec c m Hl Hm).
Qed.

Lemma run_checks_count (obj : value) (cs : list check) (errs : list string) :
  run_checks obj cs [] = Ok errs ->
  length (List.filter P errs) <= loud_checks loud cs.
Proof.
  revert errs. induction cs as [|c cs IH]; intros errs; simpl.
  - intros [= <-]. simpl. lia.
  - intros H. apply bind_Ok in H as (new & Hc & H).
    rewrite run_checks_app in H. apply bind_Ok in H as (new' & Hcs & [= <-]).
    rewrite List.filter_app, length_app.
    apply run_check_count in Hc. apply IH in Hcs.
    unfold loud_checks in *. simpl. destruct (loud c); simpl; simpl in Hc; lia.
Qed.

Lemma run_schema_count (p : gmap string value)
    (schema : list (string * list check)) (errs : list string) :
  run_schema p schema [] = Ok errs ->
  length (List.filter P errs) <= loud_schema loud schema.
Proof.
  revert errs. induction schema as [|sec rest IH]; intros errs; simpl.
  - intros [= <-]. simpl. lia.
  - intros H. apply bind_Ok in H as (new & Hs & H).
    rewrite run_schema_app in H. apply bind_Ok in H as (new' & Hrest & [= <-]).
    rewrite List.filter_app, length_app. apply IH in Hrest.
    unfold loud_schema in *. simpl.
    assert (length (List.filter P new) <= loud_checks loud sec.2); [|lia].
    unfold run_section in Hs. destruct (p !! sec.1).
    + by apply run_checks_count in Hs.
    + injection Hs as <-. simpl. lia.
Qed.

End Counting.

(** The message of a check that fires is among the errors returned. *)
Lemma run_checks_elem (obj : value) (cs : list check) (errs : list string)
    (c : check) (m : string) :
  run_checks obj cs [] = Ok errs -> c ∈ cs ->
  run_check obj c [] = Ok [m] -> m ∈ errs.
Proof.
  revert errs. induction cs as [|c' cs IH]; intros errs H Hin Hm.
  - by apply elem_of_nil in Hin.
  - simpl in H. apply bind_Ok in H as (new & Hc & H).
    rewrite run_checks_app in H. apply bind_Ok in H as (new' & Hcs & [= <-]).
    apply elem_of_app. apply elem_of_cons in Hin as [<-|Hin].
    + left. rewrite Hm in Hc. injection Hc as <-. by left.
    + right. by apply IH.
Qed.

Lemma run_schema_elem (p : gmap string value)
    (schema : list (string * list check)) (errs : list string)
    (sec : string) (cs : list check) (obj : value) (c : check) (m : string) :
  run_schema p schema [] = Ok errs -> (sec, cs) ∈ schema ->
  p !! sec = Some obj -> c ∈ cs ->
  run_check obj c [] = Ok [m] -> m ∈ errs.
Proof.
  revert errs. induction schema as [|s rest IH]; intros errs H Hin Hp Hc Hm.
  - by apply elem_of_nil in Hin.
  - simpl in H. apply bind_Ok in H as (new & Hs & H).
    rewrite run_schema_app in H. apply bind_Ok in H as (new' & Hrest & [= <-]).
    apply elem_of_app. apply elem_of_cons in Hin as [<-|Hin].
    + left. unfold run_section in Hs. simpl in Hs. rewrite Hp in Hs.
      by eapply run_checks_elem.
    + right. by apply IH.
Qed.

(** A list with at most one element of the class [P], and [m] among them. *)
Lemma filter_singleton (P : string -> bool) (errs : list string) (m : string) :
  m ∈ errs -> P m = true -> length (List.filter P errs) <= 1 ->
  List.filter P errs = [m].
Proof.
  intros Hin HP Hlen.
  assert (In m (List.filter P errs)) as Hm.
  { apply List.filter_In. split; [by apply list_elem_of_In|done]. }
  destruct (List.filter P errs) as [|x [|y l]]; simpl in *; [done| |lia].
  destruct Hm as [->|[]]. done.
Qed.

(** ** Occurrences of one message *)

Lemma prefix_append (a b : string) : String.prefix a (String.append a b) = true.
Proof.
  induction a as [|c a IH]; simpl; [by destruct b|].
  destruct (ascii_dec c c); [done|congruence].
Qed.

Lemma loud_eq_spec (msg : string) (c : check) (m : string) :
  loud_eq msg c = false -> emits c m -> bool_decide (m = msg) = false.
Proof.
  intros Hl Hm. apply bool_decide_eq_false. intros ->.
  destruct c; simpl in *.
  - subst. by rewrite bool_decide_eq_false in Hl.
  - subst. by rewrite bool_decide_eq_false in Hl.
  - apply orb_false_iff in Hl as [Hl1 Hl2]. destruct Hm as [->|[j ->]].
    + by rewrite bool_decide_eq_false in Hl1.
    + by rewrite prefix_append in Hl2.
  - subst. by rewrite bool_decide_eq_false in Hl.
Qed.

Lemma loud_prefix_spec (pre : string) (c : check) (m : string) :
  loud_prefix pre c = false -> emits c m -> String.prefix pre m = false.
Proof. destruct c; simpl; intros Hl Hm; by subst. Qed.

Lemma schema_once (p : gmap string value) (schema : list (string * list check))
    (errs : list string) (sec : string) (cs : list check) (obj : value)
    (c : check) (msg : string) :
  run_schema p schema [] = Ok errs -> (sec, cs) ∈ schema ->
  p !! sec = Some obj -> c ∈ cs -> run_check obj c [] = Ok [msg] ->
  loud_schema (loud_eq msg) schema = 1 ->
  occurrences msg errs = 1.
Proof.
  intros H Hsec Hp Hc Hm Hloud. unfold occurrences.
  rewrite (filter_singleton _ errs msg); [done| |by apply bool_decide_eq_true|].
  - by eapply run_schema_elem.
  - rewrite <- Hloud.
    eapply (run_schema_count _ (loud_eq msg)); [apply loud_eq_spec|done].
Qed.

(** ** When the checks return *)

Lemma strings_of_safe (l : list value) :
  forallb Py.isinstance_str l = true -> is_Ok (Py.strings_of l).
Proof.
  induction l as [|v l IH]; simpl; [by eexists|].
  intros [Hv Hl]%andb_true_iff. destruct v; try discriminate.
  destruct (IH Hl) as [names ->]. by eexists.
Qed.

Lemma forallb_filter {A} (f g : A -> bool) (l : list A) :
  forallb f l = true -> forallb f (List.filter g l) = true.
Proof.
  induction l as [|x l IH]; simpl; [done|].
  intros [Hx Hl]%andb_true_iff. destruct (g x); simpl; rewrite ?Hx; auto.
Qed.

Lemma run_check_safe (obj : value) (c : check) (errors : list string) :
  check_safe obj c = true -> is_Ok (run_check obj c errors).
Proof.
  destruct obj as [| | | | | |s]; try discriminate. unfold is_Ok.
  destruct c as [field allowed msg|field pattern msg| |]; simpl;
    unfold check_enum, check_regex, check_channels, check_max_amount; simpl.
  - destruct (s !! field); simpl; eauto.
  - destruct (s !! field) as [[]|]; simpl; try discriminate; eauto.
  - destruct (s !! "channels") as [v|]; simpl; [|eauto].
    destruct v; simpl; eauto. intros Hl.
    destruct (List.filter _ l) as [|x xs] eqn:Hf; simpl; [eauto|].
    unfold Py.join. rewrite <- Hf.
    destruct (strings_of_safe (List.filter (fun ch => Py.not_in ch valid_channels) l))
      as [names ->]; [by apply forallb_filter|].
    simpl. eauto.
  - destruct (s !! "maxTransactionAmount"); simpl; eauto.
Qed.

Lemma run_checks_safe (obj : value) (cs : list check) (errors : list string) :
  forallb (check_safe obj) cs = true -> is_Ok (run_checks obj cs errors).
Proof.
  revert errors. induction cs as [|c cs IH]; intros errors; simpl; [by eexists|].
  intros [Hc Hcs]%andb_true_iff.
  destruct (run_check_safe obj c errors Hc) as [new ->]. simpl. by apply IH.
Qed.

Lemma run_schema_safe (p : gmap string value)
    (schema : list (string * list check)) (errors : list string) :
  schema_safe p schema = true -> is_Ok (run_schema p schema errors).
Proof.
  revert errors. induction schema as [|sec rest IH]; intros errors; simpl; [by eexists|].
  intros [Hs Hrest]%andb_true_iff. unfold run_section.
  destruct (p !! sec.1) as [obj|]; simpl.
  - destruct (run_checks_safe obj sec.2 errors Hs) as [new ->]. simpl. by apply IH.
  - by apply IH.
Qed.

(** ** Firing checks *)

Lemma check_enum_fires (s : gmap string value) (field : string)
    (allowed : list string) (msg : string) (v : value) :
  s !! field = Some v -> Py.not_in v allowed = true ->
  run_check (VDict s) (CEnum field allowed msg) [] = Ok [msg].
Proof.
  intros Hs Hv. simpl. unfold check_enum. simpl. by rewrite Hs; simpl; rewrite Hv.
Qed.

Lemma check_max_amount_fires (r : gmap string value) (v : value) :
  r !! "maxTransactionAmount" = Some v ->
  negb (Py.isinstance_int_float v) || Py.lt_zero v = true ->
  run_check (VDict r) CMaxAmount [] = Ok [Msg.max_amount_invalid].
Proof.
  intros Hr Hv. simpl. unfold check_max_amount. simpl. by rewrite Hr; simpl; rewrite Hv.
Qed.

(** ** The normalizer, sub-section by sub-section *)

Lemma defaulted_all_dict (p : gmap string value) (name : string)
    (fields : list (string * value)) :
  section_ok p name = true ->
  defaulted_all (VDict p) name fields = Ok (overlay (caller_section p name) fields).
Proof.
  unfold section_ok, caller_section. intros Hok.
  induction fields as [|f fields IH]; simpl; [done|].
  rewrite IH. unfold defaulted. simpl.
  destruct (p !! name) as [[]|]; simpl; try discriminate; done.
Qed.

Lemma subsection_dict (p : gmap string value) (name : string)
    (fields : list (string * value)) :
  section_ok p name = true ->
  subsection (VDict p) name fields = Ok (merged_section p (name, fields)).
Proof.
  intros Hok. unfold subsection. rewrite defaulted_all_dict by done. simpl.
  unfold merged_section, caller_section, section_ok in *. simpl.
  destruct (p !! name) as [[]|]; simpl; try discriminate; done.
Qed.

(** A sub-section that is present and no dictionary: [.get] is missing. *)
Lemma subsection_malformed (p : gmap string value) (name : string)
    (f : string * value) (fields : list (string * value)) :
  section_ok p name = false ->
  subsection (VDict p) name (f :: fields) = Raise AttributeError.
Proof.
  unfold section_ok, subsection. simpl. unfold defaulted. simpl.
  destruct (p !! name) as [[]|]; simpl; try discriminate; done.
Qed.

(** [preferences] itself is no dictionary. *)
Lemma subsection_no_dict (prefs : value) (name : string)
    (f : string * value) (fields : list (string * value)) :
  Py.isinstance_dict prefs = false ->
  subsection prefs name (f :: fields) = Raise AttributeError.
Proof. destruct prefs; simpl; try discriminate; done. Qed.

Lemma normalize_nonempty (m : gmap string value) :
  m ≠ ∅ ->
  normalize_identity (VDict m) =
    ui ← subsection (prefs_of m) "ui" ui_defaults;
    interaction ← subsection (prefs_of m) "interaction" interaction_defaults;
    automation ← subsection (prefs_of m) "automation" automation_defaults;
    notifications ← subsection (prefs_of m) "notifications" notifications_defaults;
    content ← subsection (prefs_of m) "content" content_defaults;
    privacy ← subsection (prefs_of m) "privacy" privacy_defaults;
    accessibility ← subsection (prefs_of m) "accessibility" accessibility_defaults;
    risk ← subsection (prefs_of m) "risk" risk_defaults;
    caller_prefs ← Py.spread (prefs_of m);
    caller_behaviors ← Py.spread (behaviors_of m);
    Ok (VDict (<["behaviors" := VDict caller_behaviors]>
                 (<["preferences" :=
                      VDict (caller_prefs ∪
                             display [("ui", ui); ("interaction", interaction);
                                      ("automation", automation);
                                      ("notifications", notifications);
                                      ("content", content); ("privacy", privacy);
                                      ("accessibility", accessibility);
                                      ("risk", risk)])]> m))).
Proof.
  intros Hm. unfold normalize_identity. simpl.
  by rewrite bool_decide_eq_false_2.
Qed.

Lemma normalize_well_formed (m : gmap string value) (p b : gmap string value) :
  m ≠ ∅ -> prefs_of m = VDict p -> behaviors_of m = VDict b ->
  sections_ok p = true ->
  normalize_identity (VDict m) =
    Ok (VDict (<["behaviors" := VDict b]>
                 (<["preferences" := VDict (merged_preferences p)]> m))).
Proof.
  intros Hm Hp Hb Hok. rewrite normalize_nonempty by done. rewrite Hp, Hb.
  unfold sections_ok, canonical in Hok. simpl in Hok.
  repeat (apply andb_true_iff in Hok as [? Hok]).
  rewrite !subsection_dict by done. reflexivity.
Qed.

Lemma normalize_ill_formed (m : gmap string value) :
  m ≠ ∅ -> well_formed m = false ->
  normalize_identity (VDict m) = Raise AttributeError \/
  normalize_identity (VDict m) = Raise TypeError.
Proof.
  intros Hm Hwf. rewrite normalize_nonempty by done.
  unfold well_formed in Hwf.
  destruct (prefs_of m) as [| | | | | |p] eqn:Hp; try (by left).
  destruct (sections_ok p) eqn:Hok.
  - right. simpl in Hwf.
    unfold sections_ok, canonical in Hok. simpl in Hok.
    repeat (apply andb_true_iff in Hok as [? Hok]).
    rewrite !subsection_dict by done. simpl.
    destruct (behaviors_of m); simpl in *; done.
  - left. clear Hwf. unfold sections_ok, canonical in Hok. simpl in Hok.
    repeat match type of Hok with
    | section_ok p ?n && _ = false =>
        destruct (section_ok p n) eqn:?;
          [rewrite (subsection_dict p n) by done; simpl in Hok |- *
          |by (unfold ui_defaults, interaction_defaults, automation_defaults,
                 notifications_defaults, content_defaults, privacy_defaults,
                 accessibility_defaults, risk_defaults;
               rewrite (subsection_malformed p n))]
    end.
    discriminate.
Qed.

Lemma normalize_section_malformed (m p : gmap string value) :
  m ≠ ∅ -> prefs_of m = VDict p -> sections_ok p = false ->
  normalize_identity (VDict m) = Raise AttributeError.
Proof.
  intros Hm Hp Hok. rewrite normalize_nonempty by done. rewrite Hp.
  unfold sections_ok, canonical in Hok. simpl in Hok.
  repeat match type of Hok with
  | section_ok p ?n && _ = false =>
      destruct (section_ok p n) eqn:?;
        [rewrite (subsection_dict p n) by done; simpl in Hok |- *
        |by (unfold ui_defaults, interaction_defaults, automation_defaults,
               notifications_defaults, content_defaults, privacy_defaults,
               accessibility_defaults, risk_defaults;
             rewrite (subsection_malformed p n))]
  end.
  discriminate.
Qed.

(** The outcome of the normalizer on a non-empty dictionary, case by case:
    the sub-sections are built first, [**prefs] is entered after them and
    [behaviors] comes last. *)
Lemma normalize_outcome (m : gmap string value) :
  m ≠ ∅ ->
  normalize_identity (VDict m) =
    match prefs_of m with
    | VDict p =>
        if sections_ok p
        then match behaviors_of m with
             | VDict b =>
                 Ok (VDict (<["behaviors" := VDict b]>
                              (<["preferences" := VDict (merged_preferences p)]> m)))
             | _ => Raise TypeError
             end
        else Raise AttributeError
    | _ => Raise AttributeError
    end.
Proof.
  intros Hm.
  destruct (prefs_of m) as [| | | | | |p] eqn:Hp;
    try (rewrite normalize_nonempty by done; rewrite Hp; reflexivity).
  destruct (sections_ok p) eqn:Hok; [|by apply (normalize_section_malformed m p)].
  destruct (behaviors_of m) as [| | | | | |b] eqn:Hb;
    try (by apply (normalize_well_formed m p b));
    rewrite normalize_nonempty by done; rewrite Hp, Hb;
    unfold sections_ok, canonical in Hok; simpl in Hok;
    repeat (apply andb_true_iff in Hok as [? Hok]);
    rewrite !subsection_dict by done; reflexivity.
Qed.

Lemma normalize_guard (v : value) :
  Py.truthy v && Py.isinstance_dict v = false ->
  normalize_identity v = Raise (ValueError "Invalid identity object").
Proof.
  intros H. unfold normalize_identity.
  destruct (Py.truthy v), (Py.isinstance_dict v); simpl in *; done.
Qed.

Lemma truthy_dict (m : gmap string value) :
  Py.truthy (VDict m) && Py.isinstance_dict (VDict m) = true <-> m ≠ ∅.
Proof.
  simpl. rewrite andb_true_r, negb_true_iff, bool_decide_eq_false. done.
Qed.

Lemma well_formed_inv (m : gmap string value) :
  well_formed m = true ->
  exists p b, prefs_of m = VDict p /\ behaviors_of m = VDict b /\ sections_ok p = true.
Proof.
  unfold well_formed. intros [Hp Hb]%andb_true_iff.
  destruct (prefs_of m) as [| | | | | |p]; try discriminate.
  destruct (behaviors_of m) as [| | | | | |b]; try discriminate.
  by exists p, b.
Qed.

(** Whatever the normalizer returns, it returns for a non-empty dictionary
    of the right shape, and it is the merge. *)
Lemma normalize_Ok_inv (d r : value) :
  normalize_identity d = Ok r ->
  exists m p b,
    d = VDict m /\ m ≠ ∅ /\ prefs_of m = VDict p /\ behaviors_of m = VDict b /\
    sections_ok p = true /\
    r = VDict (<["behaviors" := VDict b]>
                 (<["preferences" := VDict (merged_preferences p)]> m)).
Proof.
  intros H.
  destruct (Py.truthy d && Py.isinstance_dict d) eqn:Hg.
  - destruct d as [| | | | | |m]; try (simpl in Hg; rewrite ?andb_false_r in Hg; discriminate).
    apply truthy_dict in Hg.
    destruct (well_formed m) eqn:Hwf.
    + apply well_formed_inv in Hwf as (p & b & Hp & Hb & Hok).
      rewrite (normalize_well_formed m p b) in H by done.
      injection H as <-. by exists m, p, b.
    + destruct (normalize_ill_formed m Hg Hwf) as [Hr|Hr]; congruence.
  - rewrite normalize_guard in H by done. discriminate.
Qed.

(** ** Dictionary displays *)

Lemma display_snoc (entries : list (string * value)) (kv : string * value) :
  display (entries ++ [kv]) = <[kv.1 := kv.2]> (display entries).
Proof. unfold display. by rewrite fold_left_app. Qed.

Lemma display_list_to_map (entries : list (string * value)) :
  display entries = list_to_map (reverse entries).
Proof.
  induction entries as [|kv entries IH] using rev_ind; [done|].
  rewrite display_snoc, reverse_snoc, IH. by destruct kv.
Qed.

Lemma canonical_NoDup : NoDup canonical.*1.
Proof. apply (bool_decide_unpack _). by vm_compute. Qed.

Lemma display_canonical_Some (f : string * list (string * value) -> value)
    (sec : string * list (string * value)) :
  sec ∈ canonical ->
  display ((fun sec => (sec.1, f sec)) <$> canonical) !! sec.1 = Some (f sec).
Proof.
  intros Hin. rewrite display_list_to_map.
  apply elem_of_list_to_map_1.
  - rewrite reverse_Permutation, <- list_fmap_compose. exact canonical_NoDup.
  - apply elem_of_reverse. by apply (list_elem_of_fmap_2 (fun sec => (sec.1, f sec))).
Qed.

Lemma display_canonical_None (f : string * list (string * value) -> value)
    (k : string) :
  display ((fun sec => (sec.1, f sec)) <$> canonical) !! k = None <->
  k ∉ canonical.*1.
Proof.
  rewrite display_list_to_map, <- not_elem_of_list_to_map.
  rewrite fmap_reverse, <- list_fmap_compose, elem_of_reverse. done.
Qed.

Lemma merged_preferences_caller (p : gmap string value) (k : string) (v : value) :
  p !! k = Some v -> merged_preferences p !! k = Some v.
Proof. intros H. unfold merged_preferences. by apply lookup_union_Some_l. Qed.

Lemma merged_preferences_default (p : gmap string value)
    (sec : string * list (string * value)) :
  sec ∈ canonical -> p !! sec.1 = None ->
  merged_preferences p !! sec.1 = Some (merged_section p sec).
Proof.
  intros Hin Hp. unfold merged_preferences.
  rewrite lookup_union_r by done. by apply display_canonical_Some.
Qed.

Lemma merged_preferences_ok (p : gmap string value) :
  sections_ok p = true -> sections_ok (merged_preferences p) = true.
Proof.
  unfold sections_ok. rewrite !forallb_forall. intros Hok sec Hin.
  specialize (Hok sec Hin). apply list_elem_of_In in Hin.
  unfold section_ok in *.
  destruct (p !! sec.1) as [v|] eqn:Hp.
  - by rewrite (merged_preferences_caller p _ v).
  - by rewrite merged_preferences_default.
Qed.

Lemma merged_preferences_fixpoint (p : gmap string value) :
  merged_preferences (merged_preferences p) = merged_preferences p.
Proof.
  unfold merged_preferences at 1. apply map_eq. intros k.
  rewrite lookup_union.
  destruct (merged_preferences p !! k) as [v|] eqn:Hk.
  - by destruct (display _ !! k).
  - unfold merged_preferences in Hk. apply lookup_union_None in Hk as [_ Hk].
    apply display_canonical_None in Hk.
    by apply (display_canonical_None (merged_section (merged_preferences p))) in Hk as ->.
Qed.

(** ** Normalized documents *)

Lemma lookup_path_preferences (rest : list string) (m : gmap string value)
    (P B : value) :
  lookup_path ("preferences" :: rest)
    (VDict (<["behaviors" := B]> (<["preferences" := P]> m))) =
  lookup_path rest P.
Proof. simpl. by rewrite lookup_insert_ne, lookup_insert_eq. Qed.

Lemma normalized_insert_twice (m : gmap string value) (P B : value) :
  <["behaviors" := B]> (<["preferences" := P]>
    (<["behaviors" := B]> (<["preferences" := P]> m))) =
  <["behaviors" := B]> (<["preferences" := P]> m).
Proof.
  apply map_eq. intros k.
  destruct (decide (k = "behaviors")) as [->|]; [by rewrite !lookup_insert_eq|].
  rewrite !(lookup_insert_ne _ "behaviors") by done.
  destruct (decide (k = "preferences")) as [->|]; [by rewrite !lookup_insert_eq|].
  rewrite !(lookup_insert_ne _ "preferences") by done.
  by rewrite !lookup_insert_ne by done.
Qed.

(** A document the normalizer returns is returned unchanged when it is
    normalized again. *)
Lemma normalize_fixpoint (d r : value) :
  normalize_identity d = Ok r -> normalize_identity r = Ok r.
Proof.
  intros H. apply normalize_Ok_inv in H as (m & p & b & -> & Hm & Hp & Hb & Hok & ->).
  rewrite (normalize_well_formed _ (merged_preferences p) b).
  - by rewrite merged_preferences_fixpoint, normalized_insert_twice.
  - apply insert_non_empty.
  - unfold prefs_of. by rewrite lookup_insert_ne, lookup_insert_eq.
  - unfold behaviors_of. by rewrite lookup_insert_eq.
  - by apply merged_preferences_ok.
Qed.

(** The caller's sub-section reaches the output as it is: the last entry of
    the display of [preferences], [**prefs], replaces the merged one. *)
Lemma normalize_keeps_caller_section (m p : gmap string value) (r : value)
    (name : string) (v : value) :
  normalize_identity (VDict m) = Ok r -> prefs_of m = VDict p ->
  p !! name = Some v ->
  lookup_path ["preferences"; name] r = Some v.
Proof.
  intros H Hp Hv.
  apply normalize_Ok_inv in H as (m' & p' & b & [= <-] & Hm & Hp' & Hb & Hok & ->).
  rewrite Hp in Hp'. injection Hp' as <-.
  rewrite lookup_path_preferences. simpl.
  by rewrite (merged_preferences_caller p name v).
Qed.

Lemma merged_empty_defaults :
  Forall (fun row : string * string * value =>
            lookup_path [row.1.1; row.1.2] (VDict (merged_preferences ∅)) = Some row.2)
    Spec.defaults.
Proof. repeat constructor. Qed.

(** ** The validator, step by step *)

Section ValidatorFacts.

Variable datetime : Type.
Variable fromisoformat : string -> option datetime.
Variable decimal : N -> bool.

#[local] Abbreviation is_valid := (_is_valid_iso8601 datetime fromisoformat).
#[local] Abbreviation check_stamp := (check_timestamp datetime fromisoformat).
#[local] Abbreviation metadata_step := (validate_metadata datetime fromisoformat).
#[local] Abbreviation validate := (validate_identity datetime fromisoformat decimal).
#[local] Abbreviation timestamp_errors := (timestamp_errors datetime fromisoformat).
#[local] Abbreviation later_checks := (later_checks datetime fromisoformat).

Lemma validate_guard (v : value) :
  Py.truthy v && Py.isinstance_dict v = false ->
  validate v = Ok (Validation false [Msg.not_a_dictionary]).
Proof.
  intros H. unfold validate_identity.
  destruct v; simpl in *; try done; try by rewrite orb_true_r.
  by rewrite andb_true_r in H; rewrite H.
Qed.

Lemma check_timestamp_app (md : value) (field missing invalid : string)
    (errs : list string) :
  check_stamp md field missing invalid errs =
    new ← check_stamp md field missing invalid []; Ok (errs ++ new).
Proof.
  unfold check_timestamp. destruct (Py.contains field md) as [[|]|]; simpl; try done.
  destruct (Py.getitem md field); simpl; [|done].
  by rewrite !append_if_app.
Qed.

Lemma check_timestamp_dict (md : gmap string value) (field missing invalid : string)
    (errs : list string) :
  check_stamp (VDict md) field missing invalid errs =
    Ok (errs ++ timestamp_errors md field missing invalid).
Proof.
  unfold check_timestamp, timestamp_errors. simpl.
  destruct (md !! field) as [stamp|]; simpl; [|done].
  rewrite append_if_app. by destruct (is_valid stamp).
Qed.

Lemma validate_metadata_app (m : gmap string value) (errs : list string) :
  metadata_step m errs = new ← metadata_step m []; Ok (errs ++ new).
Proof.
  unfold validate_metadata. destruct (m !! "metadata") as [md|]; [|done].
  rewrite check_timestamp_app.
  destruct (check_stamp md "created" _ _ []) as [c|]; simpl; [|done].
  rewrite (check_timestamp_app _ _ _ _ (errs ++ c)), (check_timestamp_app _ _ _ _ c).
  destruct (check_stamp md "updated" _ _ []) as [u|]; simpl; [|done].
  by rewrite app_assoc.
Qed.

Lemma validate_optional_app (m : gmap string value) (key : string)
    (validator : value -> result (list string)) (errs : list string) :
  validate_optional m key validator errs =
    new ← validate_optional m key validator []; Ok (errs ++ new).
Proof.
  unfold validate_optional. destruct (m !! key) as [v|]; simpl.
  - by destruct (validator v).
  - by rewrite app_nil_r.
Qed.

(** The validator on a non-empty dictionary: the errors of [version], then
    those of the later steps. *)
Lemma validate_nonempty (m : gmap string value) :
  m ≠ ∅ ->
  validate (VDict m) =
    rest ← later_checks m; Ok (verdict (validate_version decimal m [] ++ rest)).
Proof.
  intros Hm. unfold validate_identity, later_checks. simpl.
  rewrite bool_decide_eq_false_2 by done. simpl.
  rewrite validate_metadata_app.
  destruct (metadata_step m []) as [me|]; simpl; [|done].
  rewrite validate_optional_app.
  destruct (validate_optional m "preferences" _ []) as [pe|]; simpl; [|done].
  rewrite validate_optional_app.
  destruct (validate_optional m "behaviors" _ []) as [be|]; simpl; [|done].
  by rewrite <- !app_assoc.
Qed.

Lemma check_timestamp_messages (md : value) (field missing invalid : string)
    (new : list string) :
  check_stamp md field missing invalid [] = Ok new ->
  new = [] \/ new = [missing] \/ new = [invalid].
Proof.
  unfold check_timestamp. destruct (Py.contains field md) as [[|]|]; simpl; try done.
  - destruct (Py.getitem md field) as [stamp|]; simpl; [|done].
    destruct (is_valid stamp); simpl; intros [= <-]; auto.
  - intros [= <-]. auto.
Qed.

Lemma validate_metadata_messages (m : gmap string value) (me : list string) :
  metadata_step m [] = Ok me -> Forall (fun e => e ∈ metadata_messages) me.
Proof.
  unfold validate_metadata, metadata_messages.
  destruct (m !! "metadata") as [md|].
  - intros (c & Hc & H)%bind_Ok.
    rewrite check_timestamp_app in H. apply bind_Ok in H as (n & H & [= <-]).
    apply bind_Ok in H as (u & Hu & [= <-]).
    apply check_timestamp_messages in Hc as [-> | [-> | ->]];
      apply check_timestamp_messages in Hu as [-> | [-> | ->]];
      simpl; repeat constructor; set_solver.
  - intros [= <-]. repeat constructor; set_solver.
Qed.

Section Silence.

(** A class [P] of messages and the checks loud enough to emit one. *)
Variable P : string -> bool.
Variable loud : check -> bool.
Hypothesis loud_spec : forall c m, loud c = false -> emits c m -> P m = false.

Lemma metadata_silent (m : gmap string value) (me : list string) :
  metadata_step m [] = Ok me ->
  forallb (fun e => negb (P e)) metadata_messages = true ->
  List.filter P me = [].
Proof.
  intros H HP. apply validate_metadata_messages in H.
  rewrite forallb_forall in HP.
  induction H as [|e me He _ IH]; simpl; [done|].
  apply list_elem_of_In, HP, negb_true_iff in He. by rewrite He.
Qed.

Lemma preferences_silent (m : gmap string value) (pe : list string) :
  validate_optional m "preferences" _validate_preferences [] = Ok pe ->
  P Msg.preferences_not_dict = false ->
  loud_schema loud preferences_schema = 0 ->
  List.filter P pe = [].
Proof.
  unfold validate_optional. intros H Hnd Hloud.
  destruct (m !! "preferences") as [pv|]; [|by injection H as <-].
  apply bind_Ok in H as (new & H & [= <-]). simpl.
  destruct pv; try (injection H as <-; simpl; by rewrite Hnd).
  rewrite _validate_preferences_schema in H.
  apply (run_schema_count P loud loud_spec) in H.
  rewrite Hloud in H. destruct (List.filter P new); [done|simpl in H; lia].
Qed.

Lemma behaviors_silent (m : gmap string value) (be : list string) :
  validate_optional m "behaviors" _validate_behaviors [] = Ok be ->
  P Msg.behaviors_not_dict = false ->
  loud_checks loud behaviors_checks = 0 ->
  List.filter P be = [].
Proof.
  unfold validate_optional. intros H Hnd Hloud.
  destruct (m !! "behaviors") as [bv|]; [|by injection H as <-].
  apply bind_Ok in H as (new & H & [= <-]). simpl.
  destruct bv; try (injection H as <-; simpl; by rewrite Hnd).
  rewrite _validate_behaviors_checks in H.
  apply (run_checks_count P loud loud_spec) in H.
  rewrite Hloud in H. destruct (List.filter P new); [done|simpl in H; lia].
Qed.

End Silence.

(** The validator returns on a document of safe shape. *)
Lemma validate_safe (m : gmap string value) :
  document_safe m = true -> is_Ok (validate (VDict m)).
Proof.
  intros [Hmd Hp]%andb_true_iff.
  destruct (decide (m = ∅)) as [->|Hm]; [by eexists|].
  rewrite validate_nonempty by done. unfold later_checks.
  assert (is_Ok (metadata_step m [])) as [me ->].
  { unfold validate_metadata. destruct (m !! "metadata") as [[]|]; try done; [|by eexists].
    rewrite check_timestamp_dict. simpl. rewrite check_timestamp_dict. by eexists. }
  assert (is_Ok (validate_optional m "preferences" _validate_preferences [])) as [pe ->].
  { unfold validate_optional. destruct (m !! "preferences") as [pv|]; [|by eexists].
    destruct pv; try by eexists.
    rewrite _validate_preferences_schema.
    destruct (run_schema_safe d preferences_schema [] Hp) as [new ->]. by eexists. }
  assert (is_Ok (validate_optional m "behaviors" _validate_behaviors [])) as [be ->].
  { unfold validate_optional. destruct (m !! "behaviors") as [bv|]; [|by eexists].
    destruct bv; try by eexists.
    rewrite _validate_behaviors_checks.
    destruct (run_checks_safe (VDict d) behaviors_checks []) as [new ->]; [done|].
    by eexists. }
  by eexists.
Qed.

End ValidatorFacts.

(** * The normalizer: claims C1, C2, C3 and C5 *)

(** C1, evaluated on the code.  For the document
    [{"preferences": {"ui": {"theme": "dark"}}}] the normalizer returns a
    document whose [preferences.ui] is the caller's [{"theme": "dark"}] and
    nothing more: the merged sub-section of lines 200-207, which has
    [density] at its default ["comfortable"], is replaced by the caller's
    own sub-section when [**prefs] is entered at line 254, so that no
    default is filled into a sub-section the caller supplied.  Likewise
    for [{"preferences": {"ui": {"customFlag": true}}}]: the unknown field
    passes through, and [theme] is not filled in. *)
Theorem normalize_drops_defaults_of_supplied_subsection :
  (exists doc,
     normalize_identity Sample.dark_theme = Ok doc /\
     lookup_path ["preferences"; "ui"; "theme"] doc = Some (VStr "dark") /\
     lookup_path ["preferences"; "ui"] doc = Some (Sample.dict [("theme", VStr "dark")]) /\
     lookup_path ["preferences"; "ui"; "density"] doc = None /\
     lookup_path ["density"]
       (merged_section (display [("ui", Sample.dict [("theme", VStr "dark")])])
          ("ui", ui_defaults)) = Some (VStr "comfortable")) /\
  (exists doc,
     normalize_identity Sample.custom_flag = Ok doc /\
     lookup_path ["preferences"; "ui"; "customFlag"] doc = Some (VBool true) /\
     lookup_path ["preferences"; "ui"; "theme"] doc = None).
Proof.
  split; eexists; (split; [by vm_compute|]); by vm_compute.
Qed.

(** C2, refuted as stated: on the empty mapping the normalizer raises
    [ValueError] and returns no document. *)
Lemma normalize_empty_mapping_raises :
  normalize_identity (VDict ∅) = Raise (ValueError "Invalid identity object") /\
  ~ exists doc, normalize_identity (VDict ∅) = Ok doc.
Proof. split; [done|]. by intros [doc H]. Qed.

(** C2, amended.  The empty mapping is refused with [ValueError]; a
    non-empty mapping that has neither [preferences] nor [behaviors] is
    normalized to a document whose [preferences] carry every default of the
    table of section 6 (in particular [preferences.ui.theme] is ["auto"])
    and whose [behaviors] is the empty mapping. *)
Theorem normalize_fills_every_default (m : gmap string value) :
  m ≠ ∅ -> m !! "preferences" = None -> m !! "behaviors" = None ->
  normalize_identity (VDict ∅) = Raise (ValueError "Invalid identity object") /\
  exists doc,
    normalize_identity (VDict m) = Ok doc /\
    (forall sec field v, (sec, field, v) ∈ Spec.defaults ->
       lookup_path ["preferences"; sec; field] doc = Some v) /\
    lookup_path ["preferences"; "ui"; "theme"] doc = Some (VStr "auto") /\
    lookup_path ["behaviors"] doc = Some (VDict ∅).
Proof.
  intros Hm Hp Hb. split; [done|].
  eexists. split; [|split; [|split]].
  - apply (normalize_well_formed m ∅ ∅); try done.
    + unfold prefs_of. by rewrite Hp.
    + unfold behaviors_of. by rewrite Hb.
  - intros sec field v Hin. rewrite lookup_path_preferences.
    pose proof merged_empty_defaults as Hall.
    rewrite Forall_forall in Hall. exact (Hall _ Hin).
  - by rewrite lookup_path_preferences.
  - simpl. by rewrite lookup_insert_eq.
Qed.

Lemma normalize_fills_every_default_witness :
  exists doc,
    normalize_identity Sample.version_only = Ok doc /\
    lookup_path ["preferences"; "ui"; "theme"] doc = Some (VStr "auto").
Proof.
  destruct (normalize_fills_every_default (display [("version", VStr "0.1.0")]))
    as (_ & doc & Hdoc & _ & Htheme & _).
  - intros H. apply (f_equal (fun d => d !! "version")) in H. vm_compute in H. discriminate.
  - reflexivity.
  - reflexivity.
  - exists doc. split; [exact Hdoc|exact Htheme].
Defined.

(** C3.  Normalization is idempotent: normalizing the outcome of
    [normalize_identity] again changes nothing, for every input.  A document
    that was returned is returned again unchanged, so every field present
    in it keeps its value (lemma [normalize_fixpoint]); an input that is
    refused is refused in the same way. *)
Theorem normalize_idempotent (doc : value) :
  normalize_identity doc ≫= normalize_identity = normalize_identity doc.
Proof.
  destruct (normalize_identity doc) as [r|e] eqn:H; simpl; [|done].
  by apply normalize_fixpoint in H.
Qed.

(** C5, refuted as stated: a mapping whose [preferences] is a number is
    not tolerated, the normalizer raises [AttributeError]; so does one with
    a sub-section that is a number, and a [behaviors] that is a number
    raises [TypeError]. *)
Lemma normalize_malformed_section_raises :
  normalize_identity (Sample.dict [("preferences", VInt 5)]) = Raise AttributeError /\
  normalize_identity (Sample.dict [("preferences", Sample.dict [("ui", VInt 5)])])
    = Raise AttributeError /\
  normalize_identity (Sample.dict [("behaviors", VInt 5)]) = Raise TypeError.
Proof. repeat split; by vm_compute. Qed.

(** C5, amended.  The normalizer raises [ValueError], with the message
    "Invalid identity object", exactly when its input is not a non-empty
    mapping.  On a non-empty mapping its outcome is decided by the two
    sections, an absent one counting as the empty mapping.  When
    [preferences] is no mapping, or is a mapping in which one of the eight
    sub-sections the normalizer builds is present and no mapping, it raises
    [AttributeError], whatever [behaviors] is.  When [preferences] and its
    sub-sections are mappings and [behaviors] is no mapping, it raises
    [TypeError].  In the remaining case it returns the input with
    [preferences] and [behaviors] replaced, and every entry of the caller's
    [preferences] and the whole of the caller's [behaviors] pass through
    unchanged; absent sections never make it fail. *)
Theorem normalize_failure_modes (v : value) :
  (Py.truthy v && Py.isinstance_dict v = false ->
   normalize_identity v = Raise (ValueError "Invalid identity object")) /\
  (forall msg, normalize_identity v = Raise (ValueError msg) ->
     Py.truthy v && Py.isinstance_dict v = false) /\
  (forall m, v = VDict m -> m ≠ ∅ ->
     normalize_identity v =
       match default (VDict ∅) (m !! "preferences") with
       | VDict p =>
           if forallb (fun name => match p !! name with
                                   | Some (VDict _) | None => true
                                   | Some _ => false
                                   end)
                ["ui"; "interaction"; "automation"; "notifications";
                 "content"; "privacy"; "accessibility"; "risk"]
           then match default (VDict ∅) (m !! "behaviors") with
                | VDict b =>
                    Ok (VDict (<["behaviors" := VDict b]>
                                 (<["preferences" := VDict (merged_preferences p)]> m)))
                | _ => Raise TypeError
                end
           else Raise AttributeError
       | _ => Raise AttributeError
       end /\
     (forall p k x, m !! "preferences" = Some (VDict p) -> p !! k = Some x ->
        merged_preferences p !! k = Some x) /\
     (m !! "preferences" = None -> m !! "behaviors" = None ->
      normalize_identity v =
        Ok (VDict (<["behaviors" := VDict ∅]>
                     (<["preferences" := VDict (merged_preferences ∅)]> m))))).
Proof.
  split; [apply normalize_guard|]. split.
  - intros msg H.
    destruct (Py.truthy v && Py.isinstance_dict v) eqn:Hg; [|done].
    destruct v as [| | | | | |m]; try (simpl in Hg; rewrite ?andb_false_r in Hg; discriminate).
    apply truthy_dict in Hg. rewrite (normalize_outcome m Hg) in H.
    destruct (prefs_of m) as [| | | | | |p]; try discriminate.
    destruct (sections_ok p); [|discriminate].
    destruct (behaviors_of m); discriminate.
  - intros m -> Hm. split; [exact (normalize_outcome m Hm)|]. split.
    + intros p k x _. apply merged_preferences_caller.
    + intros Hp Hb. rewrite (normalize_outcome m Hm).
      unfold prefs_of, behaviors_of. by rewrite Hp, Hb.
Qed.

Lemma normalize_failure_modes_witness :
  normalize_identity Sample.dark_theme =
    Ok (VDict (<["behaviors" := VDict ∅]>
                 (<["preferences" :=
                      VDict (merged_preferences
                               (display [("ui", Sample.dict [("theme", VStr "dark")])]))]>
                    (display [("preferences",
                               Sample.dict [("ui", Sample.dict [("theme", VStr "dark")])])])))) /\
  merged_preferences (display [("ui", Sample.dict [("theme", VStr "dark")])]) !! "ui" =
    Some (Sample.dict [("theme", VStr "dark")]).
Proof.
  destruct (normalize_failure_modes Sample.dark_theme) as (_ & _ & H).
  destruct (H _ eq_refl) as (Hout & Hpass & _).
  - intros E. apply (f_equal (fun d => d !! "preferences")) in E. vm_compute in E. discriminate.
  - split.
    + rewrite Hout. reflexivity.
    + apply (Hpass _ "ui" _ eq_refl). reflexivity.
Defined.

(** * The validator: claims C4, C6, C7, C8, C9 and C10 *)

(** C4, evaluated on the code.  The validator raises [TypeError] on a
    document whose [metadata] is a number, on one whose
    [content.language] is a number, on one whose list of channels holds a
    number and on one whose sub-section [ui] is a number, whatever the
    date-time parser and the decimal digits of the Unicode database:
    these shapes are not reported in the result. *)
Theorem validate_raises_on_malformed_shapes
    (datetime : Type) (fromisoformat : string -> option datetime)
    (decimal : N -> bool) :
  validate_identity datetime fromisoformat decimal Doc.scalar_metadata = Raise TypeError /\
  validate_identity datetime fromisoformat decimal Doc.numeric_language = Raise TypeError /\
  validate_identity datetime fromisoformat decimal Doc.numeric_channel = Raise TypeError /\
  validate_identity datetime fromisoformat decimal Doc.scalar_ui = Raise TypeError.
Proof. repeat split; by vm_compute. Qed.

Lemma run_check_insert (s : gmap string value) (field : string) (v : value)
    (c : check) (errors : list string) :
  check_field c ≠ field ->
  run_check (VDict (<[field := v]> s)) c errors = run_check (VDict s) c errors.
Proof.
  intros Hne. destruct c; simpl in *;
    unfold check_enum, check_regex, check_channels, check_max_amount; simpl;
    by rewrite lookup_insert_ne.
Qed.

Lemma run_checks_insert (s : gmap string value) (field : string) (v : value)
    (cs : list check) (errors : list string) :
  forallb (fun c => negb (bool_decide (check_field c = field))) cs = true ->
  run_checks (VDict (<[field := v]> s)) cs errors = run_checks (VDict s) cs errors.
Proof.
  revert errors. induction cs as [|c cs IH]; intros errors; simpl; [done|].
  intros [Hc Hcs]%andb_true_iff.
  apply negb_true_iff, bool_decide_eq_false in Hc.
  rewrite run_check_insert by done.
  destruct (run_check (VDict s) c errors); simpl; [by apply IH|done].
Qed.

Lemma run_schema_insert (p : gmap string value) (schema : list (string * list check))
    (sec field : string) (s : gmap string value) (v : value) (errors : list string) :
  ignores schema sec field = true -> p !! sec = Some (VDict s) ->
  run_schema (<[sec := VDict (<[field := v]> s)]> p) schema errors =
  run_schema p schema errors.
Proof.
  intros Hig Hp. revert errors.
  induction schema as [|[name cs] rest IH]; intros errors; simpl; [done|].
  simpl in Hig. apply andb_true_iff in Hig as [Hhere Hrest].
  assert (run_section (<[sec := VDict (<[field := v]> s)]> p) (name, cs) errors =
          run_section p (name, cs) errors) as ->.
  { unfold run_section. simpl. destruct (decide (name = sec)) as [->|Hne].
    - rewrite lookup_insert_eq, Hp. apply run_checks_insert.
      apply orb_true_iff in Hhere as [Hhere|Hhere]; [|done].
      by rewrite bool_decide_eq_true_2 in Hhere.
    - by rewrite lookup_insert_ne. }
  destruct (run_section p (name, cs) errors); simpl; [by apply IH|done].
Qed.

Ltac find_elem :=
  repeat first [apply list_elem_of_here | apply list_elem_of_further].

Ltac fired_once Herrs Hp Hs Hv :=
  match type of Hv with
  | Py.not_in _ ?allowed = true =>
      match goal with
      | |- occurrences (invalid_value ?sec ?field) _ = 1 =>
          eapply (schema_once _ preferences_schema _ sec _ _
                    (CEnum field allowed (invalid_value sec field)))
      end
  end;
    [exact Herrs
    |unfold preferences_schema; find_elem
    |exact Hp
    |find_elem
    |exact (check_enum_fires _ _ _ _ _ Hs Hv)
    |by vm_compute].

(** C6, refuted as stated: a string in the boolean field
    [ui.colorBlindMode] and the boolean [true] in
    [risk.maxTransactionAmount] are outside the sets of the table and give
    no error. *)
Lemma unchecked_values_pass :
  _validate_preferences Doc.colorblind_yes = Ok [] /\
  _validate_preferences Doc.amount_true = Ok [].
Proof. split; by vm_compute. Qed.

(** C6, amended.  Take one of the fourteen fields of [preferences] that the
    validator compares with a fixed set of strings, present with a value
    outside the set, or a present [risk.maxTransactionAmount] that is no
    instance of [int] or [float] or is negative.  On preferences of safe
    shape (every present sub-section is a mapping, [content.language] and
    [content.currency] are strings when present, the entries of a list of
    channels are strings) [_validate_preferences] returns, and the error
    "Invalid <sub-section>.<field> value", or the error about the amount,
    occurs exactly once in its result; the same holds of every result it
    returns on preferences of another shape.  The twelve boolean fields of
    the table are not checked: whatever value one of them is given, the
    validator behaves as before. *)
Theorem invalid_value_reported_once :
  (forall p msg, violation p msg ->
     (preferences_safe p = true ->
      exists errs, _validate_preferences (VDict p) = Ok errs /\
                   occurrences msg errs = 1) /\
     (forall errs, _validate_preferences (VDict p) = Ok errs ->
        occurrences msg errs = 1)) /\
  (forall p sec field s v,
     (sec, field) ∈ boolean_fields -> p !! sec = Some (VDict s) ->
     _validate_preferences (VDict (<[sec := VDict (<[field := v]> s)]> p)) =
     _validate_preferences (VDict p)).
Proof.
  assert (forall p msg errs, violation p msg ->
            _validate_preferences (VDict p) = Ok errs -> occurrences msg errs = 1)
    as Honce.
  { intros p msg errs Hv Herrs. rewrite _validate_preferences_schema in Herrs.
    destruct Hv as [sec field allowed s v Hin Hp Hs Hv|r v Hp Hr Hv].
    - unfold enumerated_fields in Hin.
      repeat (apply elem_of_cons in Hin as [[= -> -> ->]|Hin];
              [fired_once Herrs Hp Hs Hv|]).
      by apply elem_of_nil in Hin.
    - change "risk.maxTransactionAmount must be a non-negative number"
        with Msg.max_amount_invalid.
      eapply (schema_once _ preferences_schema _ "risk" _ _ CMaxAmount);
        [exact Herrs
        |unfold preferences_schema; find_elem
        |exact Hp
        |find_elem
        |exact (check_max_amount_fires _ _ Hr Hv)
        |by vm_compute]. }
  split.
  - intros p msg Hv. split; [|intros errs; by apply Honce].
    intros Hsafe.
    destruct (run_schema_safe p preferences_schema [] Hsafe) as [errs Herrs].
    rewrite <- _validate_preferences_schema in Herrs.
    exists errs. split; [exact Herrs|by apply (Honce p)].
  - intros p sec field s v Hin Hp. rewrite !_validate_preferences_schema.
    apply run_schema_insert; [|done].
    unfold boolean_fields in Hin.
    repeat (apply elem_of_cons in Hin as [[= -> ->]|Hin]; [by vm_compute|]).
    by apply elem_of_nil in Hin.
Qed.

Lemma invalid_value_reported_once_witness :
  exists errs,
    _validate_preferences (VDict Doc.neon) = Ok errs /\
    occurrences "Invalid ui.theme value" errs = 1.
Proof.
  assert (violation Doc.neon (invalid_value "ui" "theme")) as Hv.
  { apply (enum_violation Doc.neon "ui" "theme" ["light"; "dark"; "auto"; "high-contrast"]
             (display [("theme", VStr "neon")]) (VStr "neon")).
    - unfold enumerated_fields. apply list_elem_of_here.
    - reflexivity.
    - reflexivity.
    - reflexivity. }
  destruct invalid_value_reported_once as [Hone _].
  destruct (Hone Doc.neon _ Hv) as [Hsafe _].
  apply Hsafe. reflexivity.
Defined.

(** ** The validator on a whole document *)

Lemma loud_version_spec (c : check) (m : string) :
  loud_version c = false -> emits c m -> is_version_message m = false.
Proof.
  unfold loud_version, is_version_message, version_messages. simpl.
  intros H Hm.
  apply orb_false_iff in H as [H1 H]. apply orb_false_iff in H as [H2 H].
  apply orb_false_iff in H as [H3 _].
  apply (loud_eq_spec _ _ m) in H1, H2, H3; try done.
  rewrite bool_decide_eq_false in H1, H2, H3.
  apply bool_decide_eq_false. intros Hin.
  repeat (apply elem_of_cons in Hin as [Hin|Hin]; [done|]).
  by apply elem_of_nil in Hin.
Qed.

Lemma not_in_names (s : string) (l : list string) :
  Py.not_in (VStr s) l = negb (bool_decide (s ∈ l)).
Proof.
  unfold Py.not_in. f_equal. induction l as [|t l IH]; simpl; [done|].
  rewrite IH, <- bool_decide_or. apply bool_decide_ext. by rewrite elem_of_cons.
Qed.

(** The channels the code allows are those of the table. *)
Lemma valid_channels_table : valid_channels = Wording.channels.
Proof. reflexivity. Qed.

Lemma filter_channel_names (names : list string) :
  List.filter (fun ch => Py.not_in ch valid_channels) (VStr <$> names) =
  VStr <$> invalid_names names.
Proof.
  unfold invalid_names. rewrite valid_channels_table.
  induction names as [|s names IH]; [done|].
  rewrite fmap_cons. cbn [List.filter]. rewrite IH, not_in_names.
  by destruct (bool_decide (s ∈ Wording.channels)).
Qed.

Lemma strings_of_names (names : list string) :
  Py.strings_of (VStr <$> names) = Ok names.
Proof.
  induction names as [|s names IH]; [done|].
  rewrite fmap_cons. cbn [Py.strings_of]. by rewrite IH.
Qed.

Lemma join_strings_cons (sep x y : string) (rest : list string) :
  Py.join_strings sep (x :: y :: rest) =
  String.append x (String.append sep (Py.join_strings sep (y :: rest))).
Proof. reflexivity. Qed.

Lemma join_strings_first (x y : string) (rest : list string) :
  Py.join_strings ", " (String.append x (String.append ", " y) :: rest) =
  Py.join_strings ", " (x :: y :: rest).
Proof.
  rewrite join_strings_cons. destruct rest as [|z rest]; [done|].
  rewrite !join_strings_cons. by rewrite !append_assoc.
Qed.

(** [", ".join] separates the items by a comma and a space. *)
Lemma join_strings_comma (l : list string) :
  Py.join_strings ", " l = Wording.comma_joined l.
Proof.
  destruct l as [|x rest]; [done|]. unfold Wording.comma_joined.
  revert x. induction rest as [|y rest IH]; intros x; [done|].
  cbn [fold_left]. rewrite <- IH. symmetry. apply join_strings_first.
Qed.

Lemma check_channels_fires (n : gmap string value) (names : list string) :
  n !! "channels" = Some (VList (VStr <$> names)) ->
  invalid_names names ≠ [] ->
  run_check (VDict n) CChannels [] = Ok [aggregate names].
Proof.
  intros Hn Hne. simpl. unfold check_channels. simpl. rewrite Hn. simpl.
  rewrite filter_channel_names. unfold Py.join, aggregate. rewrite strings_of_names.
  rewrite <- join_strings_comma.
  by destruct (invalid_names names).
Qed.

Lemma validate_version_messages (decimal : N -> bool) (m : gmap string value) :
  Forall (fun e => e ∈ version_messages) (validate_version decimal m []).
Proof.
  unfold validate_version, version_messages.
  destruct (m !! "version") as [[]|]; simpl;
    try match goal with |- context [Re.match_semver ?d ?s] => destruct (Re.match_semver d s) end;
    simpl; repeat constructor; set_solver.
Qed.

(** The messages about [version] and about the time stamps, as the code
    builds them and as a caller reads them. *)
Lemma version_messages_wording : version_messages = Wording.about_version.
Proof. reflexivity. Qed.

Lemma stamp_messages_wording :
  [Msg.created_missing; Msg.created_invalid; Msg.updated_missing; Msg.updated_invalid] =
  Wording.about_stamps.
Proof. reflexivity. Qed.

(** C7, evaluated on the code.  With [metadata] present as the number 5,
    as [null] or as the string ["created"], the two time stamps are not
    checked and no error about them is produced: the membership test of
    line 41, or the subscript of line 43, raises [TypeError], whatever the
    date-time parser.  The type of [metadata] is not tested before it is
    used as a mapping. *)
Theorem timestamps_unchecked_in_scalar_metadata
    (datetime : Type) (fromisoformat : string -> option datetime)
    (decimal : N -> bool) :
  validate_identity datetime fromisoformat decimal Doc.metadata_five = Raise TypeError /\
  validate_identity datetime fromisoformat decimal Doc.metadata_null = Raise TypeError /\
  validate_identity datetime fromisoformat decimal Doc.metadata_text = Raise TypeError.
Proof. repeat split; by vm_compute. Qed.

(** C8, evaluated on the code.  On the end-to-end document with the
    channels [["in-app", 5]], whose entry 5 is outside the allowed set, no
    aggregate error is produced: [", ".join] of line 114 raises [TypeError]
    on the entry that is no string, whatever the date-time parser.  The
    types of the entries are not tested before they are joined. *)
Theorem channels_unreported_for_non_string_entry
    (datetime : Type) (fromisoformat : string -> option datetime)
    (decimal : N -> bool) :
  validate_identity datetime fromisoformat decimal Doc.mixed_channels = Raise TypeError /\
  _validate_preferences
    (Sample.dict [("notifications",
                   Sample.dict [("channels", VList [VStr "in-app"; VInt 5])])]) =
    Raise TypeError.
Proof.
  split; [|by vm_compute].
  vm_compute. by repeat destruct (fromisoformat _).
Qed.

Section ValidatorProperties.

Variable datetime : Type.
Variable fromisoformat : string -> option datetime.
Variable decimal : N -> bool.

#[local] Abbreviation is_valid := (_is_valid_iso8601 datetime fromisoformat).
#[local] Abbreviation validate := (validate_identity datetime fromisoformat decimal).
#[local] Abbreviation later := (later_checks datetime fromisoformat).
#[local] Abbreviation stamp_errors := (timestamp_errors datetime fromisoformat).

Lemma validate_Ok_inv (m : gmap string value) (r : validation) :
  m ≠ ∅ -> validate (VDict m) = Ok r ->
  exists me pe be,
    validate_metadata datetime fromisoformat m [] = Ok me /\
    validate_optional m "preferences" _validate_preferences [] = Ok pe /\
    validate_optional m "behaviors" _validate_behaviors [] = Ok be /\
    r = verdict (validate_version decimal m [] ++ me ++ pe ++ be).
Proof.
  intros Hm H. rewrite validate_nonempty in H by done.
  apply bind_Ok in H as (rest & Hrest & [= <-]).
  unfold later_checks in Hrest.
  apply bind_Ok in Hrest as (me & Hme & Hrest).
  apply bind_Ok in Hrest as (pe & Hpe & Hrest).
  apply bind_Ok in Hrest as (be & Hbe & [= <-]).
  by exists me, pe, be.
Qed.

Lemma later_checks_silent (P : string -> bool) (loud : check -> bool)
    (m : gmap string value) (rest : list string) :
  (forall c e, loud c = false -> emits c e -> P e = false) ->
  later m = Ok rest ->
  forallb (fun e => negb (P e)) metadata_messages = true ->
  P Msg.preferences_not_dict = false -> P Msg.behaviors_not_dict = false ->
  loud_schema loud preferences_schema = 0 ->
  loud_checks loud behaviors_checks = 0 ->
  List.filter P rest = [].
Proof.
  intros Hspec H Hmd Hp Hb Hls Hlc. unfold later_checks in H.
  apply bind_Ok in H as (me & Hme & H).
  apply bind_Ok in H as (pe & Hpe & H).
  apply bind_Ok in H as (be & Hbe & [= <-]).
  rewrite !List.filter_app.
  rewrite (metadata_silent datetime fromisoformat P m me),
    (preferences_silent P loud Hspec m pe),
    (behaviors_silent P loud Hspec m be); done.
Qed.

(** The steps after the check of [version] emit no message about
    [version]. *)
Lemma later_checks_version_free (m : gmap string value) (rest : list string) :
  later m = Ok rest -> Forall (fun e => e ∉ Wording.about_version) rest.
Proof.
  intros Hrest. rewrite <- version_messages_wording.
  apply (later_checks_silent is_version_message loud_version)
    in Hrest; try done; [|apply loud_version_spec].
  apply Forall_forall. intros e He Hin.
  assert (In e (List.filter is_version_message rest)) as Hf.
  { apply List.filter_In. split; [by apply list_elem_of_In|].
    by apply bool_decide_eq_true. }
  by rewrite Hrest in Hf.
Qed.

(** C9, amended.  An input that is no mapping, and the empty mapping, get
    the single error "Identity must be a dictionary".  For a non-empty
    mapping without [version], the validator returns exactly when the steps
    after the check of [version] return, as they do on a document of safe
    shape ([metadata] absent or a mapping, and [preferences], when it is a
    mapping, of safe shape).  Whenever it returns, the document is
    declared invalid, the first of its errors is
    "Missing required field: version", and none of the errors that follow
    is one of the three errors about [version]. *)
Theorem missing_version_reported_once :
  (forall v, Py.truthy v && Py.isinstance_dict v = false ->
     validate v = Ok (Validation false ["Identity must be a dictionary"])) /\
  (forall m, m ≠ ∅ -> m !! "version" = None ->
     validate (VDict m) =
       (rest ← later m;
        Ok (Validation false ("Missing required field: version" :: rest))) /\
     (forall r, validate (VDict m) = Ok r ->
        valid r = false /\
        exists rest, errors r = "Missing required field: version" :: rest /\
                     Forall (fun e => e ∉ Wording.about_version) rest) /\
     (document_safe m = true ->
      exists rest,
        validate (VDict m) =
          Ok (Validation false ("Missing required field: version" :: rest)) /\
        Forall (fun e => e ∉ Wording.about_version) rest)).
Proof.
  split; [apply validate_guard|].
  intros m Hm Hv.
  assert (validate (VDict m) =
          (rest ← later m;
           Ok (Validation false ("Missing required field: version" :: rest)))) as Heq.
  { rewrite validate_nonempty by done. unfold validate_version. by rewrite Hv. }
  assert (forall r, validate (VDict m) = Ok r ->
            exists rest, later m = Ok rest /\
              r = Validation false ("Missing required field: version" :: rest)) as Hinv.
  { intros r Hr. rewrite Heq in Hr. apply bind_Ok in Hr as (rest & Hrest & [= <-]).
    by exists rest. }
  split; [exact Heq|]. split.
  - intros r (rest & Hrest & ->)%Hinv. split; [done|].
    exists rest. split; [done|]. by apply (later_checks_version_free m).
  - intros Hsafe.
    destruct (validate_safe datetime fromisoformat decimal m Hsafe) as [r Hr].
    destruct (Hinv r Hr) as (rest & Hrest & ->).
    exists rest. split; [exact Hr|]. by apply (later_checks_version_free m).
Qed.

(** C10.  The validator reads the four recognized top-level keys only: on
    two non-empty mappings that agree on them it behaves identically.  So
    adding or changing an entry with another key never changes the
    outcome, and neither does removing one, as long as the document stays
    non-empty; removing the last entry of a document leaves it invalid. *)
Theorem validate_reads_recognized_keys_only :
  (forall m1 m2, m1 ≠ ∅ -> m2 ≠ ∅ ->
     (forall k, k ∈ recognized -> m1 !! k = m2 !! k) ->
     validate (VDict m1) = validate (VDict m2)) /\
  (forall m k v, m ≠ ∅ -> k ∉ recognized ->
     validate (VDict (<[k := v]> m)) = validate (VDict m)) /\
  (forall m k, k ∉ recognized -> delete k m ≠ ∅ ->
     validate (VDict (delete k m)) = validate (VDict m)) /\
  (forall m k, m ≠ ∅ -> k ∉ recognized ->
     valid_of (validate (VDict (delete k m))) = valid_of (validate (VDict m))).
Proof.
  assert (forall m1 m2, m1 ≠ ∅ -> m2 ≠ ∅ ->
            (forall k, k ∈ recognized -> m1 !! k = m2 !! k) ->
            validate (VDict m1) = validate (VDict m2)) as Hmain.
  { intros m1 m2 H1 H2 Hagree. rewrite !validate_nonempty by done.
    unfold later_checks, validate_version, validate_metadata, validate_optional.
    rewrite !(Hagree "version"), !(Hagree "metadata"), !(Hagree "preferences"),
      !(Hagree "behaviors") by (unfold recognized; find_elem).
    done. }
  assert (forall (m : gmap string value) k, k ∉ recognized ->
            forall k', k' ∈ recognized -> delete k m !! k' = m !! k') as Hdel.
  { intros m k Hk k' Hk'. apply lookup_delete_ne. by intros ->. }
  repeat split.
  - exact Hmain.
  - intros m k v Hm Hk. apply Hmain; [apply insert_non_empty|done|].
    intros k' Hk'. apply lookup_insert_ne. by intros ->.
  - intros m k Hk Hne. apply Hmain; [done| |by apply Hdel].
    intros ->. by rewrite delete_empty in Hne.
  - intros m k Hm Hk. destruct (decide (delete k m = ∅)) as [He|Hne].
    + rewrite He. rewrite (validate_nonempty datetime fromisoformat decimal m) by done.
      unfold later_checks, validate_version, validate_metadata, validate_optional.
      rewrite <- !(Hdel m k Hk) by (unfold recognized; find_elem).
      by rewrite He, !lookup_empty.
    + f_equal. by apply Hmain; [done|done|apply Hdel].
Qed.

End ValidatorProperties.

(** ** The properties at sample documents *)

Lemma display_nonempty (kv : string * value) (entries : list (string * value)) :
  display (entries ++ [kv]) ≠ ∅.
Proof. rewrite display_snoc. apply insert_non_empty. Defined.

(** C9, refuted as stated: the empty mapping lacks [version], and its
    single error does not name [version]. *)
Lemma validate_empty_mapping_omits_version :
  validate_identity unit IsoShape.fromisoformat Unicode.decimal (VDict ∅) =
    Ok (Validation false ["Identity must be a dictionary"]) /\
  ("Missing required field: version" ∉ ["Identity must be a dictionary"]) /\
  Py.is_substring "version" "Identity must be a dictionary" = false.
Proof.
  split; [by vm_compute|]. split; [|by vm_compute].
  intros Hin. apply elem_of_cons in Hin as [Hin|Hin]; [discriminate|].
  by apply elem_of_nil in Hin.
Qed.

Lemma missing_version_reported_once_witness :
  exists rest,
    validate_identity unit IsoShape.fromisoformat Unicode.decimal (VDict Doc.titled) =
      Ok (Validation false ("Missing required field: version" :: rest)) /\
    Forall (fun e => e ∉ Wording.about_version) rest.
Proof.
  destruct (missing_version_reported_once unit IsoShape.fromisoformat Unicode.decimal)
    as [_ H].
  destruct (H Doc.titled) as (_ & _ & Hsafe).
  - apply (display_nonempty _ []).
  - reflexivity.
  - apply Hsafe. reflexivity.
Defined.

Lemma validate_reads_recognized_keys_only_witness :
  validate_identity unit IsoShape.fromisoformat Unicode.decimal (VDict Doc.titled) =
  validate_identity unit IsoShape.fromisoformat Unicode.decimal (VDict Doc.retitled).
Proof.
  destruct (validate_reads_recognized_keys_only unit IsoShape.fromisoformat
              Unicode.decimal) as (Hmain & _).
  apply Hmain.
  - apply (display_nonempty _ []).
  - apply (display_nonempty _ [_]).
  - intros k Hk. unfold recognized in Hk.
    repeat (apply elem_of_cons in Hk as [->|Hk]; [reflexivity|]).
    by apply elem_of_nil in Hk.
Defined.


(** * Further properties of the validator and the normalizer *)

(** ** Validation after normalization *)

Lemma merged_section_absent (p : gmap string value)
    (sec : string * list (string * value)) :
  p !! sec.1 = None -> merged_section p sec = merged_section ∅ sec.
Proof.
  intros Hp. unfold merged_section, caller_section. by rewrite Hp, lookup_empty.
Qed.

Lemma run_section_merged (p : gmap string value) (name : string)
    (cs : list check) (fields : list (string * value)) (errs : list string) :
  (name, fields) ∈ canonical ->
  run_checks (merged_section ∅ (name, fields)) cs [] = Ok [] ->
  run_section (merged_preferences p) (name, cs) errs = run_section p (name, cs) errs.
Proof.
  intros Hin Hquiet. unfold run_section. simpl.
  destruct (p !! name) as [v|] eqn:Hp.
  - by rewrite (merged_preferences_caller p name v).
  - pose proof (merged_preferences_default p (name, fields) Hin Hp) as Hd.
    cbn [fst] in Hd. rewrite Hd, (merged_section_absent p (name, fields)) by done.
    rewrite run_checks_app, Hquiet. simpl. by rewrite app_nil_r.
Qed.

(** The defaults of every sub-section pass the checks made on it. *)
Lemma defaults_pass_checks :
  Forall (fun sec : string * list check =>
            exists fields, (sec.1, fields) ∈ canonical /\
              run_checks (merged_section ∅ (sec.1, fields)) sec.2 [] = Ok [])
    preferences_schema.
Proof.
  unfold preferences_schema.
  repeat (apply Forall_cons; split;
          [eexists; split; [unfold canonical; find_elem|by vm_compute]|]).
  apply Forall_nil. done.
Qed.

Lemma run_schema_merged (p : gmap string value) (errs : list string) :
  run_schema (merged_preferences p) preferences_schema errs =
  run_schema p preferences_schema errs.
Proof.
  pose proof defaults_pass_checks as Hall. revert errs.
  induction Hall as [|[name cs] rest (fields & Hin & Hq) _ IH]; intros errs; [done|].
  simpl. rewrite (run_section_merged p name cs fields) by done.
  destruct (run_section p (name, cs) errs); simpl; [apply IH|done].
Qed.

Lemma run_schema_empty (schema : list (string * list check)) (errs : list string) :
  run_schema ∅ schema errs = Ok errs.
Proof.
  induction schema as [|sec rest IH]; [done|].
  simpl. unfold run_section. by rewrite lookup_empty.
Qed.

Lemma lookup_normalized (m : gmap string value) (P B : value) (k : string) :
  <["behaviors" := B]> (<["preferences" := P]> m) !! k =
  if decide (k = "behaviors") then Some B
  else if decide (k = "preferences") then Some P else m !! k.
Proof.
  destruct (decide (k = "behaviors")) as [->|]; [by rewrite lookup_insert_eq|].
  rewrite lookup_insert_ne by done.
  destruct (decide (k = "preferences")) as [->|]; [by rewrite lookup_insert_eq|].
  by rewrite lookup_insert_ne.
Qed.

Section AfterNormalization.

Variable datetime : Type.
Variable fromisoformat : string -> option datetime.
Variable decimal : N -> bool.

#[local] Abbreviation validate := (validate_identity datetime fromisoformat decimal).

Lemma validation_after_normalization (d d' : value) :
  normalize_identity d = Ok d' -> validate d' = validate d.
Proof.
  intros H.
  apply normalize_Ok_inv in H as (m & p & b & -> & Hm & Hp & Hb & Hok & ->).
  set (m' := <["behaviors" := VDict b]>
               (<["preferences" := VDict (merged_preferences p)]> m)).
  assert (validate_version decimal m' [] = validate_version decimal m []) as Hversion.
  { unfold validate_version, m'. rewrite lookup_normalized. reflexivity. }
  assert (validate_metadata datetime fromisoformat m' [] =
          validate_metadata datetime fromisoformat m []) as Hmetadata.
  { unfold validate_metadata, m'. rewrite lookup_normalized. reflexivity. }
  assert (validate_optional m' "preferences" _validate_preferences [] =
          validate_optional m "preferences" _validate_preferences []) as Hprefs.
  { unfold validate_optional, m'. rewrite lookup_normalized.
    change (_validate_preferences (VDict (merged_preferences p))
              ≫= (fun new => Ok ([] ++ new)) =
            match m !! "preferences" with
            | Some section => _validate_preferences section ≫= (fun new => Ok ([] ++ new))
            | None => Ok []
            end).
    rewrite _validate_preferences_schema, run_schema_merged.
    unfold prefs_of in Hp. destruct (m !! "preferences") as [v|]; simpl in Hp.
    - by subst v.
    - injection Hp as <-. by rewrite run_schema_empty. }
  assert (validate_optional m' "behaviors" _validate_behaviors [] =
          validate_optional m "behaviors" _validate_behaviors []) as Hbehaviors.
  { unfold validate_optional, m'. rewrite lookup_normalized.
    change (_validate_behaviors (VDict b) ≫= (fun new => Ok ([] ++ new)) =
            match m !! "behaviors" with
            | Some section => _validate_behaviors section ≫= (fun new => Ok ([] ++ new))
            | None => Ok []
            end).
    unfold behaviors_of in Hb. destruct (m !! "behaviors") as [v|]; simpl in Hb.
    - by subst v.
    - by injection Hb as <-. }
  rewrite !validate_nonempty by (done || apply insert_non_empty).
  unfold later_checks. by rewrite Hversion, Hmetadata, Hprefs, Hbehaviors.
Qed.

(** X1.  Normalization never changes what the validator says: on the
    document that [normalize_identity] returns, [validate_identity] gives
    the result it gives on the input (the same errors in the same order,
    or the same exception).  The defaults that are filled in are all
    allowed values, and what the caller supplied is kept as it is. *)
Theorem normalize_preserves_validation (d d' : value) :
  normalize_identity d = Ok d' -> validate d' = validate d.
Proof. exact (validation_after_normalization d d'). Qed.

End AfterNormalization.

Lemma normalize_preserves_validation_witness :
  validate_identity unit IsoShape.fromisoformat Unicode.decimal
    (Sample.dict [("version", VStr "0.1.0"); ("metadata", Doc.stamps);
                  ("preferences", VDict (merged_preferences ∅));
                  ("behaviors", VDict ∅)]) =
  validate_identity unit IsoShape.fromisoformat Unicode.decimal minimal_document.
Proof.
  apply (normalize_preserves_validation unit IsoShape.fromisoformat Unicode.decimal minimal_document).
  by vm_compute.
Defined.

(** ** Normalization of a valid document *)

Lemma validate_optional_clean (m : gmap string value) (key : string)
    (validator : value -> result (list string)) (complaint : string) :
  (forall v, Py.isinstance_dict v = false -> validator v = Ok [complaint]) ->
  validate_optional m key validator [] = Ok [] ->
  exists s, default (VDict ∅) (m !! key) = VDict s.
Proof.
  intros Hnd H. unfold validate_optional in H.
  destruct (m !! key) as [v|]; simpl; [|by eexists].
  destruct (Py.isinstance_dict v) eqn:Hv.
  - destruct v; try discriminate. by eexists.
  - rewrite (Hnd v Hv) in H. discriminate.
Qed.

Section ValidDocuments.

Variable datetime : Type.
Variable fromisoformat : string -> option datetime.
Variable decimal : N -> bool.

#[local] Abbreviation validate := (validate_identity datetime fromisoformat decimal).

Lemma valid_inv (d : value) (r : validation) :
  validate d = Ok r -> valid r = true ->
  exists m p b,
    d = VDict m /\ m ≠ ∅ /\ prefs_of m = VDict p /\ behaviors_of m = VDict b.
Proof.
  intros H Hvalid.
  destruct (Py.truthy d && Py.isinstance_dict d) eqn:Hg.
  - destruct d as [| | | | | |m];
      try (simpl in Hg; rewrite ?andb_false_r in Hg; discriminate).
    apply truthy_dict in Hg.
    apply (validate_Ok_inv datetime fromisoformat decimal) in H
      as (me & pe & be & Hme & Hpe & Hbe & ->); [|done].
    unfold verdict in Hvalid. simpl in Hvalid. apply Nat.eqb_eq in Hvalid.
    apply nil_length_inv in Hvalid.
    apply app_eq_nil in Hvalid as [_ Hvalid].
    apply app_eq_nil in Hvalid as [_ Hvalid].
    apply app_eq_nil in Hvalid as [-> ->].
    apply (validate_optional_clean _ _ _ Msg.preferences_not_dict) in Hpe as [p Hp];
      [|by intros []].
    apply (validate_optional_clean _ _ _ Msg.behaviors_not_dict) in Hbe as [b Hb];
      [|by intros []].
    by exists m, p, b.
  - rewrite validate_guard in H by done. injection H as <-. discriminate.
Qed.

Lemma valid_normalize_outcome (d : value) (r : validation) :
  validate d = Ok r -> valid r = true ->
  exists m p b,
    d = VDict m /\ prefs_of m = VDict p /\ behaviors_of m = VDict b /\
    normalize_identity d =
      if sections_ok p
      then Ok (VDict (<["behaviors" := VDict b]>
                        (<["preferences" := VDict (merged_preferences p)]> m)))
      else Raise AttributeError.
Proof.
  intros H Hvalid.
  destruct (valid_inv d r H Hvalid) as (m & p & b & -> & Hm & Hp & Hb).
  exists m, p, b. repeat split; try done.
  destruct (sections_ok p) eqn:Hok.
  - by apply normalize_well_formed.
  - by eapply normalize_section_malformed.
Qed.

(** X2.  A document that the validator declares valid is a non-empty
    mapping whose [preferences] and [behaviors] are mappings (or absent),
    and [normalize_identity] returns on it exactly when each of the eight
    sub-sections is a mapping or absent; otherwise it raises
    [AttributeError], and never [ValueError] or [TypeError].  Validity does
    not exclude the second case: a sub-section that is a list passes the
    validator. *)
Theorem valid_document_normalizes (d : value) (r : validation) :
  validate d = Ok r -> valid r = true ->
  exists m p b,
    d = VDict m /\ prefs_of m = VDict p /\ behaviors_of m = VDict b /\
    normalize_identity d =
      if sections_ok p
      then Ok (VDict (<["behaviors" := VDict b]>
                        (<["preferences" := VDict (merged_preferences p)]> m)))
      else Raise AttributeError.
Proof. exact (valid_normalize_outcome d r). Qed.

End ValidDocuments.

Lemma valid_document_normalizes_witness :
  validate_identity unit IsoShape.fromisoformat Unicode.decimal list_ui_document =
    Ok (Validation true []) /\
  normalize_identity list_ui_document = Raise AttributeError.
Proof.
  assert (validate_identity unit IsoShape.fromisoformat Unicode.decimal list_ui_document =
          Ok (Validation true [])) as Hv by (by vm_compute).
  split; [exact Hv|].
  destruct (valid_document_normalizes unit IsoShape.fromisoformat Unicode.decimal
              list_ui_document _ Hv eq_refl) as (m & p & b & Hd & Hp & Hb & Hn).
  injection Hd as <-. vm_compute in Hp. injection Hp as <-. exact Hn.
Defined.

(** ** The shape of a normalized document *)

Lemma overlay_empty (fields : list (string * value)) : overlay ∅ fields = fields.
Proof.
  unfold overlay. induction fields as [|[f v] fields IH]; [done|].
  rewrite fmap_cons, IH. simpl. by rewrite lookup_empty.
Qed.

Lemma merged_section_empty (sec : string * list (string * value)) :
  merged_section ∅ sec = VDict (display sec.2).
Proof.
  unfold merged_section, caller_section. rewrite lookup_empty, overlay_empty.
  by rewrite (left_id_L ∅ (∪)).
Qed.

(** X3.  In a document that [normalize_identity] returns,
    [extract_preferences] finds a mapping in which each of the eight
    sub-sections is present and is a mapping: the caller's own sub-section
    where there was one, and exactly the defaults where there was none;
    every other entry of the caller's [preferences] is in it unchanged.
    [extract_behaviors] finds the caller's [behaviors], or the empty
    mapping, and every other top-level entry of the input is unchanged. *)
Theorem normalized_document_shape (d doc : value) :
  normalize_identity d = Ok doc ->
  exists m p b P,
    d = VDict m /\ prefs_of m = VDict p /\ behaviors_of m = VDict b /\
    extract_preferences doc = Ok (VDict P) /\
    extract_behaviors doc = Ok (VDict b) /\
    (forall name fields, (name, fields) ∈ canonical ->
       match p !! name with
       | Some v => P !! name = Some v /\ Py.isinstance_dict v = true
       | None => P !! name = Some (VDict (display fields))
       end) /\
    (forall k v, p !! k = Some v -> P !! k = Some v) /\
    (forall k, k ≠ "preferences" -> k ≠ "behaviors" ->
       lookup_path [k] doc = m !! k).
Proof.
  intros H.
  apply normalize_Ok_inv in H as (m & p & b & -> & Hm & Hp & Hb & Hok & ->).
  exists m, p, b, (merged_preferences p). repeat split; try done.
  - unfold extract_preferences. simpl.
    rewrite bool_decide_eq_false_2 by apply insert_non_empty. simpl.
    by rewrite lookup_normalized.
  - unfold extract_behaviors. simpl.
    rewrite bool_decide_eq_false_2 by apply insert_non_empty. simpl.
    by rewrite lookup_normalized.
  - intros name fields Hin.
    destruct (p !! name) as [v|] eqn:Hv.
    + split; [by apply merged_preferences_caller|].
      unfold sections_ok in Hok. rewrite forallb_forall in Hok.
      apply list_elem_of_In, Hok in Hin. unfold section_ok in Hin. simpl in Hin.
      rewrite Hv in Hin. by destruct v.
    + pose proof (merged_preferences_default p (name, fields) Hin Hv) as Hd.
      cbn [fst] in Hd. rewrite Hd, (merged_section_absent p (name, fields)) by done.
      by rewrite merged_section_empty.
  - apply merged_preferences_caller.
  - intros k Hk1 Hk2. simpl. rewrite lookup_normalized.
    rewrite decide_False, decide_False by done. by destruct (m !! k).
Qed.

Lemma normalized_document_shape_witness :
  exists P,
    (doc ← normalize_identity Sample.version_only; extract_preferences doc) =
      Ok (VDict P) /\
    P !! "ui" = Some (VDict (display ui_defaults)).
Proof.
  destruct (normalized_document_shape Sample.version_only
              (VDict (<["behaviors" := VDict ∅]>
                        (<["preferences" := VDict (merged_preferences ∅)]>
                           (display [("version", VStr "0.1.0")])))))
    as (m & p & b & P & Hd & Hp & Hb & HP & _ & Hsec & _).
  - by vm_compute.
  - exists P. split.
    + assert (normalize_identity Sample.version_only =
              Ok (VDict (<["behaviors" := VDict ∅]>
                           (<["preferences" := VDict (merged_preferences ∅)]>
                              (display [("version", VStr "0.1.0")]))))) as ->
        by (by vm_compute).
      exact HP.
    + injection Hd as <-. vm_compute in Hp. injection Hp as <-.
      apply (Hsec "ui" ui_defaults). unfold canonical. apply list_elem_of_here.
Defined.

(** ** The exceptions of the validator *)

Lemma contains_raises (k : string) (o : value) (e : exn) :
  Py.contains k o = Raise e -> e = TypeError.
Proof. destruct o; simpl; congruence. Qed.

Lemma getitem_raises (k : string) (o : value) (e : exn) :
  Py.contains k o = Ok true -> Py.getitem o k = Raise e -> e = TypeError.
Proof.
  destruct o; simpl; try congruence.
  intros [= H]. apply bool_decide_eq_true in H as [v ->]. discriminate.
Qed.

Ltac raise_cases :=
  repeat match goal with
  | H : _ ≫= _ = Raise _ |- _ => apply bind_Raise in H as [H|(? & ? & H)]
  | H : Py.contains _ _ = Raise _ |- _ => by apply contains_raises in H
  | H : Py.getitem ?o ?k = Raise _, H' : Py.contains ?k ?o = Ok true |- _ =>
      by apply (getitem_raises k o) in H
  | H : (if negb ?b then _ else _) = Raise _ |- _ => destruct b; simpl in H
  | H : (if ?b then _ else _) = Raise _ |- _ => destruct b eqn:?
  | H : Ok _ = Raise _ |- _ => discriminate H
  | H : Re.re_match _ ?v = Raise _ |- _ => destruct v; simpl in H; congruence
  end.

Lemma strings_of_raises (l : list value) (e : exn) :
  Py.strings_of l = Raise e -> e = TypeError.
Proof.
  induction l as [|v l IH]; simpl; [discriminate|].
  destruct v; try congruence.
  destruct (Py.strings_of l); simpl; [discriminate|]. intros [= <-]. by apply IH.
Qed.

Lemma run_check_raises (obj : value) (c : check) (errs : list string) (e : exn) :
  run_check obj c errs = Raise e -> e = TypeError.
Proof.
  destruct c; simpl;
    unfold check_enum, check_regex, check_channels, check_max_amount;
    intros H; raise_cases.
  destruct x0; try discriminate.
  destruct (Py.truthy _); [|discriminate].
  unfold Py.join in H. raise_cases. by apply strings_of_raises in H.
Qed.

Lemma run_checks_raises (obj : value) (cs : list check) (errs : list string)
    (e : exn) :
  run_checks obj cs errs = Raise e -> e = TypeError.
Proof.
  revert errs. induction cs as [|c cs IH]; intros errs; simpl; [discriminate|].
  intros [H|(new & _ & H)]%bind_Raise; [by apply run_check_raises in H|by eapply IH].
Qed.

Lemma run_schema_raises (p : gmap string value)
    (schema : list (string * list check)) (errs : list string) (e : exn) :
  run_schema p schema errs = Raise e -> e = TypeError.
Proof.
  revert errs. induction schema as [|sec rest IH]; intros errs; simpl; [discriminate|].
  intros [H|(new & _ & H)]%bind_Raise; [|by eapply IH].
  unfold run_section in H. destruct (p !! sec.1); [|discriminate].
  by apply run_checks_raises in H.
Qed.

Section ValidatorExceptions.

Variable datetime : Type.
Variable fromisoformat : string -> option datetime.
Variable decimal : N -> bool.

#[local] Abbreviation validate := (validate_identity datetime fromisoformat decimal).

Lemma validate_optional_raises (m : gmap string value) (key : string)
    (validator : value -> result (list string)) (errs : list string) (e : exn) :
  (forall v, validator v = Raise e -> e = TypeError) ->
  validate_optional m key validator errs = Raise e -> e = TypeError.
Proof.
  intros Hv H. unfold validate_optional in H.
  destruct (m !! key) as [v|]; [|discriminate].
  apply bind_Raise in H as [H|(? & _ & H)]; [by apply Hv in H|discriminate].
Qed.

Lemma validate_result_facts (d : value) :
  (forall e, validate d = Raise e -> e = TypeError) /\
  (forall r, validate d = Ok r -> (valid r = true <-> errors r = [])).
Proof.
  destruct (Py.truthy d && Py.isinstance_dict d) eqn:Hg.
  - destruct d as [| | | | | |m];
      try (simpl in Hg; rewrite ?andb_false_r in Hg; discriminate).
    apply truthy_dict in Hg. rewrite validate_nonempty by done. split.
    + intros e H. unfold later_checks in H.
      apply bind_Raise in H as [H|(? & _ & H)]; [|discriminate].
      apply bind_Raise in H as [H|(me & _ & H)].
      { unfold validate_metadata in H. destruct (m !! "metadata"); [|discriminate].
        unfold check_timestamp in H. raise_cases. }
      apply bind_Raise in H as [H|(pe & _ & H)].
      { apply validate_optional_raises in H; [done|].
        intros [] Hv; try discriminate.
        rewrite _validate_preferences_schema in Hv. by apply run_schema_raises in Hv. }
      apply bind_Raise in H as [H|(be & _ & H)]; [|discriminate].
      apply validate_optional_raises in H; [done|].
      intros [] Hv; try discriminate.
      rewrite _validate_behaviors_checks in Hv. by apply run_checks_raises in Hv.
    + intros r (rest & _ & [= <-])%bind_Ok. unfold verdict. simpl.
      rewrite Nat.eqb_eq. split; [apply nil_length_inv|by intros ->].
  - rewrite validate_guard by done. split; [discriminate|].
    intros r [= <-]. simpl. split; discriminate.
Qed.

(** X4.  The validator raises no exception but [TypeError]: a subscript
    is only taken after the test of membership, so that no [KeyError]
    arises.  When it returns, the document is declared valid exactly when
    the list of errors is empty. *)
Theorem validate_outcomes (d : value) :
  (forall e, validate d = Raise e -> e = TypeError) /\
  (forall r, validate d = Ok r -> (valid r = true <-> errors r = [])).
Proof. exact (validate_result_facts d). Qed.

End ValidatorExceptions.

(** ** The validation of [behaviors] *)

Lemma check_enum_dict (d : gmap string value) (field : string)
    (allowed : list string) (msg : string) (errs : list string) :
  check_enum (VDict d) field allowed msg errs =
  Ok (errs ++ enum_errors d field allowed msg).
Proof.
  unfold check_enum, enum_errors. simpl.
  destruct (d !! field) as [v|]; simpl; [|by rewrite app_nil_r].
  rewrite append_if_app. by destruct (Py.not_in v allowed).
Qed.

(** X5.  [_validate_behaviors] raises for no value at all.  A value that
    is no mapping gets the single error "Behaviors must be a dictionary";
    a mapping gets, in the order [workflow], [learningStyle],
    [decisionSpeed], one error for each of these fields that is present
    with a value outside its allowed set, and nothing for a field that is
    absent: at most three errors. *)
Theorem _validate_behaviors_total (v : value) :
  exists errs,
    _validate_behaviors v = Ok errs /\
    length errs <= 3 /\
    match v with
    | VDict b =>
        errs =
          enum_errors b "workflow"
            ["linear"; "exploratory"; "task-focused"; "multi-tasking"]
            "Invalid behaviors.workflow value" ++
          enum_errors b "learningStyle"
            ["tutorial"; "examples"; "trial-and-error"; "documentation"]
            "Invalid behaviors.learningStyle value" ++
          enum_errors b "decisionSpeed" ["deliberate"; "balanced"; "quick"]
            "Invalid behaviors.decisionSpeed value"
    | _ => errs = [Msg.behaviors_not_dict]
    end.
Proof.
  destruct v as [| | | | | |b]; try (eexists; repeat split; simpl; lia).
  eexists. split; [|split; [|reflexivity]].
  - unfold _validate_behaviors. rewrite !check_enum_dict. simpl.
    rewrite !check_enum_dict. simpl. rewrite check_enum_dict. simpl.
    by rewrite <- app_assoc.
  - rewrite !length_app. unfold enum_errors.
    repeat match goal with
    | |- context [b !! ?k] => destruct (b !! k)
    | |- context [Py.not_in ?x ?l] => destruct (Py.not_in x l)
    end; simpl; lia.
Qed.

(** ** Keys the validator does not read *)

Lemma run_schema_insert_section (p : gmap string value)
    (schema : list (string * list check)) (sec : string) (v : value)
    (errs : list string) :
  sec ∉ schema.*1 ->
  run_schema (<[sec := v]> p) schema errs = run_schema p schema errs.
Proof.
  revert errs. induction schema as [|[name cs] rest IH]; intros errs Hsec; [done|].
  rewrite fmap_cons in Hsec. apply not_elem_of_cons in Hsec as [Hne Hrest].
  simpl.
  assert (run_section (<[sec := v]> p) (name, cs) errs =
          run_section p (name, cs) errs) as ->.
  { unfold run_section. simpl. rewrite lookup_insert_ne; [done|].
    intros ->. by apply Hne. }
  destruct (run_section p (name, cs) errs); simpl; [by apply IH|done].
Qed.

(** X6.  Keys that the schema does not know are ignored by the validator
    of [preferences] and by that of [behaviors]: adding or changing a
    sub-section whose name is none of the eight, a field of a sub-section
    that no check of that sub-section reads, or an entry of [behaviors]
    other than the three checked fields, never changes what they return. *)
Theorem unknown_keys_ignored :
  (forall p sec v, sec ∉ checked_sections ->
     _validate_preferences (VDict (<[sec := v]> p)) = _validate_preferences (VDict p)) /\
  (forall p sec s field v,
     p !! sec = Some (VDict s) -> ignores preferences_schema sec field = true ->
     _validate_preferences (VDict (<[sec := VDict (<[field := v]> s)]> p)) =
     _validate_preferences (VDict p)) /\
  (forall b k v, k ∉ behaviors_fields ->
     _validate_behaviors (VDict (<[k := v]> b)) = _validate_behaviors (VDict b)).
Proof.
  repeat split.
  - intros p sec v Hsec. rewrite !_validate_preferences_schema.
    by apply run_schema_insert_section.
  - intros p sec s field v Hp Hig. rewrite !_validate_preferences_schema.
    by apply run_schema_insert.
  - intros b k v Hk. rewrite !_validate_behaviors_checks.
    apply run_checks_insert. unfold behaviors_fields, behaviors_checks in *.
    simpl in *. rewrite !not_elem_of_cons in Hk. destruct Hk as (H1 & H2 & H3 & _).
    by rewrite !bool_decide_eq_false_2.
Qed.

Lemma unknown_keys_ignored_witness :
  _validate_preferences
    (VDict (<["plugins" := VInt 5]> (<["ui" := VDict (<["customFlag" := VBool true]> ∅)]> ∅))) =
  _validate_preferences (VDict (<["ui" := VDict ∅]> ∅)) /\
  _validate_behaviors (VDict (<["pace" := VStr "slow"]> ∅)) = _validate_behaviors (VDict ∅).
Proof.
  destruct unknown_keys_ignored as (Hsec & Hfield & Hbeh). split.
  - rewrite Hsec.
    + rewrite <- (Hfield (<["ui" := VDict ∅]> ∅) "ui" ∅ "customFlag" (VBool true)).
      * by rewrite insert_insert_eq.
      * reflexivity.
      * reflexivity.
    + unfold checked_sections, preferences_schema. simpl.
      rewrite !not_elem_of_cons. repeat split; try discriminate.
      apply not_elem_of_nil.
  - apply Hbeh. unfold behaviors_fields, behaviors_checks. simpl.
    rewrite !not_elem_of_cons. repeat split; try discriminate.
    apply not_elem_of_nil.
Defined.

(** ** Time stamps with the designator Z *)

(** X7.  In a time stamp the letter Z stands for the offset [+00:00],
    wherever it occurs: whatever the date-time parser accepts, a string
    with a Z is a valid time stamp exactly when the string with [+00:00]
    in its place is one. *)
Theorem zulu_designator_is_utc_offset
    (datetime : Type) (fromisoformat : string -> option datetime) (a b : string) :
  _is_valid_iso8601 datetime fromisoformat
    (VStr (String.append a (String.append "Z" b))) =
  _is_valid_iso8601 datetime fromisoformat
    (VStr (String.append a (String.append "+00:00" b))).
Proof.
  unfold _is_valid_iso8601.
  rewrite !replace_Z_app, !is_substring_T_app.
  assert (Py.replace_Z "Z" = "+00:00") as -> by reflexivity.
  assert (Py.replace_Z "+00:00" = "+00:00") as -> by reflexivity.
  assert (Py.is_substring "T" "Z" = false) as -> by reflexivity.
  assert (Py.is_substring "T" "+00:00" = false) as -> by reflexivity.
  done.
Qed.

(** ** The strings the three regular expressions accept *)

(** An ASCII character is no lead byte of a longer encoding. *)
Lemma two_bytes_narrow (a b : ascii) :
  (N_of_ascii a <? 128)%N = true -> Re.two_bytes a b = None.
Proof.
  intros H%N.ltb_lt. unfold Re.two_bytes.
  destruct (194 <=? N_of_ascii a)%N eqn:E; [apply N.leb_le in E; lia|done].
Qed.

Lemma three_bytes_narrow (a b c : ascii) :
  (N_of_ascii a <? 128)%N = true -> Re.three_bytes a b c = None.
Proof.
  intros H%N.ltb_lt. unfold Re.three_bytes.
  destruct (224 <=? N_of_ascii a)%N eqn:E; [apply N.leb_le in E; lia|done].
Qed.

Lemma four_bytes_narrow (a b c d : ascii) :
  (N_of_ascii a <? 128)%N = true -> Re.four_bytes a b c d = None.
Proof.
  intros H%N.ltb_lt. unfold Re.four_bytes.
  destruct (240 <=? N_of_ascii a)%N eqn:E; [apply N.leb_le in E; lia|done].
Qed.

Section Digits.

Variable decimal : N -> bool.

Lemma skip_digits_digit (c : ascii) (rest : string) :
  Re.ascii_digit c = true ->
  Re.skip_digits decimal (String c rest) = Re.skip_digits decimal rest.
Proof. intros H. cbn [Re.skip_digits]. by rewrite H. Qed.

Lemma skip_digits_narrow (c : ascii) (rest : string) :
  Re.ascii_digit c = false -> (N_of_ascii c <? 128)%N = true ->
  Re.skip_digits decimal (String c rest) = String c rest.
Proof.
  intros Hc Hn. cbn [Re.skip_digits]. rewrite Hc.
  destruct rest as [|b [|c' [|d rest]]];
    rewrite ?two_bytes_narrow, ?three_bytes_narrow, ?four_bytes_narrow by done;
    reflexivity.
Qed.

Lemma digit_digit (c : ascii) (rest : string) :
  Re.ascii_digit c = true -> Re.digit decimal (String c rest) = Some rest.
Proof. intros H. cbn [Re.digit]. by rewrite H. Qed.

Lemma digit_narrow (c : ascii) (rest : string) :
  Re.ascii_digit c = false -> (N_of_ascii c <? 128)%N = true ->
  Re.digit decimal (String c rest) = None.
Proof.
  intros Hc Hn. cbn [Re.digit]. rewrite Hc.
  destruct rest as [|b [|c' [|d rest]]];
    rewrite ?two_bytes_narrow, ?three_bytes_narrow, ?four_bytes_narrow by done;
    reflexivity.
Qed.

Lemma skip_digits_app (d r : string) :
  all_digits d = true -> starts_without_digit r ->
  Re.skip_digits decimal (String.append d r) = r.
Proof.
  intros Hd Hr. induction d as [|c d IH].
  - rewrite append_nil_l. destruct r as [|c r]; [done|].
    destruct Hr as [Hc Hn]. by apply skip_digits_narrow.
  - cbn [all_digits] in Hd. apply andb_true_iff in Hd as [Hc Hd].
    rewrite append_cons, skip_digits_digit by done. by apply IH.
Qed.

Lemma skip_digits_inv (s : string) :
  ascii_only s = true ->
  exists d, all_digits d = true /\
    s = String.append d (Re.skip_digits decimal s) /\
    starts_without_digit (Re.skip_digits decimal s) /\
    ascii_only (Re.skip_digits decimal s) = true.
Proof.
  induction s as [|c s IH]; [by exists EmptyString|].
  cbn [ascii_only]. intros [Hn Hs]%andb_true_iff.
  destruct (Re.ascii_digit c) eqn:Hc.
  - destruct (IH Hs) as (d & Hd & Heq & Hr & Ha).
    rewrite skip_digits_digit by done.
    exists (String c d). cbn [all_digits]. rewrite Hc, Hd, append_cons, <- Heq. done.
  - rewrite skip_digits_narrow by done.
    exists EmptyString. split; [done|]. split; [done|]. split; [by split|].
    cbn [ascii_only]. by rewrite Hn, Hs.
Qed.

Lemma digits1_app (d r : string) :
  number d -> starts_without_digit r ->
  Re.digits1 decimal (String.append d r) = Some r.
Proof.
  intros [Hne Hd] Hr. destruct d as [|c d]; [done|].
  cbn [all_digits] in Hd. apply andb_true_iff in Hd as [Hc Hd].
  rewrite append_cons. unfold Re.digits1. rewrite digit_digit by done. simpl.
  by rewrite skip_digits_app.
Qed.

Lemma digits1_inv (s r : string) :
  ascii_only s = true -> Re.digits1 decimal s = Some r ->
  exists d, number d /\ s = String.append d r /\ starts_without_digit r /\
    ascii_only r = true.
Proof.
  destruct s as [|c s]; [done|]. cbn [ascii_only]. intros [Hn Hs]%andb_true_iff.
  unfold Re.digits1. destruct (Re.ascii_digit c) eqn:Hc.
  - rewrite digit_digit by done. simpl. intros [= <-].
    destruct (skip_digits_inv s Hs) as (d & Hd & Heq & Hr & Ha).
    exists (String c d). repeat split; try done.
    + cbn [all_digits]. by rewrite Hc, Hd.
    + by rewrite append_cons, <- Heq.
  - by rewrite digit_narrow.
Qed.

Lemma dot_inv (s r : string) : Re.dot s = Some r <-> s = String "." r.
Proof.
  destruct s as [|c s]; cbn [Re.dot]; [split; discriminate|].
  destruct (bool_decide (c = "."%char)) eqn:Hc.
  - apply bool_decide_eq_true in Hc as ->. split; congruence.
  - apply bool_decide_eq_false in Hc. split; [discriminate|congruence].
Qed.

Lemma at_end_inv (s : string) :
  Re.at_end s = true <-> s = EmptyString \/ s = newline.
Proof.
  unfold newline. destruct s as [|c [|c' s]]; cbn [Re.at_end].
  - split; auto.
  - rewrite bool_decide_eq_true. split; [intros ->; auto|intros [|]; congruence].
  - split; [discriminate|intros [|]; discriminate].
Qed.

Lemma match_semver_accepts (s : string) :
  semver_shape s -> Re.match_semver decimal s = true.
Proof.
  unfold Re.match_semver, semver_shape.
  intros (a & b & c & Ha & Hb & Hc & Hs). cbv zeta in Hs.
  assert (exists tail, (tail = EmptyString \/ tail = newline) /\
            s = String.append a (String "." (String.append b
                  (String "." (String.append c tail))))) as (tail & Htail & ->).
  { destruct Hs as [->| ->].
    - exists EmptyString. split; [by left|]. by rewrite append_nil_r.
    - exists newline. split; [by right|]. by rewrite !append_assoc. }
  assert (starts_without_digit tail) by (by destruct Htail as [->| ->]).
  rewrite digits1_app by done. simpl.
  rewrite digits1_app by done. simpl.
  rewrite digits1_app by done.
  by apply at_end_inv.
Qed.

Lemma match_semver_ascii (s : string) :
  ascii_only s = true -> Re.match_semver decimal s = true -> semver_shape s.
Proof.
  unfold Re.match_semver, semver_shape. intros Hs.
  destruct (Re.digits1 decimal s) as [r1|] eqn:H1; cbn; [|done].
  destruct (Re.dot r1) as [r2|] eqn:H2; cbn; [|done].
  destruct (Re.digits1 decimal r2) as [r3|] eqn:H3; cbn; [|done].
  destruct (Re.dot r3) as [r4|] eqn:H4; cbn; [|done].
  destruct (Re.digits1 decimal r4) as [r5|] eqn:H5; cbn; [|done].
  intros Hend.
  apply digits1_inv in H1 as (a & Ha & -> & _ & Hr1); [|done].
  apply dot_inv in H2 as ->.
  cbn [ascii_only] in Hr1. apply andb_true_iff in Hr1 as [_ Hr2].
  apply digits1_inv in H3 as (b & Hb & -> & _ & Hr3); [|done].
  apply dot_inv in H4 as ->.
  cbn [ascii_only] in Hr3. apply andb_true_iff in Hr3 as [_ Hr4].
  apply digits1_inv in H5 as (c & Hc & -> & _); [|done].
  exists a, b, c. split; [done|]. split; [done|]. split; [done|]. cbv zeta.
  apply at_end_inv in Hend as [->| ->].
  - left. by rewrite append_nil_r.
  - right. by rewrite !append_assoc.
Qed.

(** X8.  For a [version] that is a string, the version check reports
    nothing or the error about semantic versioning.  It reports nothing
    on every string made of three non-empty runs of ASCII decimal digits
    separated by two dots, of whatever magnitude, with or without one final
    newline; on a string of ASCII characters it reports nothing on these
    strings only.  Beyond ASCII the outcome depends on the decimal digits
    of the Unicode database. *)
Theorem version_strings_accepted (m : gmap string value) (s : string) :
  m !! "version" = Some (VStr s) ->
  (semver_shape s -> validate_version decimal m [] = []) /\
  (ascii_only s = true -> validate_version decimal m [] = [] -> semver_shape s) /\
  (validate_version decimal m [] = [] \/
   validate_version decimal m [] = [Msg.version_not_semver]).
Proof.
  intros Hm. unfold validate_version. rewrite Hm.
  pose proof (match_semver_accepts s) as Hacc.
  pose proof (match_semver_ascii s) as Hasc.
  destruct (Re.match_semver decimal s); cbn.
  - split; [done|]. split; [|by left]. intros Ha _. by apply Hasc.
  - split; [|split; [done|by right]].
    intros Hshape. by specialize (Hacc Hshape).
Qed.

End Digits.

(** The version 1.2.3 written with Arabic-Indic digits is accepted when the
    Unicode database holds them as decimal digits, and refused when it
    holds none beyond ASCII. *)
Example version_beyond_ascii :
  validate_version Unicode.decimal
    (display [("version", VStr Unicode.one_two_three)]) [] = [] /\
  validate_version (fun _ => false)
    (display [("version", VStr Unicode.one_two_three)]) [] =
    [Msg.version_not_semver].
Proof. split; reflexivity. Qed.

Lemma version_strings_accepted_witness :
  validate_version Unicode.decimal (display [("version", VStr "12.340.5")]) [] = [] /\
  semver_shape "12.340.5".
Proof.
  destruct (version_strings_accepted Unicode.decimal
              (display [("version", VStr "12.340.5")]) "12.340.5")
    as (_ & Hshape & _); [reflexivity|].
  split; [reflexivity|]. apply Hshape; reflexivity.
Defined.

(** X9.  The check of [content.language] accepts exactly two lower-case
    letters, optionally followed by a hyphen and two upper-case letters,
    and the check of [content.currency] exactly three upper-case letters,
    each with or without one final newline. *)
Theorem language_and_currency_strings_accepted (s : string) :
  (Re.match_language s = true <-> language_shape s) /\
  (Re.match_currency s = true <-> currency_shape s).
Proof.
  split; split.
  - unfold Re.match_language, language_shape.
    destruct s as [|a [|b tail]]; try done.
    intros H. apply andb_true_iff in H as [H Ht]. apply andb_true_iff in H as [Ha Hb].
    exists a, b, tail. repeat (split; [done|]).
    apply orb_true_iff in Ht as [Ht|Ht]; [|left; by apply at_end_inv].
    right. destruct tail as [|h [|c [|d rest]]]; try done.
    apply andb_true_iff in Ht as [Ht Hend]. apply andb_true_iff in Ht as [Ht Hd].
    apply andb_true_iff in Ht as [Hh Hc]. apply bool_decide_eq_true in Hh as ->.
    exists c, d. repeat (split; [done|]).
    apply at_end_inv in Hend as [->| ->]; auto.
  - intros (a & b & tail & Ha & Hb & -> & Htail). unfold Re.match_language.
    rewrite Ha, Hb. cbn [andb].
    destruct Htail as [[->| ->]|(c & d & Hc & Hd & [->| ->])];
      try reflexivity; cbn; by rewrite Hc, Hd.
  - unfold Re.match_currency, currency_shape.
    destruct s as [|a [|b [|c rest]]]; try done.
    intros H. apply andb_true_iff in H as [H Hend]. apply andb_true_iff in H as [H Hc].
    apply andb_true_iff in H as [Ha Hb].
    exists a, b, c. repeat (split; [done|]).
    apply at_end_inv in Hend as [->| ->]; auto.
  - intros (a & b & c & Ha & Hb & Hc & [->| ->]); unfold Re.match_currency;
      by rewrite Ha, Hb, Hc.
Qed.

Lemma language_and_currency_strings_accepted_witness :
  language_shape "en-US" /\ currency_shape "USD".
Proof.
  split.
  - apply (proj1 (language_and_currency_strings_accepted "en-US")). reflexivity.
  - apply (proj2 (language_and_currency_strings_accepted "USD")). reflexivity.
Defined.

(** * Properties of [ingest_identity] and of the SDK *)

Section IngestProperties.

Variable datetime : Type.
Variable fromisoformat : string -> option datetime.
Variable decimal : N -> bool.
Variable http_get : string -> Z -> fetched.
Variable interpreter_text : exn -> string.

#[local] Abbreviation validate := (validate_identity datetime fromisoformat decimal).
#[local] Abbreviation ingest := (ingest_identity datetime fromisoformat decimal http_get).
#[local] Abbreviation checked := (ingest_validate datetime fromisoformat decimal).
#[local] Abbreviation load :=
  (load_identity datetime fromisoformat decimal http_get interpreter_text).
#[local] Abbreviation load_prefs :=
  (load_preferences datetime fromisoformat decimal http_get interpreter_text).
#[local] Abbreviation load_behs :=
  (load_behaviors datetime fromisoformat decimal http_get interpreter_text).
#[local] Abbreviation load_apply :=
  (load_and_apply datetime fromisoformat decimal http_get interpreter_text).

Lemma ingest_https (url : string) (timeout : Z) (va no : bool) :
  String.prefix "https://" url = true ->
  ingest (VStr url) timeout va no =
    match http_get url timeout with
    | TimedOut =>
        Raise (ValueError
                 (String.append "Identity fetch timed out after "
                    (String.append (pretty timeout) " seconds")))
    | RequestFailed text =>
        Raise (ValueError (String.append "Failed to fetch identity: " text))
    | Escaped e => Raise e
    | Response (Undecodable text) =>
        Raise (ValueError (String.append "Failed to parse identity JSON: " text))
    | Response (Decoded decoded) =>
        _ ← checked va decoded;
        normalized ← ingest_normalize no decoded;
        Ok normalized
    end.
Proof.
  intros H. unfold ingest_identity. destruct url as [|c url]; [discriminate|].
  cbn [Py.truthy Py.isinstance_str negb orb]. rewrite bool_decide_eq_false_2 by done.
  cbn [negb orb]. by rewrite H.
Qed.

(** X10.  Without a string that starts with ["https://"] nothing is
    fetched: whatever the network would answer, [ingest_identity] raises
    [ValueError], about HTTPS for a non-empty string and about the URL for
    everything else. *)
Theorem ingest_refuses_without_https (identity_url : value) (timeout : Z)
    (va no : bool) :
  https_url identity_url = false ->
  ingest identity_url timeout va no =
    Raise (ValueError
             match identity_url with
             | VStr (String _ _) => "Identity URL must use HTTPS for security"
             | _ => "Identity URL must be a non-empty string"
             end).
Proof.
  intros H. unfold ingest_identity.
  destruct identity_url as [| b | n | f | [|c url] | l | d];
    try reflexivity;
    try (cbn [Py.isinstance_str negb]; by rewrite orb_true_r).
  cbn [Py.truthy Py.isinstance_str negb orb].
  rewrite bool_decide_eq_false_2 by done. cbn [negb orb].
  unfold https_url in H. by rewrite H.
Qed.

Lemma ingest_validate_Ok (v : value) :
  checked true v = Ok tt -> validate v = Ok (Validation true []).
Proof.
  unfold ingest_validate.
  destruct (validate v) as [r|] eqn:Hv; [|discriminate]. simpl.
  destruct (valid r) eqn:Hvalid; [|discriminate]. intros _.
  destruct (validate_result_facts datetime fromisoformat decimal v) as [_ Herr].
  pose proof (proj1 (Herr r Hv) Hvalid) as Herrs.
  destruct r as [va errs]. simpl in *. by subst.
Qed.

Lemma ingest_normalize_Ok (v doc : value) :
  ingest_normalize true v = Ok doc -> normalize_identity v = Ok doc.
Proof.
  unfold ingest_normalize. destruct (normalize_identity v) as [r|[]]; congruence.
Qed.

Lemma ingest_Ok_inv (identity_url : value) (timeout : Z)
    (no : bool) (doc : value) :
  ingest identity_url timeout true no = Ok doc ->
  exists url v,
    identity_url = VStr url /\ String.prefix "https://" url = true /\
    http_get url timeout = Response (Decoded v) /\
    validate v = Ok (Validation true []) /\
    validate doc = Ok (Validation true []) /\
    if no then normalize_identity v = Ok doc /\ normalize_identity doc = Ok doc
    else doc = v.
Proof.
  intros H. destruct (https_url identity_url) eqn:Hurl.
  - destruct identity_url as [| | | | url | |]; try discriminate.
    simpl in Hurl. rewrite ingest_https in H by done.
    destruct (http_get url timeout) as [[v|]| | |] eqn:Hget; try discriminate.
    apply bind_Ok in H as ([] & Hv & H). apply bind_Ok in H as (doc' & Hn & [= ->]).
    apply ingest_validate_Ok in Hv.
    exists url, v. do 4 (split; [done|]). destruct no.
    + apply ingest_normalize_Ok in Hn. split; [|split; [done|]].
      * by rewrite (validation_after_normalization datetime fromisoformat decimal v doc).
      * by apply normalize_fixpoint in Hn.
    + injection Hn as <-. by split.
  - rewrite ingest_refuses_without_https in H by done. discriminate.
Qed.

(** X11.  What [ingest_identity] returns with validation on is a valid
    document: the URL is an HTTPS URL, the network answered with a value
    that the validator declares valid, without any error, and the result is
    that value, or with normalization on its normalized form, which is
    valid as well and which normalization leaves unchanged. *)
Theorem ingest_returns_valid_documents (identity_url : value) (timeout : Z)
    (no : bool) (doc : value) :
  ingest identity_url timeout true no = Ok doc ->
  exists url v,
    identity_url = VStr url /\ String.prefix "https://" url = true /\
    http_get url timeout = Response (Decoded v) /\
    validate v = Ok (Validation true []) /\
    validate doc = Ok (Validation true []) /\
    if no then normalize_identity v = Ok doc /\ normalize_identity doc = Ok doc
    else doc = v.
Proof. exact (ingest_Ok_inv identity_url timeout no doc). Qed.

(** X12.  With validation on, a valid document is normalized as
    [normalize_identity] does it, with no message added: the outcome is a
    document or [AttributeError].  The error "Failed to normalize
    identity" needs validation to be off: then it is raised exactly when
    the fetched value is no non-empty mapping. *)
Theorem ingest_normalization_failures (url : string) (timeout : Z) (v : value) :
  String.prefix "https://" url = true ->
  http_get url timeout = Response (Decoded v) ->
  (forall r, validate v = Ok r -> valid r = true ->
     ingest (VStr url) timeout true true = normalize_identity v /\
     (is_Ok (normalize_identity v) \/ normalize_identity v = Raise AttributeError)) /\
  (ingest (VStr url) timeout false true =
     Raise (ValueError "Failed to normalize identity: Invalid identity object") <->
   Py.truthy v && Py.isinstance_dict v = false).
Proof.
  intros Hurl Hget. split.
  - intros r Hv Hvalid. rewrite ingest_https, Hget by done.
    unfold ingest_validate. rewrite Hv. simpl. rewrite Hvalid. simpl.
    destruct (valid_normalize_outcome datetime fromisoformat decimal v r Hv Hvalid)
      as (m & p & b & -> & Hp & Hb & Hn).
    unfold ingest_normalize. rewrite Hn.
    destruct (sections_ok p); simpl; (split; [done|]); [left; by eexists|by right].
  - rewrite ingest_https, Hget by done. simpl. unfold ingest_normalize. split.
    + intros H. destruct (Py.truthy v && Py.isinstance_dict v) eqn:Hg; [|done].
      destruct v as [| | | | | |m];
        try (simpl in Hg; rewrite ?andb_false_r in Hg; discriminate).
      apply truthy_dict in Hg. destruct (well_formed m) eqn:Hwf.
      * apply well_formed_inv in Hwf as (p & b & Hp & Hb & Hok).
        rewrite (normalize_well_formed m p b) in H by done. discriminate.
      * destruct (normalize_ill_formed m Hg Hwf) as [Hr|Hr]; rewrite Hr in H;
          discriminate.
    + intros Hg. by rewrite normalize_guard.
Qed.

(** ** The SDK *)

Lemma extract_nonempty (m : gmap string value) :
  m ≠ ∅ ->
  extract_preferences (VDict m) = Ok (prefs_of m) /\
  extract_behaviors (VDict m) = Ok (behaviors_of m).
Proof.
  intros Hm. unfold extract_preferences, extract_behaviors. simpl.
  by rewrite bool_decide_eq_false_2.
Qed.

Lemma ingest_nonempty (identity_url : value) (timeout : Z) (va no : bool)
    (doc : value) :
  va || no = true -> ingest identity_url timeout va no = Ok doc ->
  exists m, doc = VDict m /\ m ≠ ∅.
Proof.
  intros Hflags H. destruct no.
  - assert (exists v, normalize_identity v = Ok doc) as [v Hn].
    { destruct (https_url identity_url) eqn:Hurl.
      - destruct identity_url as [| | | | url | |]; try discriminate.
        simpl in Hurl. rewrite ingest_https in H by done.
        destruct (http_get url timeout) as [[v|]| | |]; try discriminate.
        apply bind_Ok in H as ([] & _ & H). apply bind_Ok in H as (doc' & Hn & [= ->]).
        apply ingest_normalize_Ok in Hn. by exists v.
      - rewrite ingest_refuses_without_https in H by done. discriminate. }
    apply normalize_Ok_inv in Hn as (m & p & b & _ & _ & _ & _ & _ & ->).
    eexists. split; [done|]. apply insert_non_empty.
  - rewrite orb_false_r in Hflags. subst va.
    apply ingest_Ok_inv in H
      as (url & v & _ & _ & _ & Hv & _ & ->).
    apply (valid_inv datetime fromisoformat decimal) in Hv as (m & p & b & -> & Hm & _); [|done].
    by exists m.
Qed.

(** X13.  [load_preferences] and [load_behaviors] return exactly what
    [extract_preferences] and [extract_behaviors] find in the document that
    [load_identity] returns, and they cannot fail on it as long as
    validation or normalization is on; when the ingester fails, all three
    raise [ValueError], the two loaders with both prefixes in front of the
    text of the failure. *)
Theorem loaders_follow_load_identity (identity_url : value) (timeout : Z)
    (va no : bool) :
  (forall doc, load identity_url timeout va no = Ok doc ->
     va || no = true ->
     exists m,
       doc = VDict m /\
       load_prefs identity_url timeout va no = Ok (prefs_of m) /\
       load_behs identity_url timeout va no = Ok (behaviors_of m)) /\
  (forall e, ingest identity_url timeout va no = Raise e ->
     let text := String.append "Failed to load PIP identity: "
                   (exn_str interpreter_text e) in
     load identity_url timeout va no = Raise (ValueError text) /\
     load_prefs identity_url timeout va no =
       Raise (ValueError (String.append "Failed to load preferences: " text)) /\
     load_behs identity_url timeout va no =
       Raise (ValueError (String.append "Failed to load behaviors: " text))).
Proof.
  split.
  - intros doc H Hflags.
    unfold load_preferences, load_behaviors. rewrite H. simpl.
    unfold load_identity, rewrap in H.
    destruct (ingest identity_url timeout va no) as [doc'|] eqn:Hi; [|discriminate].
    injection H as ->.
    apply ingest_nonempty in Hi as (m & -> & Hm); [|done].
    destruct (extract_nonempty m Hm) as [-> ->]. by exists m.
  - intros e H text.
    unfold load_preferences, load_behaviors,
      load_identity. by rewrite H.
Qed.

Lemma apply_preferences_merged (p : gmap string value) (context : value) :
  sections_ok p = true ->
  apply_preferences (VDict (merged_preferences p)) context =
    Ok (VDict (merged_preferences p)).
Proof.
  intros Hok. apply merged_preferences_ok in Hok.
  unfold sections_ok in Hok. rewrite forallb_forall in Hok.
  assert (In ("ui", ui_defaults) canonical) as Hin by (by left).
  apply Hok in Hin. unfold section_ok in Hin. simpl in Hin.
  destruct (merged_preferences p !! "ui") as [[]|] eqn:Hui; try discriminate.
  - unfold apply_preferences. cbn [Py.truthy Py.contains Py.getitem].
    rewrite bool_decide_eq_false_2 by (intros E; by rewrite E, lookup_empty in Hui).
    rewrite Hui. reflexivity.
  - unfold merged_preferences in Hui. apply lookup_union_None in Hui as [_ Hui].
    apply display_canonical_None in Hui. exfalso. apply Hui.
    unfold canonical. simpl. apply list_elem_of_here.
Qed.

(** X14.  With normalization on, [load_and_apply] behaves as
    [load_identity]: it returns the same document, or raises the same
    exception; applying the preferences of a normalized document never
    fails and changes nothing. *)
Theorem load_and_apply_normalized (identity_url context : value) (timeout : Z)
    (va : bool) :
  load_apply identity_url context timeout va true =
  load identity_url timeout va true.
Proof.
  unfold load_and_apply.
  destruct (load identity_url timeout va true) as [doc|e] eqn:H; [|done].
  simpl. unfold load_identity, rewrap in H.
  destruct (ingest identity_url timeout va true) as [doc'|] eqn:Hi; [|discriminate].
  injection H as ->.
  assert (exists v, normalize_identity v = Ok doc) as [v Hn].
  { destruct (https_url identity_url) eqn:Hurl.
    - destruct identity_url as [| | | | url | |]; try discriminate.
      simpl in Hurl. rewrite ingest_https in Hi by done.
      destruct (http_get url timeout) as [[v|]| | |]; try discriminate.
      apply bind_Ok in Hi as ([] & _ & Hi). apply bind_Ok in Hi as (doc' & Hn & [= ->]).
      apply ingest_normalize_Ok in Hn. by exists v.
    - rewrite ingest_refuses_without_https in Hi by done. discriminate. }
  apply normalize_Ok_inv in Hn as (m & p & b & _ & _ & _ & _ & Hok & ->).
  simpl. rewrite lookup_normalized. simpl.
  by rewrite apply_preferences_merged.
Qed.

Lemma check_enum_membership (obj : value) (field : string) (allowed : list string)
    (msg : string) (errs errs' : list string) :
  check_enum obj field allowed msg errs = Ok errs' ->
  is_Ok (Py.contains field obj).
Proof.
  unfold check_enum. destruct (Py.contains field obj); [by eexists|discriminate].
Qed.

Lemma validated_ui_membership (p : gmap string value) (ui : value)
    (errs : list string) :
  _validate_preferences (VDict p) = Ok errs -> p !! "ui" = Some ui ->
  is_Ok (Py.contains "theme" ui) /\ is_Ok (Py.contains "density" ui).
Proof.
  intros H Hui. unfold _validate_preferences in H.
  apply bind_Ok in H as (e1 & H & _). unfold validate_ui in H. rewrite Hui in H.
  apply bind_Ok in H as (e2 & Htheme & H). apply bind_Ok in H as (e3 & Hdensity & _).
  split; by eapply check_enum_membership.
Qed.

Lemma valid_preferences (d : value) (r : validation) (m : gmap string value)
    (pv : value) :
  validate d = Ok r -> valid r = true -> d = VDict m ->
  m !! "preferences" = Some pv ->
  exists p, pv = VDict p /\ _validate_preferences (VDict p) = Ok [].
Proof.
  intros H Hvalid -> Hpv.
  destruct (valid_inv datetime fromisoformat decimal _ _ H Hvalid)
    as (m' & p & b & [= <-] & Hm & Hp & _).
  unfold prefs_of in Hp. rewrite Hpv in Hp. simpl in Hp. subst pv.
  exists p. split; [done|].
  apply (validate_Ok_inv datetime fromisoformat decimal) in H
    as (me & pe & be & _ & Hpe & _ & ->); [|done].
  unfold verdict in Hvalid. simpl in Hvalid. apply Nat.eqb_eq in Hvalid.
  apply nil_length_inv in Hvalid.
  apply app_eq_nil in Hvalid as [_ Hvalid].
  apply app_eq_nil in Hvalid as [_ Hvalid].
  apply app_eq_nil in Hvalid as [-> _].
  unfold validate_optional in Hpe. rewrite Hpv in Hpe.
  apply bind_Ok in Hpe as (new & Hnew & [= Hnil]). simpl in Hnil. by subst new.
Qed.

(** X15.  With validation on and normalization off, [load_and_apply]
    needs a document with [preferences]: on the valid document that
    [load_identity] returns it returns that document when the key is
    present, and when it is absent the subscript at line 146 raises
    [KeyError], which nothing turns into a [ValueError]. *)
Theorem load_and_apply_needs_preferences (identity_url context : value)
    (timeout : Z) (doc : value) :
  load identity_url timeout true false = Ok doc ->
  exists m,
    doc = VDict m /\
    load_apply identity_url context timeout true false =
      match m !! "preferences" with
      | Some _ => Ok doc
      | None => Raise KeyError
      end.
Proof.
  intros H. unfold load_and_apply. rewrite H. simpl.
  unfold load_identity, rewrap in H.
  destruct (ingest identity_url timeout true false) as [doc'|] eqn:Hi; [|discriminate].
  injection H as ->.
  apply ingest_Ok_inv in Hi as (url & v & _ & _ & _ & Hv & _ & ->).
  destruct (valid_inv datetime fromisoformat decimal _ _ Hv eq_refl)
    as (m & p & b & -> & Hm & Hp & _).
  exists m. split; [done|]. simpl.
  destruct (m !! "preferences") as [pv|] eqn:Hpv; [|done]. simpl.
  destruct (valid_preferences _ _ m pv Hv eq_refl eq_refl Hpv) as (p' & -> & Hclean).
  unfold apply_preferences. cbn [Py.truthy Py.contains Py.getitem].
  destruct (negb (negb (bool_decide (p' = ∅)))); [done|].
  destruct (p' !! "ui") as [ui|] eqn:Hui; [|done]. cbn.
  destruct (validated_ui_membership p' ui [] Hclean Hui) as [[b1 ->] [b2 ->]].
  done.
Qed.

End IngestProperties.

(** ** [apply_preferences] *)

(** X16.  [apply_preferences] never alters the preferences and ignores
    the context: it returns [None] for a falsy argument and the argument
    itself otherwise, it raises nothing but [TypeError], and it returns on
    every mapping whose [ui] is absent or a mapping. *)
Theorem apply_preferences_returns_argument (preferences context : value) :
  (forall r, apply_preferences preferences context = Ok r ->
     r = if Py.truthy preferences then preferences else VNone) /\
  (forall e, apply_preferences preferences context = Raise e -> e = TypeError) /\
  (forall other, apply_preferences preferences other =
                 apply_preferences preferences context) /\
  (forall d, preferences = VDict d -> section_ok d "ui" = true ->
     is_Ok (apply_preferences preferences context)).
Proof.
  unfold apply_preferences. repeat split.
  - intros r. destruct (Py.truthy preferences); simpl; [|congruence].
    intros (has_ui & _ & H)%bind_Ok. apply bind_Ok in H as (? & _ & H). congruence.
  - intros e H. destruct (Py.truthy preferences); simpl in H; [|discriminate].
    raise_cases.
  - intros d -> Hok. unfold section_ok in Hok. unfold is_Ok.
    cbn [Py.truthy Py.contains Py.getitem].
    destruct (negb (negb (bool_decide (d = ∅)))); [by eexists|].
    destruct (d !! "ui") as [[]|]; try discriminate; by eexists.
Qed.

Lemma apply_preferences_returns_argument_witness :
  apply_preferences Doc.colorblind_yes VNone = Ok Doc.colorblind_yes.
Proof.
  destruct (apply_preferences_returns_argument Doc.colorblind_yes VNone)
    as (Hret & _ & _ & Hok).
  destruct (Hok _ eq_refl eq_refl) as [r Hr].
  rewrite Hr. f_equal. apply (Hret r Hr).
Defined.

(** ** The properties of the ingester and of the SDK at sample requests *)

Lemma ingest_refuses_without_https_witness :
  ingest_identity unit IsoShape.fromisoformat Unicode.decimal (serving minimal_document)
    (VStr "http://example.com/identity.json") 5 true true =
  Raise (ValueError "Identity URL must use HTTPS for security").
Proof.
  apply (ingest_refuses_without_https unit IsoShape.fromisoformat Unicode.decimal
           (serving minimal_document) (VStr "http://example.com/identity.json")).
  reflexivity.
Defined.

Lemma ingest_returns_valid_documents_witness :
  exists doc,
    ingest_identity unit IsoShape.fromisoformat Unicode.decimal (serving minimal_document)
      example_url 5 true true = Ok doc /\
    validate_identity unit IsoShape.fromisoformat Unicode.decimal doc = Ok (Validation true []).
Proof.
  destruct (ingest_identity unit IsoShape.fromisoformat Unicode.decimal (serving minimal_document)
              example_url 5 true true) as [doc|e] eqn:H.
  - exists doc. split; [reflexivity|].
    destruct (ingest_returns_valid_documents unit IsoShape.fromisoformat Unicode.decimal
                (serving minimal_document) example_url 5 true doc H)
      as (url & v & _ & _ & _ & _ & Hdoc & _).
    exact Hdoc.
  - vm_compute in H. discriminate.
Defined.

Lemma ingest_normalization_failures_witness :
  ingest_identity unit IsoShape.fromisoformat Unicode.decimal (serving list_ui_document)
    example_url 5 true true = Raise AttributeError.
Proof.
  destruct (ingest_normalization_failures unit IsoShape.fromisoformat Unicode.decimal
              (serving list_ui_document) "https://example.com/identity.json" 5
              list_ui_document) as [Hvalid _].
  - reflexivity.
  - reflexivity.
  - destruct (Hvalid (Validation true [])) as [Heq _].
    + by vm_compute.
    + reflexivity.
    + unfold example_url. rewrite Heq. by vm_compute.
Defined.

Lemma loaders_follow_load_identity_witness :
  load_behaviors unit IsoShape.fromisoformat Unicode.decimal (serving minimal_document)
    (fun _ => EmptyString) example_url 5 true false = Ok (VDict ∅).
Proof.
  destruct (loaders_follow_load_identity unit IsoShape.fromisoformat Unicode.decimal
              (serving minimal_document) (fun _ => EmptyString) example_url 5 true false)
    as [Hload _].
  destruct (Hload minimal_document) as (m & Hm & _ & Hb).
  - by vm_compute.
  - reflexivity.
  - rewrite Hb. injection Hm as <-. reflexivity.
Defined.

Lemma load_and_apply_needs_preferences_witness :
  load_and_apply unit IsoShape.fromisoformat Unicode.decimal (serving minimal_document)
    (fun _ => EmptyString) example_url VNone 5 true false = Raise KeyError.
Proof.
  destruct (load_and_apply_needs_preferences unit IsoShape.fromisoformat Unicode.decimal
              (serving minimal_document) (fun _ => EmptyString) example_url VNone 5
              minimal_document) as (m & Hm & Hrun).
  - by vm_compute.
  - rewrite Hrun. injection Hm as <-. reflexivity.
Defined.

Lemma validate_outcomes_witness :
  validate_identity unit IsoShape.fromisoformat Unicode.decimal Doc.scalar_metadata = Raise TypeError /\
  errors (Validation true []) = [].
Proof.
  split.
  - destruct (validate_identity unit IsoShape.fromisoformat Unicode.decimal Doc.scalar_metadata)
      as [r|e] eqn:H; [vm_compute in H; discriminate|].
    f_equal.
    exact (proj1 (validate_outcomes unit IsoShape.fromisoformat Unicode.decimal Doc.scalar_metadata) e H).
  - apply (proj2 (validate_outcomes unit IsoShape.fromisoformat Unicode.decimal minimal_document)
             (Validation true [])); [by vm_compute|reflexivity].
Defined.

(** * Time stamps and channels of documents of the expected shape *)

Lemma replace_Z_without_Z (s : string) :
  "Z"%char ∉ characters s -> Py.replace_Z s = s.
Proof.
  induction s as [|c s IH]; [done|]. cbn [characters Py.replace_Z].
  intros [Hc Hs]%not_elem_of_cons.
  rewrite bool_decide_eq_false_2 by congruence. by rewrite IH.
Qed.

Lemma is_substring_T_characters (s : string) :
  Py.is_substring "T" s = true <-> "T"%char ∈ characters s.
Proof.
  induction s as [|c s IH].
  - split; [discriminate|by intros ?%elem_of_nil].
  - cbn [Py.is_substring characters String.prefix].
    assert (String.prefix EmptyString s = true) as -> by (by destruct s).
    rewrite elem_of_cons, orb_true_iff, IH.
    destruct (ascii_dec "T" c) as [->|Hne]; split;
      intros [H|H]; auto; done.
Qed.

Section ExpectedShape.

Variable datetime : Type.
Variable fromisoformat : string -> option datetime.
Variable decimal : N -> bool.

#[local] Abbreviation is_valid := (_is_valid_iso8601 datetime fromisoformat).
#[local] Abbreviation validate := (validate_identity datetime fromisoformat decimal).
#[local] Abbreviation stamp_errors := (timestamp_errors datetime fromisoformat).

(** X17.  When [metadata] is a mapping, [created] and [updated] are checked
    independently, each for presence and for validity: the errors of the
    validator are those of [version], then those of [created], then those
    of [updated], then those of the optional sections; a time stamp
    contributes its error "Missing required field: metadata.<field>" when
    it is absent, its error about ISO 8601 when it is present and not
    valid, and nothing otherwise, whatever the other time stamp is, so
    that two bad time stamps give two errors.  A value that is no string
    is never valid; a string without the letter Z is valid exactly when
    the parser accepts it and it holds the letter T, so that the date
    ["2024-01-01"] is not valid whatever the parser accepts; and the time
    stamp ["2024-01-01T00:00:00Z"] is valid as soon as the parser accepts
    it with the offset [+00:00] in the place of the Z. *)
Theorem timestamps_checked_independently :
  (forall m md, m ≠ ∅ -> m !! "metadata" = Some (VDict md) ->
     validate (VDict m) =
       pe ← validate_optional m "preferences" _validate_preferences [];
       be ← validate_optional m "behaviors" _validate_behaviors [];
       Ok (verdict (validate_version decimal m [] ++
                    stamp_errors md "created" Msg.created_missing Msg.created_invalid ++
                    stamp_errors md "updated" Msg.updated_missing Msg.updated_invalid ++
                    pe ++ be))) /\
  (forall md field missing invalid,
     stamp_errors md field missing invalid =
       match md !! field with
       | None => [missing]
       | Some stamp => if is_valid stamp then [] else [invalid]
       end) /\
  [Msg.created_missing; Msg.created_invalid; Msg.updated_missing; Msg.updated_invalid] =
    Wording.about_stamps /\
  (forall v, Py.isinstance_str v = false -> is_valid v = false) /\
  (forall s, "Z"%char ∉ characters s ->
     is_valid (VStr s) = true <->
     fromisoformat s ≠ None /\ "T"%char ∈ characters s) /\
  (forall md,
     (forall stamp, md !! "created" = Some stamp -> is_valid stamp = false) ->
     (forall stamp, md !! "updated" = Some stamp -> is_valid stamp = false) ->
     length (stamp_errors md "created" Msg.created_missing Msg.created_invalid ++
             stamp_errors md "updated" Msg.updated_missing Msg.updated_invalid) = 2) /\
  is_valid (VStr "2024-01-01") = false /\
  (fromisoformat "2024-01-01T00:00:00+00:00" ≠ None ->
   is_valid (VStr "2024-01-01T00:00:00Z") = true) /\
  validate Doc.date_only =
    Ok (Validation false
          ["Missing required field: version";
           Wording.field_error "metadata.created" " must be a valid ISO 8601 date-time";
           Wording.field_error "metadata.updated" " must be a valid ISO 8601 date-time"]).
Proof.
  assert (forall s, "Z"%char ∉ characters s ->
            is_valid (VStr s) = true <->
            fromisoformat s ≠ None /\ "T"%char ∈ characters s) as Hplain.
  { intros s Hs. unfold _is_valid_iso8601. rewrite replace_Z_without_Z by done.
    rewrite <- is_substring_T_characters.
    destruct (fromisoformat s); split; try done; [by intros [_ ?]|by intros [? _]]. }
  split; [|split; [|split; [|split; [|split; [|split; [|split; [|split]]]]]]].
  - intros m md Hm Hmd. rewrite validate_nonempty by done.
    unfold later_checks, validate_metadata. rewrite Hmd.
    rewrite check_timestamp_dict. simpl. rewrite check_timestamp_dict. simpl.
    destruct (validate_optional m "preferences" _ []) as [pe|]; simpl; [|done].
    destruct (validate_optional m "behaviors" _ []) as [be|]; simpl; [|done].
    by rewrite <- !app_assoc.
  - reflexivity.
  - reflexivity.
  - intros v Hv. by destruct v.
  - exact Hplain.
  - intros md Hc Hu. rewrite length_app. unfold timestamp_errors.
    destruct (md !! "created") as [c|]; [rewrite (Hc c eq_refl)|];
      (destruct (md !! "updated") as [u|]; [rewrite (Hu u eq_refl)|]); reflexivity.
  - destruct (is_valid (VStr "2024-01-01")) eqn:E; [|done].
    apply Hplain in E as [_ HT].
    + vm_compute in HT. repeat (apply elem_of_cons in HT as [HT|HT]; [discriminate|]).
      by apply elem_of_nil in HT.
    + intros HZ. vm_compute in HZ.
      repeat (apply elem_of_cons in HZ as [HZ|HZ]; [discriminate|]).
      by apply elem_of_nil in HZ.
  - intros Hparse. unfold _is_valid_iso8601.
    change (Py.replace_Z "2024-01-01T00:00:00Z") with "2024-01-01T00:00:00+00:00".
    by destruct (fromisoformat "2024-01-01T00:00:00+00:00").
  - vm_compute. by destruct (fromisoformat _).
Qed.

(** X18.  When [notifications.channels] is a list of strings of which one
    or more are outside the channels of the table, the validator returns on
    a document of safe shape, and whenever it returns it declares the
    document invalid and reports the strings outside the table in exactly
    one error: "Invalid notification channels: " followed by these
    strings, in their order, separated by a comma and a space.  So the
    channels fax, email, carrier-pigeon and push give the one error
    "Invalid notification channels: fax, carrier-pigeon", and the
    end-to-end document of the specification gets the one error
    "Invalid notification channels: carrier-pigeon" and no other, provided
    the parser accepts its two time stamps. *)
Theorem channels_one_aggregate_error :
  (forall m p n names,
     m !! "preferences" = Some (VDict p) ->
     p !! "notifications" = Some (VDict n) ->
     n !! "channels" = Some (VList (VStr <$> names)) ->
     invalid_names names ≠ [] ->
     (forall r, validate (VDict m) = Ok r ->
        valid r = false /\
        List.filter (String.prefix "Invalid notification channels: ") (errors r) =
          [aggregate names]) /\
     (document_safe m = true -> is_Ok (validate (VDict m)))) /\
  aggregate ["fax"; "email"; "carrier-pigeon"; "push"] =
    "Invalid notification channels: fax, carrier-pigeon" /\
  aggregate ["in-app"; "carrier-pigeon"] =
    "Invalid notification channels: carrier-pigeon" /\
  (fromisoformat "2024-01-01T00:00:00+00:00" ≠ None ->
   validate Doc.carrier_pigeon =
     Ok (Validation false ["Invalid notification channels: carrier-pigeon"]) /\
   validate Doc.two_strays =
     Ok (Validation false ["Invalid notification channels: fax, carrier-pigeon"])).
Proof.
  split; [|split; [reflexivity|split; [reflexivity|]]].
  - intros m p n names Hp Hn Hc Hne. split; [|apply validate_safe].
    intros r Hr.
    assert (m ≠ ∅) as Hm by (intros ->; by rewrite lookup_empty in Hp).
    apply validate_Ok_inv in Hr as (me & pe & be & Hme & Hpe & Hbe & ->); [|done].
    unfold validate_optional in Hpe. rewrite Hp in Hpe.
    apply bind_Ok in Hpe as (new & Hnew & [= <-]). simpl in Hbe |- *.
    rewrite _validate_preferences_schema in Hnew.
    change "Invalid notification channels: " with Msg.channels_prefix.
    assert (List.filter (String.prefix Msg.channels_prefix) new = [aggregate names]) as Hagg.
    { apply filter_singleton.
      - eapply (run_schema_elem _ preferences_schema _ "notifications" _ _ CChannels);
          [exact Hnew|unfold preferences_schema; find_elem|exact Hn|find_elem|].
        by apply check_channels_fires.
      - unfold aggregate. apply prefix_append.
      - apply (run_schema_count _ (loud_prefix Msg.channels_prefix)
                 (loud_prefix_spec Msg.channels_prefix)) in Hnew.
        exact Hnew. }
    assert (List.filter (String.prefix Msg.channels_prefix)
              (validate_version decimal m [] ++ me ++ new ++ be) = [aggregate names]) as Hall.
    { rewrite !List.filter_app, Hagg.
      rewrite (metadata_silent datetime fromisoformat _ m me) by done.
      rewrite (behaviors_silent _ (loud_prefix Msg.channels_prefix)
                 (loud_prefix_spec Msg.channels_prefix) m be) by done.
      assert (List.filter (String.prefix Msg.channels_prefix) (validate_version decimal m []) = [])
        as ->; [|done].
      pose proof (validate_version_messages decimal m) as Hv.
      induction Hv as [|e l He _ IH]; [done|]. simpl. rewrite IH.
      unfold version_messages in He.
      repeat (apply elem_of_cons in He as [->|He]; [done|]).
      by apply elem_of_nil in He. }
    split; [|exact Hall].
    destruct (validate_version decimal m [] ++ me ++ new ++ be); [discriminate|done].
  - intros Hparse. split; vm_compute; vm_compute in Hparse;
      by destruct (fromisoformat _).
Qed.

End ExpectedShape.

Lemma timestamps_checked_independently_witness :
  validate_identity unit IsoShape.fromisoformat Unicode.decimal Doc.date_only =
    Ok (Validation false
          ["Missing required field: version";
           Wording.field_error "metadata.created" " must be a valid ISO 8601 date-time";
           Wording.field_error "metadata.updated" " must be a valid ISO 8601 date-time"]) /\
  _is_valid_iso8601 unit IsoShape.fromisoformat (VStr "2024-01-01T00:00:00Z") = true /\
  IsoShape.fromisoformat "2024-01-01" = Some tt.
Proof.
  destruct (timestamps_checked_independently unit IsoShape.fromisoformat Unicode.decimal)
    as (Hsteps & _ & _ & _ & _ & _ & _ & Hzulu & _).
  split; [|split; [apply Hzulu; discriminate|reflexivity]].
  unfold Doc.date_only, Sample.dict.
  rewrite (Hsteps _ (display [("created", VStr "2024-01-01"); ("updated", VStr "2024-01-01")])).
  - reflexivity.
  - apply (display_nonempty _ []).
  - reflexivity.
Defined.

Lemma channels_one_aggregate_error_witness :
  validate_identity unit IsoShape.fromisoformat Unicode.decimal Doc.two_strays =
    Ok (Validation false ["Invalid notification channels: fax, carrier-pigeon"]) /\
  List.filter (String.prefix "Invalid notification channels: ")
    ["Invalid notification channels: fax, carrier-pigeon"] =
    [aggregate ["fax"; "email"; "carrier-pigeon"; "push"]].
Proof.
  destruct (channels_one_aggregate_error unit IsoShape.fromisoformat Unicode.decimal)
    as (Hone & _ & _ & Hdoc).
  assert (validate_identity unit IsoShape.fromisoformat Unicode.decimal Doc.two_strays =
          Ok (Validation false ["Invalid notification channels: fax, carrier-pigeon"]))
    as Hrun.
  { apply Hdoc. discriminate. }
  split; [exact Hrun|].
  destruct (Hone
              (display [("version", VStr "0.1.0"); ("metadata", Doc.stamps);
                        ("preferences",
                         Sample.dict [("notifications",
                           Sample.dict [("channels",
                             VList [VStr "fax"; VStr "email"; VStr "carrier-pigeon";
                                    VStr "push"])])])])
              (display [("notifications",
                         Sample.dict [("channels",
                           VList [VStr "fax"; VStr "email"; VStr "carrier-pigeon";
                                  VStr "push"])])])
              (display [("channels",
                         VList [VStr "fax"; VStr "email"; VStr "carrier-pigeon";
                                VStr "push"])])
              ["fax"; "email"; "carrier-pigeon"; "push"]) as [Hfilter _].
  - reflexivity.
  - reflexivity.
  - reflexivity.
  - discriminate.
  - exact (proj2 (Hfilter _ Hrun)).
Defined.
